(** * Bottleneck networks: orchestration of staged training

    A shallow embedding of [bottleneck_networks.py]: the three model classes
    [ClassificationPreTrain], [StraightRegression] and [FreezeUnfreeze], the
    regulariser [ElasticNet] and the metric [r2_score].

    What Keras computes inside [fit], [predict], [evaluate] and the weight
    initialiser is opaque: these are the operations of the class [Keras].
    What the program itself does around them (which model it hands to which
    call, with which callbacks, which files it writes and reads back, how it
    selects and transplants weights) is modelled step by step in an
    error/state monad over a file store and a log of the Keras calls. *)

From Stdlib Require Import ZArith Ascii String List Lia.
From Stdlib Require DecimalString.
From stdpp Require Import base list sorting strings gmap.

Local Open Scope string_scope.

(** ** Numbers

    TensorFlow and NumPy compute on floating-point numbers.  The development
    is generic in the scalar type: it only names the operations the program
    uses.  Python literals such as [1], [0] and [2] enter through [of_Z]. *)

Class FloatOps (F : Type) := {
  of_Z : Z -> F;
  fadd : F -> F -> F;
  fsub : F -> F -> F;
  fmul : F -> F -> F;
  fdiv : F -> F -> F;
  fneg : F -> F;
  fsqrt : F -> F;
  fleb : F -> F -> bool
}.

(** The few facts about these operations that the proofs rely on; all of
    them hold of IEEE arithmetic. *)
Class FloatLaws (F : Type) `{FloatOps F} := {
  fadd_fneg : forall x y : F, fadd x (fneg y) = fsub x y;
  fmul_0_0 : fmul (of_Z 0) (of_Z 0) = of_Z 0 :> F;
  fadd_0_0 : fadd (of_Z 0) (of_Z 0) = of_Z 0 :> F
}.

(** Comparison is a total preorder on the values that are not NaN. *)
Class FloatOrder (F : Type) `{FloatOps F} := {
  fleb_total : forall x y : F, fleb x y = true \/ fleb y x = true;
  fleb_trans : forall x y z : F,
    fleb x y = true -> fleb y z = true -> fleb x z = true
}.

(** Integer arithmetic as an instance, to run the definitions. *)
#[export] Instance Z_FloatOps : FloatOps Z := {|
  of_Z := fun z => z;
  fadd := Z.add; fsub := Z.sub; fmul := Z.mul; fdiv := Z.div;
  fneg := Z.opp; fsqrt := Z.sqrt; fleb := Z.leb
|}.

(** A Python number: the hyper-parameters [l1], [l2] and [lr] are passed as
    [int] or [float]; the pruned rebuild passes the literal [0]. *)
Inductive PyNum (F : Type) :=
| PyInt (z : Z)
| PyFloat (f : F).
Arguments PyInt {F} z.
Arguments PyFloat {F} f.

Section Tensors.
Context {F : Type} {ops : FloatOps F}.

(** [float(x)] *)
Definition float_ (x : PyNum F) : F :=
  match x with
  | PyInt z => of_Z z
  | PyFloat f => f
  end.

(** [x / 2] on Python numbers is true division. *)
Definition py_half (x : PyNum F) : PyNum F :=
  PyFloat (fdiv (float_ x) (of_Z 2)).

(** A 1-D array is a list, a 2-D array a list of rows.  Two arrays that
    are combined entry by entry are taken to have the same shape (NumPy
    would broadcast or raise otherwise). *)

Definition square (x : F) : F := fmul x x.

(** [reduce_sum] / [np.sum] of a 1-D array, starting from [0]. *)
Definition vsum (v : list F) : F := foldl fadd (of_Z 0) v.

(** [tf.reduce_sum] / [np.sum] over all the entries of a 2-D array. *)
Definition reduce_sum (x : list (list F)) : F := vsum (concat x).

Definition tf_square (x : list (list F)) : list (list F) := map (map square) x.
Definition tf_neg (x : list (list F)) : list (list F) := map (map fneg) x.
Definition tf_add (x y : list (list F)) : list (list F) :=
  zip_with (zip_with fadd) x y.
Definition np_sub (x y : list (list F)) : list (list F) :=
  zip_with (zip_with fsub) x y.

(** [tf.norm(x, ord=2, axis=1)] and [np.linalg.norm(x, ord=2, axis=1)]: the
    Euclidean norm of every row. *)
Definition row_norm (r : list F) : F := fsqrt (vsum (map square r)).
Definition norm_axis1 (x : list (list F)) : list F := map row_norm x.

(** [r2_score] (lines 23-26). *)
Definition r2_score (y_truth y_pred : list (list F)) : F :=
  let residual := tf_add y_truth (tf_neg y_pred) in
  fsub (of_Z 1)
       (fdiv (reduce_sum (tf_square residual))
             (reduce_sum (tf_square y_truth))).

(** The expression [1-np.sum((y - p)**2) / np.sum(y**2)] that [train]
    writes out for every reported R^2 (lines 257-258, 326-329, 506-509,
    575-578). *)
Definition np_r2 (y p : list (list F)) : F :=
  fsub (of_Z 1)
       (fdiv (reduce_sum (tf_square (np_sub y p)))
             (reduce_sum (tf_square y))).

(** A target array whose entries are all [0]. *)
Definition all_zero (y : list (list F)) : Prop :=
  Forall (Forall (fun v => v = of_Z 0)) y.

(** ** ElasticNet (lines 28-39) *)

Record ElasticNet := mkElasticNet { l1 : PyNum F; l2 : PyNum F }.

Definition ElasticNet_call (self : ElasticNet) (x : list (list F)) : F :=
  fadd (fmul (float_ (l2 self)) (reduce_sum (tf_square x)))
       (fmul (float_ (l1 self)) (vsum (norm_axis1 x))).

(** [get_config] returns a dict with the two keys ['l1'] and ['l2']. *)
Definition ElasticNet_get_config (self : ElasticNet) : gmap string F :=
  <["l1" := float_ (l1 self)]> (<["l2" := float_ (l2 self)]> ∅).

(** Keras rebuilds a regulariser from its config by calling the class on
    the entries of the config as keyword arguments (the [from_config] that
    [ElasticNet] inherits); the constructor has the
    defaults [l1=1e-8], [l2=1.0] for an absent key, which enter here as
    [dflt1] and [dflt2]. *)
Definition ElasticNet_from_config (dflt1 dflt2 : F) (config : gmap string F)
  : ElasticNet :=
  {| l1 := PyFloat (default dflt1 (config !! "l1"));
     l2 := PyFloat (default dflt2 (config !! "l2")) |}.

End Tensors.

Arguments ElasticNet F : clear implicits.

(** ** The Keras objects the program builds and passes around *)

Inductive PyError := KeyError | IndexError | TypeError | ValueError | OSError.

Inductive Result (A : Type) :=
| Ok (a : A)
| Raise (e : PyError).
Arguments Ok {A} a.
Arguments Raise {A} e.

(** The two callbacks, with the keyword arguments the program gives them. *)
Inductive Callback :=
| EarlyStopping (monitor mode : string) (verbose patience : Z)
| ModelCheckpoint (filepath monitor mode : string) (verbose : Z)
                  (save_best_only : bool).

Section KerasObjects.
Context {F : Type}.

Inductive Tensor :=
| Arr1 (v : list F)
| Arr2 (k : list (list F)).

Inductive Regularizer :=
| regularizers_l2 (l : PyNum F)
| RegElasticNet (e : ElasticNet F).

(** A built [Dense] layer: its constructor arguments, the number of rows of
    its kernel ([input_dim], fixed when the layer is added to a model) and
    its two weight arrays. *)
Record Dense := mkDense {
  name : string;
  units : nat;
  input_dim : nat;
  activation : string;
  kernel_regularizer : option Regularizer;
  bias_regularizer : option Regularizer;
  trainable : bool;
  kernel : list (list F);
  bias : list F
}.

(** What [compile] records: the loss, the learning rate of [Adam] and the
    metrics (the function [r2_score] by its name). *)
Record Compiled := mkCompiled {
  loss : string;
  Adam_lr : PyNum F;
  metrics : list string
}.

Record Model := mkModel {
  layers : list Dense;
  compiled : option Compiled
}.

(** What one call of [fit] leaves behind: the model with its weights after
    the last epoch run, [H.history], and the model the [ModelCheckpoint]
    callback wrote to its file last, if it wrote at all. *)
Record FitOutcome := mkFitOutcome {
  fitted : Model;
  history : gmap string (list F);
  checkpointed : option Model
}.

(** The log of the calls into Keras, newest first. *)
Inductive Event :=
| EvCompile (m : Model)
| EvFit (m : Model) (x y : list (list F)) (batch_size : Z)
        (validation_data : option (list (list F) * list (list F)))
        (epochs verbose : Z) (callbacks : list Callback)
| EvLoadWeights (path : string) (m : Model)
| EvLoadModel (path : string) (m : Model)
| EvSave (path : string) (m : Model).

(** The files under [KerasSavedModels/] and the log. *)
Record World := mkWorld {
  files : gmap string Model;
  log : list Event
}.

End KerasObjects.

Arguments Tensor F : clear implicits.
Arguments Regularizer F : clear implicits.
Arguments Dense F : clear implicits.
Arguments Compiled F : clear implicits.
Arguments Model F : clear implicits.
Arguments FitOutcome F : clear implicits.
Arguments Event F : clear implicits.
Arguments World F : clear implicits.

(** The part of Keras that is not modelled: training, the forward pass, the
    evaluation of the compiled loss and metrics, the random initial kernel
    of a layer (by layer name and shape) and the one-hot encoding. *)
Class Keras (F : Type) := {
  kernel_initializer : string -> nat -> nat -> list (list F);
  keras_fit : Model F -> list (list F) -> list (list F) -> Z ->
              option (list (list F) * list (list F)) -> Z ->
              list Callback -> FitOutcome F;
  predict : Model F -> list (list F) -> list (list F);
  evaluate : Model F -> list (list F) -> list (list F) -> list F;
  to_categorical : list Z -> list (list F)
}.

(** ** The monad of the methods: errors and the world *)

Definition M (F A : Type) : Type := World F -> Result (A * World F).

Definition ret {F A} (a : A) : M F A := fun w => Ok (a, w).

Definition bind {F A B} (c : M F A) (k : A -> M F B) : M F B :=
  fun w =>
    match c w with
    | Ok (a, w1) => k a w1
    | Raise e => Raise e
    end.

Definition raise {F A} (e : PyError) : M F A := fun _ => Raise e.

(** A step that fails with [e] when it has no value. *)
Definition try_ {F A} (e : PyError) (o : option A) : M F A :=
  match o with
  | Some a => ret a
  | None => raise e
  end.

Notation "'let*' x ':=' c 'in' k" := (bind c (fun x => k))
  (at level 10, x pattern, c at level 100, k at level 200).

(** ** Python and NumPy helpers *)

(** [str(n)] of an [int]. *)
Definition str (z : Z) : string :=
  DecimalString.NilZero.string_of_int (Z.to_int z).

(** [template.format(args)]: every [{}] takes the next argument (a
    placeholder for which no argument is left stays as it is; the program
    always gives three arguments to three placeholders). *)
Fixpoint format (template : string) (args : list string) : string :=
  match template with
  | EmptyString => EmptyString
  | String "{"%char (String "}"%char rest) =>
      match args with
      | a :: args' => a ++ format rest args'
      | [] => String "{"%char (String "}"%char (format rest []))
      end
  | String c rest => String c (format rest args)
  end.

Definition format_ids (template : string) (cvfold_id l1_id l2_id : Z) : string :=
  format template [str cvfold_id; str l1_id; str l2_id].

(** [a[idx]] with an index array: [IndexError] when an index is out of
    range (the indices here are never negative). *)
Definition take_indices {A} (a : list A) (idx : list nat) : option (list A) :=
  mapM (fun i => a !! i) idx.

(** [x[:, idx]] *)
Definition select_columns {A} (x : list (list A)) (idx : list nat)
  : option (list (list A)) :=
  mapM (fun row => take_indices row idx) x.

Section Argsort.
Context {F : Type} {ops : FloatOps F}.

(** The order [np.argsort] sorts by: the value at the index. *)
Definition key_le (p q : nat * F) : Prop := fleb (snd p) (snd q) = true.

#[export] Instance key_le_dec : RelDecision key_le.
Proof. intros p q. unfold key_le. apply _. Defined.

(** [np.argsort(v)]: the indices of [v], sorted by value.  NumPy's default
    sort is not stable, so which of two indices with equal values comes
    first is left open by NumPy; the merge sort used here fixes one order,
    and nothing proved below depends on which. *)
Definition argsort (v : list F) : list nat :=
  (merge_sort key_le (zip (seq 0 (length v)) v)).*1.

(** [a[-25:]] *)
Definition last25 {A} (a : list A) : list A := drop (length a - 25) a.

(** [np.argsort(np.linalg.norm(weight, ord=2, axis=1))[-25:]] *)
Definition top25_by_norm (weight : list (list F)) : list nat :=
  last25 (argsort (norm_axis1 weight)).

(** What it means for [ind] to be the 25 rows of largest norm: 25 distinct
    row indices, and no row left out has a larger norm than a row kept. *)
Definition largest_25_rows (weight : list (list F)) (ind : list nat) : Prop :=
  length ind = 25 /\ NoDup ind /\
  (forall i, i ∈ ind -> i < length weight) /\
  (forall i j ri rj, i ∈ ind -> j ∉ ind ->
     weight !! i = Some ri -> weight !! j = Some rj ->
     fleb (row_norm rj) (row_norm ri) = true).

End Argsort.

(** ** The Keras calls of the program *)

Section KerasCalls.
Context {F : Type} {ops : FloatOps F} {keras : Keras F}.

(** [Sequential()] *)
Definition Sequential : Model F := mkModel [] None.

(** [Dense(n, activation=.., kernel_regularizer=.., bias_regularizer=..,
    trainable=.., name=..)], built for [d] inputs: the kernel starts from
    the initialiser, the bias from zeros. *)
Definition new_Dense (nm : string) (n d : nat) (act : string)
    (kreg breg : option (Regularizer F)) (tr : bool) : Dense F :=
  mkDense nm n d act kreg breg tr
          (kernel_initializer nm d n) (replicate n (of_Z 0)).

(** [m.add(Dense(.., input_shape=(d,), ..))].  The kernel has as many rows
    as [input_shape] says or, without it, as the previous layer has
    units. *)
Definition add (m : Model F) (n : nat) (act : string)
    (input_shape : option nat)
    (kreg breg : option (Regularizer F)) (tr : bool) (nm : string)
  : Model F :=
  let d := match input_shape with
           | Some d => d
           | None => from_option units 0 (last (layers m))
           end in
  mkModel (layers m ++ [new_Dense nm n d act kreg breg tr]) (compiled m).

(** [m.compile(loss=.., optimizer=Adam(lr=..), metrics=..)] *)
Definition compile (m : Model F) (ls : string) (lr : PyNum F)
    (ms : list string) : M F (Model F) :=
  fun w =>
    let m' := mkModel (layers m) (Some (mkCompiled ls lr ms)) in
    Ok (m', mkWorld (files w) (EvCompile m' :: log w)).

(** [m.get_weights()]: kernel and bias of every layer, in order. *)
Definition get_weights (m : Model F) : list (Tensor F) :=
  flat_map (fun l => [Arr2 (kernel l); Arr1 (bias l)]) (layers m).

Definition has_shape (r c : nat) (k : list (list F)) : bool :=
  (length k =? r)%nat && forallb (fun row => (length row =? c)%nat) k.

(** A layer with other weight arrays, and what of a layer is not its
    weights. *)
Definition with_weights (l : Dense F) (k : list (list F)) (b : list F)
  : Dense F :=
  mkDense (name l) (units l) (input_dim l) (activation l)
          (kernel_regularizer l) (bias_regularizer l) (trainable l) k b.

Definition Dense_config (l : Dense F) :=
  (name l, units l, input_dim l, activation l,
   kernel_regularizer l, bias_regularizer l, trainable l).

(** [layer.set_weights(ws)]: a kernel and a bias of the shapes of the layer,
    [ValueError] otherwise. *)
Definition Dense_set_weights (l : Dense F) (ws : list (Tensor F))
  : option (Dense F) :=
  match ws with
  | [Arr2 k; Arr1 b] =>
      if has_shape (input_dim l) (units l) k && (length b =? units l)%nat
      then Some (with_weights l k b)
      else None
  | _ => None
  end.

(** [m.get_layer(nm).set_weights(ws)]: the first layer of that name;
    [ValueError] when there is none. *)
Fixpoint set_layer_weights (ls : list (Dense F)) (nm : string)
    (ws : list (Tensor F)) : option (list (Dense F)) :=
  match ls with
  | [] => None
  | l :: ls' =>
      if String.eqb (name l) nm
      then l' ← Dense_set_weights l ws; Some (l' :: ls')
      else ls'' ← set_layer_weights ls' nm ws; Some (l :: ls'')
  end.

Definition get_layer (m : Model F) (nm : string) : option (Dense F) :=
  List.find (fun l => String.eqb (name l) nm) (layers m).

(** One layer under [load_weights(.., by_name=True)]: when the file has a
    layer of the same name the layer takes its weights ([ValueError] when
    the shapes differ), otherwise it keeps its own.  Layer names are unique
    within a Keras model, so the first match is the only one. *)
Definition load_layer_by_name (file : Model F) (l : Dense F)
  : option (Dense F) :=
  match get_layer file (name l) with
  | Some s => Dense_set_weights l [Arr2 (kernel s); Arr1 (bias s)]
  | None => Some l
  end.

(** [m.load_weights(path, by_name=True)] *)
Definition load_weights (m : Model F) (path : string) : M F (Model F) :=
  fun w =>
    match files w !! path with
    | None => Raise OSError
    | Some file =>
        match mapM (load_layer_by_name file) (layers m) with
        | None => Raise ValueError
        | Some ls =>
            let m' := mkModel ls (compiled m) in
            Ok (m', mkWorld (files w) (EvLoadWeights path m' :: log w))
        end
    end.

(** [load_model(path, custom_objects=..)] *)
Definition load_model (path : string) : M F (Model F) :=
  fun w =>
    match files w !! path with
    | None => Raise OSError
    | Some m => Ok (m, mkWorld (files w) (EvLoadModel path m :: log w))
    end.

(** [m.save(path)] *)
Definition save (m : Model F) (path : string) : M F unit :=
  fun w => Ok (tt, mkWorld (<[path := m]> (files w)) (EvSave path m :: log w)).

(** What the callbacks of a [fit] write: a [ModelCheckpoint] leaves the
    model it saved last under its file path. *)
Definition write_checkpoint (saved : option (Model F)) (cb : Callback)
    (fs : gmap string (Model F)) : gmap string (Model F) :=
  match cb, saved with
  | ModelCheckpoint path _ _ _ _, Some mb => <[path := mb]> fs
  | _, _ => fs
  end.

(** [H = m.fit(x, y, batch_size=.., validation_data=.., epochs=..,
    verbose=.., callbacks=..)].  The model object is trained in place: the
    call gives back the trained model next to [H.history]. *)
Definition fit (m : Model F) (x y : list (list F)) (batch_size : Z)
    (validation_data : option (list (list F) * list (list F)))
    (epochs verbose : Z) (callbacks : list Callback)
  : M F (Model F * gmap string (list F)) :=
  fun w =>
    let out := keras_fit m x y batch_size validation_data epochs callbacks in
    Ok ((fitted out, history out),
        mkWorld (foldr (write_checkpoint (checkpointed out)) (files w) callbacks)
                (EvFit m x y batch_size validation_data epochs verbose callbacks
                 :: log w)).

(** [for layer in m.layers: layer.trainable = True] *)
Definition unfreeze_all (m : Model F) : Model F :=
  mkModel (map (fun l => mkDense (name l) (units l) (input_dim l)
                           (activation l) (kernel_regularizer l)
                           (bias_regularizer l) true (kernel l) (bias l))
               (layers m))
          (compiled m).

End KerasCalls.

(** What is assumed of training where a property needs it: [fit] changes
    the weights of the layers and nothing else of them. *)
Class KerasLaws (F : Type) `{Keras F} := {
  fit_keeps_config : forall (m : Model F) x y bs vd epochs cbs,
    map Dense_config (layers (fitted (keras_fit m x y bs vd epochs cbs)))
    = map Dense_config (layers m)
}.

(** ** The architectures *)

Section Architectures.
Context {F : Type} {ops : FloatOps F} {keras : Keras F}.

Definition reg_l2 (l2 : PyNum F) : option (Regularizer F) :=
  Some (regularizers_l2 l2).

Definition reg_ElasticNet (l1 l2 : PyNum F) : option (Regularizer F) :=
  Some (RegElasticNet (mkElasticNet l1 l2)).

(** Lines 68-89 *)
Definition classification_architecture (l1 l2 : PyNum F) (act : string)
    (input_dim output_dim : nat) : Model F :=
  let m := Sequential in
  let m := add m 512 act (Some input_dim) (reg_ElasticNet l1 l2) (reg_l2 l2)
               true "W1" in
  let m := add m 128 act None (reg_l2 l2) (reg_l2 l2) true "W2" in
  let m := add m 2 "linear" None (reg_l2 l2) (reg_l2 l2) true "bottleneck" in
  let m := add m 128 act None (reg_l2 l2) (reg_l2 l2) true "W4" in
  let m := add m 512 act None (reg_l2 l2) (reg_l2 l2) true "W5" in
  add m output_dim "softmax" None (reg_l2 l2) (reg_l2 l2) true "W6_class".

(** Lines 169-189, and lines 381-402 with the [trainable] flags of
    [unfreeze] ([StraightRegression] leaves [trainable] at its default,
    [True]). *)
Definition regression_architecture (l1 l2 : PyNum F) (act : string)
    (input_dim output_dim : nat) (t0 t1 t2 t3 t4 t5 : bool) : Model F :=
  let m := Sequential in
  let m := add m 512 act (Some input_dim) (reg_ElasticNet l1 l2) (reg_l2 l2)
               t0 "W1" in
  let m := add m 128 act None (reg_l2 l2) (reg_l2 l2) t1 "W2" in
  let m := add m 2 "linear" None (reg_l2 l2) (reg_l2 l2) t2 "bottleneck" in
  let m := add m 128 act None (reg_l2 l2) (reg_l2 l2) t3 "W4" in
  let m := add m 512 act None (reg_l2 l2) (reg_l2 l2) t4 "W5" in
  add m output_dim "linear" None (reg_l2 l2) None t5 "W6_regr".

(** The weights a regression model starts from: fresh, or loaded by name
    from the file of pre-trained weights. *)
Definition initial_layers (arch : Model F) (pre_trained_weights : bool)
    (pre_trained_weights_h5 : option string) (w : World F)
    (ls : list (Dense F)) : Prop :=
  if pre_trained_weights
  then exists path file,
         pre_trained_weights_h5 = Some path /\
         files w !! path = Some file /\
         mapM (load_layer_by_name file) (layers arch) = Some ls
  else ls = layers arch.

(** Lines 270-290, repeated at 520-540 and 662-682. *)
Definition pruned_architecture (l2 : PyNum F) (act : string)
    (output_dim : nat) : Model F :=
  let m := Sequential in
  let m := add m 512 act (Some 25) (reg_ElasticNet (PyInt 0) l2) (reg_l2 l2)
               true "W1_25" in
  let m := add m 128 act None (reg_l2 l2) (reg_l2 l2) true "W2" in
  let m := add m 2 "linear" None (reg_l2 l2) (reg_l2 l2) true "bottleneck" in
  let m := add m 128 act None (reg_l2 l2) (reg_l2 l2) true "W4" in
  let m := add m 512 act None (reg_l2 l2) (reg_l2 l2) true "W5" in
  add m output_dim "linear" None (reg_l2 l2) None true "W6_regr".

(** The pruning block, which the three training methods repeat word for
    word but for the file name (lines 262-295, 512-545 and 653-688): read
    the saved model back, choose the 25 rows of its first kernel, build the
    25-input architecture, load the saved weights by name, transplant the
    chosen rows and the bias into [W1_25], compile. *)
Definition prune_rebuild (l2 lr : PyNum F) (act : string) (output_dim : nat)
    (last_weights : string) (geneNames : option (list string))
  : M F (list nat * Model F) :=
  let* saved_model_ := load_model last_weights in
  let* weight := try_ IndexError (get_weights saved_model_ !! 0%nat) in
  let* bias := try_ IndexError (get_weights saved_model_ !! 1%nat) in
  let* weight2 := match weight with
                  | Arr2 k => ret k
                  | Arr1 _ => raise ValueError
                  end in
  let ind_genes := top25_by_norm weight2 in
  let* names := try_ TypeError geneNames in
  let* _ := try_ IndexError (take_indices names ind_genes) in
  let m := pruned_architecture l2 act output_dim in
  let* m := load_weights m last_weights in
  let* rows := try_ IndexError (take_indices weight2 ind_genes) in
  let* ls := try_ ValueError
               (set_layer_weights (layers m) "W1_25" [Arr2 rows; bias]) in
  let m := mkModel ls (compiled m) in
  let* m := compile m "mse" (py_half lr) ["r2_score"; "mse"] in
  ret (ind_genes, m).

(** The relation a successful [prune_rebuild] establishes between the saved
    model it read, the indices it chose and the model it built: the steps
    of the block, each with the value it produced. *)
Definition pruned_from (l2 lr : PyNum F) (act : string) (output_dim : nat)
    (saved : Model F) (ind_genes : list nat) (m : Model F) : Prop :=
  exists weight bias loaded rows ls,
    get_weights saved !! 0%nat = Some (Arr2 weight) /\
    get_weights saved !! 1%nat = Some bias /\
    ind_genes = top25_by_norm weight /\
    mapM (load_layer_by_name saved)
         (layers (pruned_architecture l2 act output_dim)) = Some loaded /\
    take_indices weight ind_genes = Some rows /\
    set_layer_weights loaded "W1_25" [Arr2 rows; bias] = Some ls /\
    m = mkModel ls (Some (mkCompiled "mse" (py_half lr) ["r2_score"; "mse"])).

Definition is_fit (e : Event F) : bool :=
  match e with
  | EvFit _ _ _ _ _ _ _ _ => true
  | _ => false
  end.

(** Name, width, number of inputs and activation of a layer. *)
Definition skeleton (l : Dense F) : string * nat * nat * string :=
  (name l, units l, input_dim l, activation l).

(** A model of six layers with the 2-unit linear layer [bottleneck] between
    an encoder of 512 and 128 units and a decoder of 128 and 512 units. *)
Definition has_bottleneck (m : Model F) : Prop :=
  exists n1 d act n6 out act6,
    map skeleton (layers m) =
      [(n1, 512, d, act); ("W2", 128, 512, act);
       ("bottleneck", 2, 128, "linear");
       ("W4", 128, 2, act); ("W5", 512, 128, act); (n6, out, 512, act6)].

(** The [epochs] argument of a fit and the [patience] of its
    [EarlyStopping] callbacks. *)
Definition fit_epochs_patience (e : Event F) : option (Z * list Z) :=
  match e with
  | EvFit _ _ _ _ _ epochs _ cbs =>
      Some (epochs,
            omap (fun cb => match cb with
                            | EarlyStopping _ _ _ patience => Some patience
                            | ModelCheckpoint _ _ _ _ _ => None
                            end) cbs)
  | _ => None
  end.

(** The fits among the events [new], in the order in which they ran. *)
Definition fit_schedule (new : list (Event F)) : list (Z * list Z) :=
  reverse (omap fit_epochs_patience new).

(** A log that shows a pruning stage: the model [saved] is written to the
    file [last_weights] and read back, [m] is built, loaded from that file
    and compiled, and the next fit is the call [refit]. *)
Definition pruning_stage (l : list (Event F)) (last_weights : string)
    (saved m : Model F) (refit : Event F) : Prop :=
  exists ml after between before,
    l = (after ++ [refit] ++ between
          ++ [EvCompile m; EvLoadWeights last_weights ml;
              EvLoadModel last_weights saved; EvSave last_weights saved]
          ++ before)%list /\
    is_fit refit = true /\
    Forall (fun e => is_fit e = false) between.

(** Every fit among the events [new] registers, next to its first
    callback, a [ModelCheckpoint] with [save_best_only=True] that monitors
    [monitor]. *)
Definition fits_checkpoint_on (monitor : string) (new : list (Event F))
  : Prop :=
  Forall (fun e =>
            match e with
            | EvFit _ _ _ _ _ _ _ cbs =>
                exists es path vb,
                  cbs = [es; ModelCheckpoint path monitor "min" vb true]
            | _ => True
            end) new.

(** Among the events [new], the model [saved] is read with [load_model]
    from the file of the [ModelCheckpoint] of an earlier fit, and it is the
    model that checkpoint saved last whenever it saved one. *)
Definition reloaded_checkpoint (monitor : string) (new : list (Event F))
    (saved : Model F) : Prop :=
  exists after between before m x y bs vd epochs verbose es path vb,
    let cbs := [es; ModelCheckpoint path monitor "min" vb true] in
    new = (after ++ [EvLoadModel path saved] ++ between
             ++ [EvFit m x y bs vd epochs verbose cbs] ++ before)%list /\
    forall mb,
      checkpointed (keras_fit m x y bs vd epochs cbs) = Some mb -> saved = mb.

(** The regression model [m] holds pre-trained weights loaded by name from
    [file]: each of the five encoder and decoder layers holds the kernel
    and the bias of the layer of [file] that has its name, and the output
    layer is still the fresh layer [fresh6] when [file] has no layer named
    [W6_regr]. *)
Definition loaded_from_pretraining (file m : Model F) (fresh6 : Dense F)
  : Prop :=
  exists b1 b2 b3 b4 b5 b6,
    layers m = [b1; b2; b3; b4; b5; b6] /\
    map name (layers m) = ["W1"; "W2"; "bottleneck"; "W4"; "W5"; "W6_regr"] /\
    Forall (fun b => forall s, get_layer file (name b) = Some s ->
                               kernel b = kernel s /\ bias b = bias s)
           [b1; b2; b3; b4; b5] /\
    (get_layer file "W6_regr" = None -> b6 = fresh6).

(** A log that shows a pruning stage whose rebuilt model has, on the kernel
    of its first layer, the regulariser [ElasticNet(l1=0, l2=l2)]. *)
Definition rebuilt_without_lasso (l : list (Event F)) (last_weights : string)
    (l2 : PyNum F) : Prop :=
  exists saved m refit b1 rest,
    pruning_stage l last_weights saved m refit /\
    layers m = b1 :: rest /\
    kernel_regularizer b1
      = Some (RegElasticNet (mkElasticNet (PyInt 0) l2)).

(** A log that shows a pruning stage whose rebuilt model has the
    bottleneck. *)
Definition rebuilt_with_bottleneck (l : list (Event F))
    (last_weights : string) : Prop :=
  exists saved m refit,
    pruning_stage l last_weights saved m refit /\ has_bottleneck m.

End Architectures.

(** ** The formulas and relations the properties are stated with

    They are written with the scalar operations, list lookups and the log
    only, apart from the functions of the program. *)

Section Stated.
Context {F : Type} {ops : FloatOps F} {keras : Keras F}.

(** The value of a Python number as a float. *)
Definition float_of (x : PyNum F) : F :=
  match x with
  | PyInt z => of_Z z
  | PyFloat f => f
  end.

(** The sum of the entries of a vector, added up from [0] in order. *)
Definition sum_of (v : list F) : F := foldl fadd (of_Z 0) v.

(** The sum of the squares of all the entries of a matrix. *)
Definition sum_of_squares (x : list (list F)) : F :=
  sum_of (concat (map (map (fun v => fmul v v)) x)).

(** The L2 norm of a row. *)
Definition l2_norm (r : list F) : F :=
  fsqrt (sum_of (map (fun v => fmul v v) r)).

(** [1 - sum((y - p)^2) / sum(y^2)] *)
Definition one_minus_ratio (y p : list (list F)) : F :=
  fsub (of_Z 1)
    (fdiv (sum_of (concat (zip_with (zip_with (fun a b =>
                                       fmul (fsub a b) (fsub a b))) y p)))
          (sum_of_squares y)).

(** [v] is that expression for the training or the validation targets and
    the prediction of some model on some input. *)
Definition reported_r2 (y_train y_test : list (list F)) (v : F) : Prop :=
  exists saved x,
    v = one_minus_ratio y_train (predict saved x) \/
    v = one_minus_ratio y_test (predict saved x).

(** [a2] times the sum of squares plus [a1] times the sum of the L2 norms
    of the rows. *)
Definition ridge_plus_group_lasso (a1 a2 : F) (x : list (list F)) : F :=
  fadd (fmul a2 (sum_of_squares x)) (fmul a1 (sum_of (map l2_norm x))).

(** [r] lists the entries of [a] at the positions [idx], in the order of
    [idx]. *)
Definition picked {A} (a : list A) (idx : list nat) (r : list A) : Prop :=
  length r = length idx /\
  forall j i, idx !! j = Some i ->
    exists v, a !! i = Some v /\ r !! j = Some v.

(** [x25] is the matrix [x] restricted to the columns [ind]: it has the
    rows of [x], each cut down to its entries at [ind]. *)
Definition restricted_to (x : list (list F)) (ind : list nat)
    (x25 : list (list F)) : Prop :=
  length x25 = length x /\
  forall r row, x !! r = Some row ->
    exists row25, x25 !! r = Some row25 /\ picked row ind row25.

(** [ind] lists 25 distinct rows of [weight], and no row left out has a
    larger L2 norm than a row listed. *)
Definition rows_of_largest_norm (weight : list (list F)) (ind : list nat)
  : Prop :=
  length ind = 25 /\ NoDup ind /\
  (forall i, i ∈ ind -> i < length weight) /\
  (forall i j ri rj, i ∈ ind -> j ∉ ind ->
     weight !! i = Some ri -> weight !! j = Some rj ->
     fleb (l2_norm rj) (l2_norm ri) = true).

(** The events [new] of a call show a pruning stage after training: the
    model [saved] that the last fit before has left is written to a file
    and read back, the model [m] is built, loaded from that file and
    compiled, and the next fit is the call [refit]. *)
Definition pruned_after_fit (new : list (Event F)) (saved m : Model F)
    (refit : Event F) : Prop :=
  exists last_weights ml after between mid before
         m0 x0 y0 bs0 vd0 epochs0 verbose0 cbs0,
    new = (after ++ [refit] ++ between
             ++ [EvCompile m; EvLoadWeights last_weights ml;
                 EvLoadModel last_weights saved; EvSave last_weights saved]
             ++ mid ++ [EvFit m0 x0 y0 bs0 vd0 epochs0 verbose0 cbs0]
             ++ before)%list /\
    is_fit refit = true /\
    Forall (fun e => is_fit e = false) between /\
    Forall (fun e => is_fit e = false) mid /\
    saved = fitted (keras_fit m0 x0 y0 bs0 vd0 epochs0 cbs0).

(** The events [new] show a pruning stage that keeps the 25 features of
    largest weight norm: the first kernel of the trained model has at least
    25 rows, [ind] lists 25 of them of largest L2 norm, and the rebuilt
    model is fitted, for [2 * epochs], on the training inputs (and the
    validation inputs, when there are any) restricted to the columns
    [ind]. *)
Definition retrained_on_largest (new : list (Event F))
    (x_train y_train : list (list F))
    (validation : option (list (list F) * list (list F))) (epochs : Z)
  : Prop :=
  exists saved s1 rest ind m x25 vd25 bs verbose cbs,
    pruned_after_fit new saved m
      (EvFit m x25 y_train bs vd25 (2 * epochs) verbose cbs) /\
    layers saved = s1 :: rest /\
    25 <= length (kernel s1) /\
    rows_of_largest_norm (kernel s1) ind /\
    restricted_to x_train ind x25 /\
    match validation with
    | Some (x_test, y_test) =>
        exists xt25, restricted_to x_test ind xt25 /\
                     vd25 = Some (xt25, y_test)
    | None => vd25 = None
    end.

(** The six layers of a regression model: [W1] (or [W1_25] once the model
    has been pruned) and the five layers that every regression model
    has. *)
Definition regression_layer_names (m : Model F) : Prop :=
  exists n1, (n1 = "W1" \/ n1 = "W1_25") /\
    map name (layers m) = [n1; "W2"; "bottleneck"; "W4"; "W5"; "W6_regr"].

(** The rebuilt model [m] holds the weights of the trained model [saved]
    and no others: [W1_25], of 25 inputs, holds the rows [ind] of the first
    kernel of [saved] and its first bias; each of [W2], [bottleneck], [W4],
    [W5] and [W6_regr] holds the kernel and the bias of the layer of that
    name of [saved]. *)
Definition holds_weights_of (saved m : Model F) (ind : list nat) : Prop :=
  exists s1 s2 s3 s4 s5 s6 b1 b2 b3 b4 b5 b6,
    layers saved = [s1; s2; s3; s4; s5; s6] /\
    layers m = [b1; b2; b3; b4; b5; b6] /\
    map name [b1; b2; b3; b4; b5; b6]
      = ["W1_25"; "W2"; "bottleneck"; "W4"; "W5"; "W6_regr"] /\
    map name [s2; s3; s4; s5; s6]
      = ["W2"; "bottleneck"; "W4"; "W5"; "W6_regr"] /\
    input_dim b1 = 25 /\
    picked (kernel s1) ind (kernel b1) /\
    bias b1 = bias s1 /\
    Forall2 (fun b s => kernel b = kernel s /\ bias b = bias s)
            [b2; b3; b4; b5; b6] [s2; s3; s4; s5; s6].

(** The events [new] show a pruning stage whose rebuilt model holds the
    weights of the trained model, with the rows of the 25 indices to whose
    columns the training inputs of the next fit are restricted. *)
Definition rebuilt_with_weights (new : list (Event F))
    (x_train : list (list F)) : Prop :=
  exists saved ind m x25 y bs vd epochs verbose cbs,
    pruned_after_fit new saved m (EvFit m x25 y bs vd epochs verbose cbs) /\
    length ind = 25 /\
    restricted_to x_train ind x25 /\
    holds_weights_of saved m ind.

(** Layer [i] of the six layers of [m] is trainable exactly when
    [unfreeze[i]]. *)
Definition trainable_as (unfreeze : list bool) (m : Model F) : Prop :=
  map name (layers m) = ["W1"; "W2"; "bottleneck"; "W4"; "W5"; "W6_regr"] /\
  forall i, i < 6 -> trainable <$> (layers m !! i) = unfreeze !! i.

(** A layer but for its flag [trainable]. *)
Definition but_trainable (l : Dense F) :=
  (name l, units l, input_dim l, activation l,
   kernel_regularizer l, bias_regularizer l, kernel l, bias l).

(** The events [new] of a call, oldest last, start with two fits on the
    same data: the first on a model [m1] of which [first] holds, the second
    on the model the first fit has left, with every layer set trainable and
    compiled anew with [Adam] at the learning rate [lr / 2]. *)
Definition two_phases (first : Model F -> Prop) (lr : PyNum F)
    (new : list (Event F)) : Prop :=
  exists after between m1 x y bs vd epochs verbose cbs1 m2 cbs2,
    new = (after ++ [EvFit m2 x y bs vd epochs verbose cbs2] ++ between
             ++ [EvCompile m2; EvFit m1 x y bs vd epochs verbose cbs1])%list /\
    Forall (fun e => is_fit e = false) between /\
    first m1 /\
    map but_trainable (layers m2)
      = map but_trainable
          (layers (fitted (keras_fit m1 x y bs vd epochs cbs1))) /\
    Forall (fun l => trainable l = true) (layers m2) /\
    compiled m2
      = Some (mkCompiled "mean_squared_error"
                (PyFloat (fdiv (float_of lr) (of_Z 2))) ["r2_score"; "mse"]).

End Stated.

(** ** ClassificationPreTrain (lines 42-135) *)

Module ClassificationPreTrain.
Section WithKeras.
Context {F : Type} {ops : FloatOps F} {keras : Keras F}.

Record t := mk {
  l1 : PyNum F; l2 : PyNum F; lr : PyNum F; act : string;
  input_dim : nat; output_dim : nat;
  m : Model F
}.

Definition __init__ (l1 l2 lr : PyNum F) (act : string)
    (input_dim output_dim : nat) : M F t :=
  let m := classification_architecture l1 l2 act input_dim output_dim in
  let* m := compile m "categorical_crossentropy" lr
                    ["categorical_crossentropy"] in
  ret (mk l1 l2 lr act input_dim output_dim m).

Definition weights_file (cvfold_id l1_id l2_id : Z) : string :=
  format_ids "KerasSavedModels/Classification_weights_{}_{}_{}.h5"
             cvfold_id l1_id l2_id.

(** [train] returns the tuple [(CE_train, CE_test, history of the training
    metric, history of the validation metric)]; the trained model stays in
    [self.m]. *)
Definition train (self : t) (x_train : list (list F)) (cluster_train : list Z)
    (x_test : list (list F)) (cluster_test : list Z)
    (epochs bs patience cvfold_id l1_id l2_id verbose : Z)
  : M F ((F * F * list F * list F) * t) :=
  let es := EarlyStopping "val_loss" "min" verbose patience in
  let mc := ModelCheckpoint (weights_file cvfold_id l1_id l2_id)
              "val_categorical_crossentropy" "min" verbose true in
  let* (m', H) := fit (m self) x_train (to_categorical cluster_train) bs
                       (Some (x_test, to_categorical cluster_test))
                       epochs verbose [es; mc] in
  let self := mk (l1 self) (l2 self) (lr self) (act self) (input_dim self)
                 (output_dim self) m' in
  let* saved_model := load_model (weights_file cvfold_id l1_id l2_id) in
  let* saved_model := load_model (weights_file cvfold_id l1_id l2_id) in
  let* CE_train :=
    try_ IndexError
      (evaluate saved_model x_train (to_categorical cluster_train) !! 0%nat) in
  let* CE_test :=
    try_ IndexError
      (evaluate saved_model x_test (to_categorical cluster_test) !! 0%nat) in
  let* h := try_ KeyError (H !! "categorical_crossentropy") in
  let* vh := try_ KeyError (H !! "val_categorical_crossentropy") in
  ret ((CE_train, CE_test, h, vh), self).

End WithKeras.
Arguments t F : clear implicits.
End ClassificationPreTrain.

(** ** StraightRegression (lines 139-346) *)

Module StraightRegression.
Section WithKeras.
Context {F : Type} {ops : FloatOps F} {keras : Keras F}.

Record t := mk {
  l1 : PyNum F; l2 : PyNum F; lr : PyNum F; act : string;
  input_dim : nat; output_dim : nat;
  pre_trained_weights : bool;
  m : Model F
}.

Definition set_m (self : t) (m' : Model F) : t :=
  mk (l1 self) (l2 self) (lr self) (act self) (input_dim self)
     (output_dim self) (pre_trained_weights self) m'.

Definition __init__ (l1 l2 lr : PyNum F) (act : string)
    (input_dim output_dim : nat) (pre_trained_weights : bool)
    (pre_trained_weights_h5 : option string) : M F t :=
  let m := regression_architecture l1 l2 act input_dim output_dim
             true true true true true true in
  let* m := if pre_trained_weights
            then let* h5 := try_ TypeError pre_trained_weights_h5 in
                 load_weights m h5
            else ret m in
  let* m := compile m "mean_squared_error" lr ["r2_score"; "mse"] in
  ret (mk l1 l2 lr act input_dim output_dim pre_trained_weights m).

(** The file of the [ModelCheckpoint] of the first fit, of the model saved
    after it, and of the [ModelCheckpoint] of the fit after pruning. *)
Definition weights_file (self : t) (cvfold_id l1_id l2_id : Z) : string :=
  if negb (pre_trained_weights self)
  then format_ids "KerasSavedModels/StraightRegression_weights_{}_{}_{}.h5"
                  cvfold_id l1_id l2_id
  else format_ids "KerasSavedModels/PreTrRegression_weights_{}_{}_{}.h5"
                  cvfold_id l1_id l2_id.

Definition last_weights_file (cvfold_id l1_id l2_id : Z) : string :=
  format_ids "KerasSavedModels/Regression_last_weights_{}_{}_{}.h5"
             cvfold_id l1_id l2_id.

Definition weights_after_pruning_file (self : t) (cvfold_id l1_id l2_id : Z)
  : string :=
  if negb (pre_trained_weights self)
  then format_ids
         "KerasSavedModels/StraightRegression_weights_after_pruning_{}_{}_{}.h5"
         cvfold_id l1_id l2_id
  else format_ids
         "KerasSavedModels/PreTrRegression_weights_after_pruning_{}_{}_{}.h5"
         cvfold_id l1_id l2_id.

(** The two tuples [train] returns. *)
Inductive result :=
| Plain (r2_train r2_test : F) (train_loss val_loss : list F)
| Pruned (r2_train r2_test r2_after_pruning_train r2_after_pruning_test : F)
         (train_loss val_loss : list F).

(** The R^2 values of a returned tuple. *)
Definition r2_values (res : result) : list F :=
  match res with
  | Plain a b _ _ => [a; b]
  | Pruned a b c d _ _ => [a; b; c; d]
  end.

Definition train (self : t) (x_train y_train x_test y_test : list (list F))
    (epochs bs patience cvfold_id l1_id l2_id verbose : Z)
    (prune : bool) (geneNames : option (list string))
  : M F (result * t) :=
  let es :=
    if negb prune
    then EarlyStopping "val_mean_squared_error" "min" verbose patience
    else EarlyStopping "val_mean_squared_error" "min" verbose (2 * patience) in
  let mc := ModelCheckpoint (weights_file self cvfold_id l1_id l2_id)
              "val_mean_squared_error" "min" verbose true in
  let* (m', H) :=
    if negb prune
    then fit (m self) x_train y_train bs (Some (x_test, y_test))
             epochs verbose [es; mc]
    else fit (m self) x_train y_train bs (Some (x_test, y_test))
             (2 * epochs) verbose [es; mc] in
  let self := set_m self m' in
  let* train_loss_straight_regr := try_ KeyError (H !! "r2_score") in
  let* val_loss_straight_regr := try_ KeyError (H !! "val_r2_score") in
  let* saved_model := load_model (weights_file self cvfold_id l1_id l2_id) in
  let r2_train := np_r2 y_train (predict saved_model x_train) in
  let r2_test := np_r2 y_test (predict saved_model x_test) in
  let* _ := save (m self) (last_weights_file cvfold_id l1_id l2_id) in
  if prune then
    let* (ind_genes, m') :=
      prune_rebuild (l2 self) (lr self) (act self) (output_dim self)
                    (last_weights_file cvfold_id l1_id l2_id) geneNames in
    let self := set_m self m' in
    let es := EarlyStopping "val_mean_squared_error" "min" verbose
                            (2 * patience) in
    let mc := ModelCheckpoint
                (weights_after_pruning_file self cvfold_id l1_id l2_id)
                "val_mean_squared_error" "min" verbose true in
    let* x_train_25 := try_ IndexError (select_columns x_train ind_genes) in
    let* x_test_25 := try_ IndexError (select_columns x_test ind_genes) in
    let* (m', H) := fit (m self) x_train_25 y_train bs
                        (Some (x_test_25, y_test))
                        (2 * epochs) verbose [es; mc] in
    let self := set_m self m' in
    let* h := try_ KeyError (H !! "r2_score") in
    let train_loss_straight_regr := (train_loss_straight_regr ++ h)%list in
    let* vh := try_ KeyError (H !! "val_r2_score") in
    let val_loss_straight_regr := (val_loss_straight_regr ++ vh)%list in
    let* saved_model_2 :=
      load_model (weights_after_pruning_file self cvfold_id l1_id l2_id) in
    let* x_train_25 := try_ IndexError (select_columns x_train ind_genes) in
    let r2_after_pruning_train :=
      np_r2 y_train (predict saved_model_2 x_train_25) in
    let* x_test_25 := try_ IndexError (select_columns x_test ind_genes) in
    let r2_after_pruning_test :=
      np_r2 y_test (predict saved_model_2 x_test_25) in
    ret (Pruned r2_train r2_test
                r2_after_pruning_train r2_after_pruning_test
                train_loss_straight_regr val_loss_straight_regr, self)
  else
    ret (Plain r2_train r2_test
               train_loss_straight_regr val_loss_straight_regr, self).

End WithKeras.
Arguments t F : clear implicits.
Arguments result F : clear implicits.
End StraightRegression.

(** ** FreezeUnfreeze (lines 348-697) *)

Module FreezeUnfreeze.
Section WithKeras.
Context {F : Type} {ops : FloatOps F} {keras : Keras F}.

Record t := mk {
  l1 : PyNum F; l2 : PyNum F; lr : PyNum F; act : string;
  input_dim : nat; output_dim : nat;
  unfreeze : list bool;
  pre_trained_weights : bool;
  m : Model F
}.

Definition set_m (self : t) (m' : Model F) : t :=
  mk (l1 self) (l2 self) (lr self) (act self) (input_dim self)
     (output_dim self) (unfreeze self) (pre_trained_weights self) m'.

(** [unfreeze[i]] raises [IndexError] on a list that is too short. *)
Definition __init__ (l1 l2 lr : PyNum F) (act : string)
    (input_dim output_dim : nat) (unfreeze : list bool)
    (pre_trained_weights : bool) (pre_trained_weights_h5 : option string)
  : M F t :=
  let* t0 := try_ IndexError (unfreeze !! 0%nat) in
  let* t1 := try_ IndexError (unfreeze !! 1%nat) in
  let* t2 := try_ IndexError (unfreeze !! 2%nat) in
  let* t3 := try_ IndexError (unfreeze !! 3%nat) in
  let* t4 := try_ IndexError (unfreeze !! 4%nat) in
  let* t5 := try_ IndexError (unfreeze !! 5%nat) in
  let m := regression_architecture l1 l2 act input_dim output_dim
             t0 t1 t2 t3 t4 t5 in
  let* m := if pre_trained_weights
            then let* h5 := try_ TypeError pre_trained_weights_h5 in
                 load_weights m h5
            else ret m in
  let* m := compile m "mean_squared_error" lr ["r2_score"; "mse"] in
  ret (mk l1 l2 lr act input_dim output_dim unfreeze pre_trained_weights m).

Definition before_unfreezing_file (self : t) (cvfold_id l1_id l2_id : Z)
  : string :=
  if negb (pre_trained_weights self)
  then format_ids
    "KerasSavedModels/FreezeUnfreeze_weights_before_unfreezing_{}_{}_{}.h5"
    cvfold_id l1_id l2_id
  else format_ids
    "KerasSavedModels/PreTrFreezeUnfreeze_weights_before_unfreezing_{}_{}_{}.h5"
    cvfold_id l1_id l2_id.

Definition after_unfreezing_file (self : t) (cvfold_id l1_id l2_id : Z)
  : string :=
  if negb (pre_trained_weights self)
  then format_ids
    "KerasSavedModels/FreezeUnfreeze_weights_after_unfreezing_{}_{}_{}.h5"
    cvfold_id l1_id l2_id
  else format_ids
    "KerasSavedModels/PreTrFreezeUnfreeze_weights_after_unfreezing_{}_{}_{}.h5"
    cvfold_id l1_id l2_id.

Definition last_weights_file (cvfold_id l1_id l2_id : Z) : string :=
  format_ids "KerasSavedModels/FreezeUnfreeze_last_weights_{}_{}_{}.h5"
             cvfold_id l1_id l2_id.

Definition after_unfreezing_and_pruning_file (self : t)
    (cvfold_id l1_id l2_id : Z) : string :=
  if negb (pre_trained_weights self)
  then format_ids
    "KerasSavedModels/FreezeUnfreeze_weights_after_unfreezing_and_pruning_{}_{}_{}.h5"
    cvfold_id l1_id l2_id
  else format_ids
    "KerasSavedModels/PreTrFreezeUnfreeze_weights_after_unfreezing_and_pruning_{}_{}_{}.h5"
    cvfold_id l1_id l2_id.

Definition before_unfreezing_full_dataset_file (cvfold_id l1_id l2_id : Z)
  : string :=
  format_ids
    "KerasSavedModels/FreezeUnfreeze_before_unfreezing_full_dataset_{}_{}_{}.h5"
    cvfold_id l1_id l2_id.

Definition after_unfreezing_full_dataset_file (cvfold_id l1_id l2_id : Z)
  : string :=
  format_ids
    "KerasSavedModels/FreezeUnfreeze_after_unfreezing_full_dataset_{}_{}_{}.h5"
    cvfold_id l1_id l2_id.

Definition after_unfreezing_ap_full_dataset_file (cvfold_id l1_id l2_id : Z)
  : string :=
  format_ids
    "KerasSavedModels/FreezeUnfreeze_after_unfreezing_ap_full_dataset_{}_{}_{}.h5"
    cvfold_id l1_id l2_id.

(** The two tuples [train] returns. *)
Inductive result :=
| Plain (r2_before_unfreezing_train r2_before_unfreezing_test
         r2_after_unfreezing_train r2_after_unfreezing_test : F)
        (train_loss val_loss : list F)
| Pruned (r2_before_unfreezing_train r2_before_unfreezing_test
          r2_after_unfreezing_train r2_after_unfreezing_test
          r2_after_unfreezing_and_pruning_train
          r2_after_unfreezing_and_pruning_test : F)
         (train_loss val_loss : list F).

(** The R^2 values of a returned tuple. *)
Definition r2_values (res : result) : list F :=
  match res with
  | Plain a b c d _ _ => [a; b; c; d]
  | Pruned a b c d e f _ _ => [a; b; c; d; e; f]
  end.

Definition train (self : t) (x_train y_train x_test y_test : list (list F))
    (epochs bs patience cvfold_id l1_id l2_id verbose : Z)
    (prune : bool) (geneNames : option (list string))
  : M F (result * t) :=
  let es := EarlyStopping "val_mean_squared_error" "min" verbose patience in
  let mc := ModelCheckpoint (before_unfreezing_file self cvfold_id l1_id l2_id)
              "val_mean_squared_error" "min" verbose true in
  let* (m', H) := fit (m self) x_train y_train bs (Some (x_test, y_test))
                      epochs verbose [es; mc] in
  let self := set_m self m' in
  let* train_loss_freeze_unfreeze := try_ KeyError (H !! "r2_score") in
  let* val_loss_freeze_unfreeze := try_ KeyError (H !! "val_r2_score") in
  let self := set_m self (unfreeze_all (m self)) in
  let* m' := compile (m self) "mean_squared_error" (py_half (lr self))
                     ["r2_score"; "mse"] in
  let self := set_m self m' in
  let es := EarlyStopping "val_mean_squared_error" "min" 1 patience in
  let mc := ModelCheckpoint (after_unfreezing_file self cvfold_id l1_id l2_id)
              "val_mean_squared_error" "min" verbose true in
  let* (m', H) := fit (m self) x_train y_train bs (Some (x_test, y_test))
                      epochs verbose [es; mc] in
  let self := set_m self m' in
  let* h := try_ KeyError (H !! "r2_score") in
  let train_loss_freeze_unfreeze := (train_loss_freeze_unfreeze ++ h)%list in
  let* vh := try_ KeyError (H !! "val_r2_score") in
  let val_loss_freeze_unfreeze := (val_loss_freeze_unfreeze ++ vh)%list in
  let* saved_model :=
    load_model (before_unfreezing_file self cvfold_id l1_id l2_id) in
  let* saved_model_2 :=
    load_model (after_unfreezing_file self cvfold_id l1_id l2_id) in
  let r2_before_unfreezing_train :=
    np_r2 y_train (predict saved_model x_train) in
  let r2_before_unfreezing_test := np_r2 y_test (predict saved_model x_test) in
  let r2_after_unfreezing_train :=
    np_r2 y_train (predict saved_model_2 x_train) in
  let r2_after_unfreezing_test :=
    np_r2 y_test (predict saved_model_2 x_test) in
  let* _ := save (m self) (last_weights_file cvfold_id l1_id l2_id) in
  if prune then
    let* (ind_genes, m') :=
      prune_rebuild (l2 self) (lr self) (act self) (output_dim self)
                    (last_weights_file cvfold_id l1_id l2_id) geneNames in
    let self := set_m self m' in
    let es := EarlyStopping "val_mean_squared_error" "min" verbose
                            (2 * patience) in
    let mc := ModelCheckpoint
                (after_unfreezing_and_pruning_file self cvfold_id l1_id l2_id)
                "val_mean_squared_error" "min" verbose true in
    let* x_train_25 := try_ IndexError (select_columns x_train ind_genes) in
    let* x_test_25 := try_ IndexError (select_columns x_test ind_genes) in
    let* (m', H) := fit (m self) x_train_25 y_train bs
                        (Some (x_test_25, y_test))
                        (2 * epochs) verbose [es; mc] in
    let self := set_m self m' in
    let* h := try_ KeyError (H !! "r2_score") in
    let train_loss_freeze_unfreeze := (train_loss_freeze_unfreeze ++ h)%list in
    let* vh := try_ KeyError (H !! "val_r2_score") in
    let val_loss_freeze_unfreeze := (val_loss_freeze_unfreeze ++ vh)%list in
    let* saved_model_3 :=
      load_model
        (after_unfreezing_and_pruning_file self cvfold_id l1_id l2_id) in
    let* x_train_25 := try_ IndexError (select_columns x_train ind_genes) in
    let r2_after_unfreezing_and_pruning_train :=
      np_r2 y_train (predict saved_model_3 x_train_25) in
    let* x_test_25 := try_ IndexError (select_columns x_test ind_genes) in
    let r2_after_unfreezing_and_pruning_test :=
      np_r2 y_test (predict saved_model_3 x_test_25) in
    ret (Pruned r2_before_unfreezing_train r2_before_unfreezing_test
                r2_after_unfreezing_train r2_after_unfreezing_test
                r2_after_unfreezing_and_pruning_train
                r2_after_unfreezing_and_pruning_test
                train_loss_freeze_unfreeze val_loss_freeze_unfreeze, self)
  else
    ret (Plain r2_before_unfreezing_train r2_before_unfreezing_test
               r2_after_unfreezing_train r2_after_unfreezing_test
               train_loss_freeze_unfreeze val_loss_freeze_unfreeze, self).

(** [train_full_dataset] returns the training history when it prunes and
    falls off its end otherwise: [None] stands for Python's [None]. *)
Definition train_full_dataset (self : t) (x_train y_train : list (list F))
    (epochs bs patience cvfold_id l1_id l2_id verbose : Z)
    (prune : bool) (geneNames : option (list string))
  : M F (option (list F) * t) :=
  let* (m', H) := fit (m self) x_train y_train bs None epochs verbose [] in
  let self := set_m self m' in
  let* train_loss_freeze_unfreeze := try_ KeyError (H !! "r2_score") in
  let self := set_m self (unfreeze_all (m self)) in
  let* m' := compile (m self) "mean_squared_error" (py_half (lr self))
                     ["r2_score"; "mse"] in
  let self := set_m self m' in
  let* _ := save (m self)
                 (before_unfreezing_full_dataset_file cvfold_id l1_id l2_id) in
  let* (m', H) := fit (m self) x_train y_train bs None epochs verbose [] in
  let self := set_m self m' in
  let* h := try_ KeyError (H !! "r2_score") in
  let train_loss_freeze_unfreeze := (train_loss_freeze_unfreeze ++ h)%list in
  let* _ := save (m self)
                 (after_unfreezing_full_dataset_file cvfold_id l1_id l2_id) in
  if prune then
    let* (ind_genes, m') :=
      prune_rebuild (l2 self) (lr self) (act self) (output_dim self)
        (after_unfreezing_full_dataset_file cvfold_id l1_id l2_id)
        geneNames in
    let self := set_m self m' in
    let* _ := save (m self)
                (after_unfreezing_ap_full_dataset_file cvfold_id l1_id l2_id) in
    let* x_train_25 := try_ IndexError (select_columns x_train ind_genes) in
    let* (m', H) := fit (m self) x_train_25 y_train bs None
                        (2 * epochs) verbose [] in
    let self := set_m self m' in
    let* h := try_ KeyError (H !! "r2_score") in
    let train_loss_freeze_unfreeze := (train_loss_freeze_unfreeze ++ h)%list in
    ret (Some train_loss_freeze_unfreeze, self)
  else
    ret (None, self).

End WithKeras.
Arguments t F : clear implicits.
Arguments result F : clear implicits.
End FreezeUnfreeze.

(** ** A small Keras to run the program on

    Over the integers: every kernel row [i] starts as a row of [i]s, a fit
    adds one to every bias and reports the model it was given as the one
    the checkpoint saved, the forward pass adds all the biases of the model
    to the sum of the inputs of a sample. *)

Module Demo.

Definition bump (m : Model Z) : Model Z :=
  mkModel (map (fun l => mkDense (name l) (units l) (input_dim l)
                           (activation l) (kernel_regularizer l)
                           (bias_regularizer l) (trainable l) (kernel l)
                           (map Z.succ (bias l)))
               (layers m))
          (compiled m).

Definition demo_history : gmap string (list Z) :=
  <["r2_score" := [0%Z]]>
    (<["val_r2_score" := [0%Z]]>
       (<["categorical_crossentropy" := [1%Z]]>
          (<["val_categorical_crossentropy" := [1%Z]]> ∅))).

#[export] Instance demo_keras : Keras Z := {|
  kernel_initializer := fun _ r c =>
    map (fun i => replicate c (Z.of_nat i)) (seq 0 r);
  keras_fit := fun m _ _ _ _ _ _ =>
    mkFitOutcome (bump m) demo_history (Some m);
  predict := fun m x =>
    map (fun row => [foldr Z.add (foldr Z.add 0%Z (flat_map bias (layers m)))
                           row]) x;
  evaluate := fun _ _ _ => [3%Z; 1%Z];
  to_categorical := fun cs => map (fun c => [c]) cs
|}.

Definition demo_world : World Z := mkWorld ∅ [].

(** 26 input features, 2 samples. *)
Definition demo_x : list (list Z) :=
  [map Z.of_nat (seq 0 26); map Z.of_nat (seq 5 26)].
Definition demo_y : list (list Z) := [[1%Z]; [2%Z]].
Definition demo_genes : option (list string) :=
  Some (map (fun i => str (Z.of_nat i)) (seq 0 26)).

(** The value of a computation that is known to succeed. *)
Definition force {A} (d : A) (r : Result A) : A :=
  match r with Ok a => a | Raise _ => d end.

Definition is_Ok {A} (r : Result A) : bool :=
  match r with Ok _ => true | Raise _ => false end.

(** A [ClassificationPreTrain] object, its training run, and the world
    that run leaves behind, with the pre-trained weights in their file. *)
Definition cp_blank : ClassificationPreTrain.t Z :=
  ClassificationPreTrain.mk (PyInt 0) (PyInt 0) (PyInt 0) "" 0 0 Sequential.
Abbreviation cp_init :=
  (ClassificationPreTrain.__init__ (PyFloat 1%Z) (PyFloat 2%Z)
     (PyFloat 4%Z) "relu" 26 3 demo_world).
Abbreviation cp_new := (force (cp_blank, demo_world) cp_init).
Abbreviation cp_train :=
  (ClassificationPreTrain.train (fst cp_new) demo_x [0%Z; 2%Z]
     demo_x [0%Z; 2%Z] 3 2 5 0 0 0 1 (snd cp_new)).
Abbreviation cp_trained :=
  (force ((0%Z, 0%Z, [], []), cp_blank, demo_world) cp_train).
Definition pretrained_world : World Z := snd cp_trained.

(** A [StraightRegression] object and the runs of its [train]. *)
Definition sr_blank : StraightRegression.t Z :=
  StraightRegression.mk (PyInt 0) (PyInt 0) (PyInt 0) "" 0 0 false Sequential.
Abbreviation sr_init :=
  (StraightRegression.__init__ (PyFloat 1%Z) (PyFloat 2%Z) (PyFloat 4%Z)
     "relu" 26 1 false None demo_world).
Abbreviation sr_new := (force (sr_blank, demo_world) sr_init).
Abbreviation sr_train prune :=
  (StraightRegression.train (fst sr_new) demo_x demo_y demo_x demo_y
     3 2 5 0 0 0 1 prune demo_genes (snd sr_new)).
Abbreviation sr_trained prune :=
  (force (StraightRegression.Plain 0%Z 0%Z [] [], sr_blank, demo_world)
         (sr_train prune)).

Abbreviation sr_pretrained_init :=
  (StraightRegression.__init__ (PyFloat 1%Z) (PyFloat 2%Z) (PyFloat 4%Z)
     "relu" 26 1 true (Some (ClassificationPreTrain.weights_file 0 0 0))
     pretrained_world).
Abbreviation sr_pretrained :=
  (force (sr_blank, demo_world) sr_pretrained_init).

(** A [FreezeUnfreeze] object with a frozen encoder, and the runs of its
    two training methods. *)
Definition fu_blank : FreezeUnfreeze.t Z :=
  FreezeUnfreeze.mk (PyInt 0) (PyInt 0) (PyInt 0) "" 0 0 [] false Sequential.
Abbreviation fu_init :=
  (FreezeUnfreeze.__init__ (PyFloat 1%Z) (PyFloat 2%Z) (PyFloat 4%Z)
     "relu" 26 1 [false; false; false; true; true; true] false None
     demo_world).
Abbreviation fu_new := (force (fu_blank, demo_world) fu_init).
Abbreviation fu_train prune :=
  (FreezeUnfreeze.train (fst fu_new) demo_x demo_y demo_x demo_y
     3 2 5 0 0 0 1 prune demo_genes (snd fu_new)).
Abbreviation fu_trained prune :=
  (force (FreezeUnfreeze.Plain 0%Z 0%Z 0%Z 0%Z [] [], fu_blank, demo_world)
         (fu_train prune)).
Abbreviation fu_train_full prune :=
  (FreezeUnfreeze.train_full_dataset (fst fu_new) demo_x demo_y
     3 2 5 0 0 0 1 prune demo_genes (snd fu_new)).
Abbreviation fu_trained_full prune :=
  (force (@None (list Z), fu_blank, demo_world) (fu_train_full prune)).

(** A Keras whose fits record nothing and save nothing (as a fit of no
    epoch does), to run the failing paths; it is passed by name. *)
Definition silent_keras : Keras Z := {|
  kernel_initializer := fun _ r c =>
    map (fun i => replicate c (Z.of_nat i)) (seq 0 r);
  keras_fit := fun m _ _ _ _ _ _ => mkFitOutcome m ∅ None;
  predict := fun m x => map (fun row => [foldr Z.add 0%Z row]) x;
  evaluate := fun _ _ _ => [3%Z; 1%Z];
  to_categorical := fun cs => map (fun c => [c]) cs
|}.

(** A Keras whose fits record their metrics but save no checkpoint. *)
Definition no_checkpoint_keras : Keras Z := {|
  kernel_initializer := fun _ r c =>
    map (fun i => replicate c (Z.of_nat i)) (seq 0 r);
  keras_fit := fun m _ _ _ _ _ _ => mkFitOutcome (bump m) demo_history None;
  predict := fun m x =>
    map (fun row => [foldr Z.add (foldr Z.add 0%Z (flat_map bias (layers m)))
                           row]) x;
  evaluate := fun _ _ _ => [3%Z; 1%Z];
  to_categorical := fun cs => map (fun c => [c]) cs
|}.

(** Targets that are all zero, and a run of [train] on them. *)
Definition zero_y : list (list Z) := [[0%Z]; [0%Z]].
Abbreviation sr_train_zero :=
  (StraightRegression.train (fst sr_new) demo_x zero_y demo_x zero_y
     3 2 5 0 0 0 1 false demo_genes (snd sr_new)).
Abbreviation sr_trained_zero :=
  (force (StraightRegression.Plain 0%Z 0%Z [] [], sr_blank, demo_world)
         sr_train_zero).

(** A second call of [train] on the object the first call has left. *)
Abbreviation fu_train_again :=
  (FreezeUnfreeze.train (snd (fst (fu_trained false))) demo_x demo_y
     demo_x demo_y 3 2 5 0 0 0 1 false demo_genes (snd (fu_trained false))).
Abbreviation fu_trained_again :=
  (force (FreezeUnfreeze.Plain 0%Z 0%Z 0%Z 0%Z [] [], fu_blank, demo_world)
         fu_train_again).

Abbreviation fu_pretrained_init :=
  (FreezeUnfreeze.__init__ (PyFloat 1%Z) (PyFloat 2%Z) (PyFloat 4%Z)
     "relu" 26 1 [false; false; false; true; true; true] true
     (Some (ClassificationPreTrain.weights_file 0 0 0)) pretrained_world).
Abbreviation fu_pretrained :=
  (force (fu_blank, demo_world) fu_pretrained_init).

End Demo.

(** * Properties *)

Local Open Scope list_scope.

#[export] Instance Z_FloatLaws : FloatLaws Z.
Proof. split; simpl; intros; lia. Qed.

#[export] Instance Z_FloatOrder : FloatOrder Z.
Proof. split; simpl; intros; lia. Qed.

(** ** Sums, squares and the two ways of writing R^2 *)

Section TensorFacts.
Context {F : Type} {ops : FloatOps F} {laws : FloatLaws F}.

Lemma vsum_zeros (v : list F) :
  Forall (fun x => x = of_Z 0) v -> vsum v = of_Z 0.
Proof.
  unfold vsum. induction 1 as [|x v -> _ IH]; simpl; [reflexivity|].
  rewrite fadd_0_0. exact IH.
Qed.

Lemma reduce_sum_square_zeros (y : list (list F)) :
  all_zero y -> reduce_sum (tf_square y) = of_Z 0.
Proof.
  intros Hy. unfold reduce_sum. apply vsum_zeros.
  induction Hy as [|r y Hr _ IH]; simpl; [constructor|].
  apply Forall_app. split; [|exact IH].
  clear IH. induction Hr as [|x r -> _ IH]; simpl; constructor; [|exact IH].
  unfold square. apply fmul_0_0.
Qed.

Lemma tf_add_neg (x y : list (list F)) : tf_add x (tf_neg y) = np_sub x y.
Proof.
  unfold tf_add, tf_neg, np_sub.
  revert y. induction x as [|r x IH]; intros [|q y]; simpl; try reflexivity.
  f_equal; [|apply IH].
  clear IH. revert q. induction r as [|a r IH]; intros [|b q]; simpl;
    try reflexivity.
  rewrite fadd_fneg. f_equal. apply IH.
Qed.

Lemma np_r2_r2_score (y p : list (list F)) : np_r2 y p = r2_score y p.
Proof. unfold np_r2, r2_score. cbv zeta. rewrite tf_add_neg. reflexivity. Qed.

(** The functions of the program compute the formulas as stated. *)
Lemma square_sub_rows (y p : list (list F)) :
  tf_square (np_sub y p)
  = zip_with (zip_with (fun a b => fmul (fsub a b) (fsub a b))) y p.
Proof.
  unfold tf_square, np_sub.
  revert p. induction y as [|r y IH]; intros [|q p]; simpl; try reflexivity.
  f_equal; [|apply IH].
  clear IH. revert q. induction r as [|a r IH]; intros [|b q]; simpl;
    try reflexivity.
  f_equal. apply IH.
Qed.

Lemma np_r2_one_minus_ratio (y p : list (list F)) :
  np_r2 y p = one_minus_ratio y p.
Proof.
  unfold np_r2, one_minus_ratio. rewrite square_sub_rows. reflexivity.
Qed.

Lemma r2_score_one_minus_ratio (y p : list (list F)) :
  r2_score y p = one_minus_ratio y p.
Proof. rewrite <- np_r2_r2_score. apply np_r2_one_minus_ratio. Qed.

Lemma sum_of_squares_zeros (y : list (list F)) :
  all_zero y -> sum_of_squares y = of_Z 0.
Proof. apply reduce_sum_square_zeros. Qed.

End TensorFacts.

(** ** The indices that [argsort] and the slice keep *)

Section ArgsortFacts.
Context {F : Type} {ops : FloatOps F} {ord : FloatOrder F}.

#[local] Instance key_le_total : Total (key_le (F:=F)).
Proof. intros p q. unfold key_le. apply fleb_total. Qed.

#[local] Instance key_le_trans : Transitive (key_le (F:=F)).
Proof. intros p q r. unfold key_le. apply fleb_trans. Qed.

Lemma argsort_Permutation (v : list F) : argsort v ≡ₚ seq 0 (length v).
Proof.
  unfold argsort. rewrite merge_sort_Permutation.
  rewrite fst_zip; [reflexivity|]. rewrite length_seq. lia.
Qed.

Lemma length_argsort (v : list F) : length (argsort v) = length v.
Proof. rewrite argsort_Permutation. apply length_seq. Qed.

(** Every pair the sort handles is an index with its value. *)
Lemma elem_of_enumerate (v : list F) (i : nat) (x : F) :
  (i, x) ∈ zip (seq 0 (length v)) v <-> v !! i = Some x.
Proof.
  rewrite elem_of_lookup_zip_with. split.
  - intros (k & a & b & Heq & Ha & Hb). inversion Heq; subst.
    apply lookup_seq in Ha as [-> _]. exact Hb.
  - intros Hi. exists i, i, x. split; [reflexivity|]. split; [|exact Hi].
    apply lookup_seq. split; [reflexivity|]. eapply lookup_lt_Some, Hi.
Qed.

(** The last [k] indices of [argsort v] carry values that are at least as
    large as the value at any index left out. *)
Lemma argsort_drop_largest (v : list F) (k i j : nat) (x y : F) :
  i ∈ drop k (argsort v) -> j ∉ drop k (argsort v) ->
  v !! i = Some x -> v !! j = Some y ->
  fleb y x = true.
Proof.
  unfold argsort. set (s := merge_sort key_le (zip (seq 0 (length v)) v)).
  rewrite <- fmap_drop. intros Hi Hj Hx Hy.
  assert (Hs : StronglySorted key_le (take k s ++ drop k s)).
  { rewrite take_drop. apply StronglySorted_merge_sort; apply _. }
  apply list_elem_of_fmap in Hi as ([i' x'] & -> & Hi). simpl in *.
  assert (Hx' : v !! i' = Some x').
  { apply elem_of_enumerate. rewrite <- (merge_sort_Permutation key_le).
    fold s. rewrite <- (take_drop k s). apply elem_of_app. right. exact Hi. }
  assert (x' = x) as -> by congruence.
  assert (Hjs : (j, y) ∈ take k s ++ drop k s).
  { rewrite take_drop. unfold s. rewrite merge_sort_Permutation.
    apply elem_of_enumerate. exact Hy. }
  apply elem_of_app in Hjs as [Hjs|Hjs].
  - exact (StronglySorted_app_1_elem_of _ _ _ _ _ Hs Hjs Hi).
  - exfalso. apply Hj. apply list_elem_of_fmap. exists (j, y). split; auto.
Qed.

Lemma top25_by_norm_largest (weight : list (list F)) :
  25 <= length weight -> largest_25_rows weight (top25_by_norm weight).
Proof.
  intros Hn. unfold top25_by_norm, last25.
  set (v := norm_axis1 weight).
  assert (Hv : length v = length weight) by apply length_map.
  assert (Hsub : forall i, i ∈ drop (length (argsort v) - 25) (argsort v) ->
                           i ∈ argsort v).
  { intros i Hi. rewrite <- (take_drop (length (argsort v) - 25) (argsort v)).
    apply elem_of_app. right. exact Hi. }
  repeat split.
  - rewrite length_drop, length_argsort. lia.
  - assert (Hnd : NoDup (argsort v)).
    { rewrite argsort_Permutation. apply NoDup_seq. }
    rewrite <- (take_drop (length (argsort v) - 25) (argsort v)) in Hnd.
    apply NoDup_app in Hnd. tauto.
  - intros i Hi. apply Hsub in Hi. rewrite argsort_Permutation in Hi.
    apply elem_of_seq in Hi. lia.
  - intros i j ri rj Hi Hj Hri Hrj.
    eapply argsort_drop_largest; [exact Hi|exact Hj| |].
    + unfold v, norm_axis1. rewrite list_lookup_fmap, Hri. reflexivity.
    + unfold v, norm_axis1. rewrite list_lookup_fmap, Hrj. reflexivity.
Qed.

End ArgsortFacts.

(** ** Stepping through a method *)

Section MonadSteps.
Context {F : Type} {ops : FloatOps F} {keras : Keras F}.

Lemma bind_Ok {A B} (c : M F A) (k : A -> M F B) (w : World F) r :
  bind c k w = Ok r -> exists a w1, c w = Ok (a, w1) /\ k a w1 = Ok r.
Proof.
  unfold bind. destruct (c w) as [[a w1]|e]; [|discriminate].
  intros Hk. exists a, w1. split; [reflexivity|exact Hk].
Qed.

Lemma ret_Ok {A} (a : A) (w : World F) r : ret a w = Ok r -> r = (a, w).
Proof. unfold ret. congruence. Qed.

Lemma try_Ok {A} e (o : option A) (w : World F) a w1 :
  try_ e o w = Ok (a, w1) -> o = Some a /\ w1 = w.
Proof.
  destruct o; unfold try_, ret, raise; intros Heq; inversion Heq; auto.
Qed.

Lemma load_model_Ok p (w : World F) a w1 :
  load_model p w = Ok (a, w1) ->
  files w !! p = Some a /\ w1 = mkWorld (files w) (EvLoadModel p a :: log w).
Proof.
  unfold load_model. destruct (files w !! p); intros Heq; inversion Heq; auto.
Qed.

Lemma save_Ok mdl p (w : World F) a w1 :
  save mdl p w = Ok (a, w1) ->
  w1 = mkWorld (<[p := mdl]> (files w)) (EvSave p mdl :: log w).
Proof. unfold save. intros Heq; inversion Heq; auto. Qed.

Lemma compile_Ok mdl ls lr ms (w : World F) a w1 :
  compile mdl ls lr ms w = Ok (a, w1) ->
  a = mkModel (layers mdl) (Some (mkCompiled ls lr ms)) /\
  w1 = mkWorld (files w) (EvCompile a :: log w).
Proof. unfold compile. intros Heq; inversion Heq; auto. Qed.

Lemma fit_Ok mdl x y bs vd ep vb cbs (w : World F) a w1 :
  fit mdl x y bs vd ep vb cbs w = Ok (a, w1) ->
  a = (fitted (keras_fit mdl x y bs vd ep cbs),
       history (keras_fit mdl x y bs vd ep cbs)) /\
  w1 = mkWorld (foldr (write_checkpoint
                         (checkpointed (keras_fit mdl x y bs vd ep cbs)))
                      (files w) cbs)
               (EvFit mdl x y bs vd ep vb cbs :: log w).
Proof. unfold fit. intros Heq; inversion Heq; auto. Qed.

Lemma load_weights_Ok mdl p (w : World F) a w1 :
  load_weights mdl p w = Ok (a, w1) ->
  exists file ls, files w !! p = Some file /\
    mapM (load_layer_by_name file) (layers mdl) = Some ls /\
    a = mkModel ls (compiled mdl) /\
    w1 = mkWorld (files w) (EvLoadWeights p a :: log w).
Proof.
  unfold load_weights. destruct (files w !! p) as [file|]; [|discriminate].
  destruct (mapM _ _) as [ls|] eqn:Els; [|discriminate].
  intros Heq; inversion Heq. exists file, ls. auto.
Qed.

(** The file a checkpoint callback may have written, read back: when the
    fit saved a model, that model is what the file holds. *)
Lemma lookup_checkpoint (o : option (Model F)) (fs : gmap string (Model F))
    mon1 mode1 vb1 pat p mon mode vb sbo saved :
  foldr (write_checkpoint o) fs
        [EarlyStopping mon1 mode1 vb1 pat; ModelCheckpoint p mon mode vb sbo]
    !! p = Some saved ->
  forall mb, o = Some mb -> saved = mb.
Proof.
  intros Hl mb ->. simpl in Hl. rewrite lookup_insert_eq in Hl. congruence.
Qed.

End MonadSteps.

(** One step of a successful run: split the first bind and invert the call
    it makes; [a] names the value of the call, [Hs] what is known of it. *)
Tactic Notation "mstep" hyp(H) "as" ident(a) ident(Hs) :=
  apply bind_Ok in H as (a & ? & Hs & H);
  first
    [ apply fit_Ok in Hs as [-> ->]
    | apply try_Ok in Hs as [Hs ->]
    | apply load_model_Ok in Hs as [Hs ->]
    | apply save_Ok in Hs as ->
    | apply compile_Ok in Hs as [-> ->]
    | idtac ];
  cbv beta iota zeta in H.

Section PruneRebuild.
Context {F : Type} {ops : FloatOps F} {keras : Keras F}.

Lemma prune_rebuild_Ok l2 lr act out path gn (w : World F) ind m3 w' :
  prune_rebuild l2 lr act out path gn w = Ok ((ind, m3), w') ->
  exists saved names ml,
    files w !! path = Some saved /\
    gn = Some names /\ is_Some (take_indices names ind) /\
    pruned_from l2 lr act out saved ind m3 /\
    files w' = files w /\
    log w' = EvCompile m3 :: EvLoadWeights path ml
               :: EvLoadModel path saved :: log w.
Proof.
  intros Hrun. unfold prune_rebuild in Hrun.
  mstep Hrun as saved Hsaved. mstep Hrun as wt Hwt. mstep Hrun as bias Hbias.
  apply bind_Ok in Hrun as (weight' & ? & Hw & Hrun).
  destruct wt as [v|weight]; [discriminate|].
  apply ret_Ok in Hw. inversion Hw; subst; clear Hw.
  cbv beta iota zeta in Hrun.
  mstep Hrun as names Hnames. mstep Hrun as picked Hpicked.
  apply bind_Ok in Hrun as (ml & ? & Hlw & Hrun).
  apply load_weights_Ok in Hlw as (file & loaded & Hfile & Hloaded & -> & ->).
  cbn [files log layers compiled] in *.
  assert (file = saved) as -> by congruence.
  mstep Hrun as rows Hrows. mstep Hrun as ls Hls. mstep Hrun as mc Hmc.
  apply ret_Ok in Hrun. inversion Hrun; subst; clear Hrun.
  cbn [files log layers compiled] in *.
  eexists saved, names, _. repeat split; eauto.
  exists weight, bias, loaded, rows, ls. repeat split; auto.
Qed.

End PruneRebuild.

(** ** Layers, their weights and what loading by name keeps *)

Section LayerFacts.
Context {F : Type} {ops : FloatOps F} {keras : Keras F}.

Lemma Dense_config_with_weights (l : Dense F) k b :
  Dense_config (with_weights l k b) = Dense_config l.
Proof. reflexivity. Qed.

Lemma with_weights_with_weights (l : Dense F) k b k' b' :
  with_weights (with_weights l k b) k' b' = with_weights l k' b'.
Proof. reflexivity. Qed.

Lemma with_weights_self (l : Dense F) : with_weights l (kernel l) (bias l) = l.
Proof. destruct l; reflexivity. Qed.

Lemma Dense_set_weights_Some (l : Dense F) ws l' :
  Dense_set_weights l ws = Some l' ->
  exists k b, ws = [Arr2 k; Arr1 b] /\
    has_shape (input_dim l) (units l) k = true /\ length b = units l /\
    l' = with_weights l k b.
Proof.
  unfold Dense_set_weights.
  destruct ws as [|[?|k] [|[b|?] [|? ?]]]; try discriminate.
  destruct (has_shape _ _ k) eqn:Hk; [|discriminate].
  destruct (Nat.eqb_spec (length b) (units l)) as [Hb|]; [|discriminate].
  simpl. intros [= <-]. exists k, b. auto.
Qed.

Lemma load_layer_by_name_Some (file : Model F) l l' :
  load_layer_by_name file l = Some l' ->
  l' = with_weights l (kernel l') (bias l') /\
  match get_layer file (name l) with
  | Some s => kernel l' = kernel s /\ bias l' = bias s
  | None => l' = l
  end.
Proof.
  unfold load_layer_by_name. destruct (get_layer file (name l)) as [s|].
  - intros (k & b & [= <- <-] & _ & _ & ->)%Dense_set_weights_Some. auto.
  - intros [= <-]. rewrite with_weights_self. auto.
Qed.

Lemma load_layer_by_name_config (file : Model F) l l' :
  load_layer_by_name file l = Some l' -> Dense_config l' = Dense_config l.
Proof. intros [-> _]%load_layer_by_name_Some. reflexivity. Qed.

Lemma load_by_name_config (file : Model F) ls ls' :
  mapM (load_layer_by_name file) ls = Some ls' ->
  map Dense_config ls' = map Dense_config ls.
Proof.
  intros Hm%mapM_Some. induction Hm as [|l l' ls ls' Hl _ IH]; simpl.
  - reflexivity.
  - f_equal; [|exact IH]. eapply load_layer_by_name_config, Hl.
Qed.

Lemma set_layer_weights_config (ls : list (Dense F)) nm ws ls' :
  set_layer_weights ls nm ws = Some ls' ->
  map Dense_config ls' = map Dense_config ls.
Proof.
  revert ls'. induction ls as [|l ls IH]; intros ls'; simpl; [discriminate|].
  destruct (String.eqb (name l) nm).
  - destruct (Dense_set_weights l ws) as [l1|] eqn:Hl; [|discriminate].
    apply Dense_set_weights_Some in Hl as (k & b & _ & _ & _ & ->).
    simpl. intros [= <-]. reflexivity.
  - destruct (set_layer_weights ls nm ws) as [ls1|]; [|discriminate].
    simpl. intros [= <-]. simpl. f_equal. apply IH. reflexivity.
Qed.

(** The first two arrays of [get_weights] are the kernel and the bias of
    the first layer. *)
Lemma get_weights_first (m : Model F) weight b0 :
  get_weights m !! 0 = Some (Arr2 weight) ->
  get_weights m !! 1 = Some b0 ->
  exists s rest, layers m = s :: rest /\ weight = kernel s /\
                 b0 = Arr1 (bias s).
Proof.
  unfold get_weights. destruct (layers m) as [|s rest]; [discriminate|].
  simpl. intros [= <-] [= <-]. eauto.
Qed.

Lemma pruned_architecture_layers (l2 : PyNum F) act out :
  layers (pruned_architecture l2 act out) =
  [new_Dense "W1_25" 512 25 act (reg_ElasticNet (PyInt 0) l2) (reg_l2 l2) true;
   new_Dense "W2" 128 512 act (reg_l2 l2) (reg_l2 l2) true;
   new_Dense "bottleneck" 2 128 "linear" (reg_l2 l2) (reg_l2 l2) true;
   new_Dense "W4" 128 2 act (reg_l2 l2) (reg_l2 l2) true;
   new_Dense "W5" 512 128 act (reg_l2 l2) (reg_l2 l2) true;
   new_Dense "W6_regr" out 512 "linear" (reg_l2 l2) None true].
Proof. reflexivity. Qed.

Lemma regression_architecture_layers (l1 l2 : PyNum F) act d out
    t0 t1 t2 t3 t4 t5 :
  layers (regression_architecture l1 l2 act d out t0 t1 t2 t3 t4 t5) =
  [new_Dense "W1" 512 d act (reg_ElasticNet l1 l2) (reg_l2 l2) t0;
   new_Dense "W2" 128 512 act (reg_l2 l2) (reg_l2 l2) t1;
   new_Dense "bottleneck" 2 128 "linear" (reg_l2 l2) (reg_l2 l2) t2;
   new_Dense "W4" 128 2 act (reg_l2 l2) (reg_l2 l2) t3;
   new_Dense "W5" 512 128 act (reg_l2 l2) (reg_l2 l2) t4;
   new_Dense "W6_regr" out 512 "linear" (reg_l2 l2) None t5].
Proof. reflexivity. Qed.

Lemma classification_architecture_layers (l1 l2 : PyNum F) act d out :
  layers (classification_architecture l1 l2 act d out) =
  [new_Dense "W1" 512 d act (reg_ElasticNet l1 l2) (reg_l2 l2) true;
   new_Dense "W2" 128 512 act (reg_l2 l2) (reg_l2 l2) true;
   new_Dense "bottleneck" 2 128 "linear" (reg_l2 l2) (reg_l2 l2) true;
   new_Dense "W4" 128 2 act (reg_l2 l2) (reg_l2 l2) true;
   new_Dense "W5" 512 128 act (reg_l2 l2) (reg_l2 l2) true;
   new_Dense "W6_class" out 512 "softmax" (reg_l2 l2) (reg_l2 l2) true].
Proof. reflexivity. Qed.

(** Loading by name into six layers gives six layers, each loaded on its
    own. *)
Lemma load_by_name_six (file : Model F) a1 a2 a3 a4 a5 a6 ls :
  mapM (load_layer_by_name file) [a1; a2; a3; a4; a5; a6] = Some ls ->
  exists b1 b2 b3 b4 b5 b6,
    ls = [b1; b2; b3; b4; b5; b6] /\
    load_layer_by_name file a1 = Some b1 /\
    load_layer_by_name file a2 = Some b2 /\
    load_layer_by_name file a3 = Some b3 /\
    load_layer_by_name file a4 = Some b4 /\
    load_layer_by_name file a5 = Some b5 /\
    load_layer_by_name file a6 = Some b6.
Proof.
  intros Hm%mapM_Some.
  repeat match goal with
         | H : Forall2 _ (_ :: _) _ |- _ =>
             apply Forall2_cons_inv_l in H as (? & ? & ? & H & ->)
         | H : Forall2 _ [] _ |- _ => apply Forall2_nil_inv_l in H as ->
         end.
  eauto 20.
Qed.

(** What a successful pruning block has built, layer by layer: [W1_25] holds
    the chosen rows of the first kernel of the saved model and its first
    bias; the five other layers are the fresh layers of the 25-input
    architecture, each loaded by name from the saved model. *)
Lemma pruned_from_layers (l2 lr : PyNum F) act out saved ind m3 :
  pruned_from l2 lr act out saved ind m3 ->
  exists s1 rest rows b2 b3 b4 b5 b6,
    layers saved = s1 :: rest /\
    ind = top25_by_norm (kernel s1) /\
    take_indices (kernel s1) ind = Some rows /\
    has_shape 25 512 rows = true /\
    layers m3 =
      [with_weights
         (new_Dense "W1_25" 512 25 act (reg_ElasticNet (PyInt 0) l2)
                    (reg_l2 l2) true)
         rows (bias s1);
       b2; b3; b4; b5; b6] /\
    load_layer_by_name saved
      (new_Dense "W2" 128 512 act (reg_l2 l2) (reg_l2 l2) true) = Some b2 /\
    load_layer_by_name saved
      (new_Dense "bottleneck" 2 128 "linear" (reg_l2 l2) (reg_l2 l2) true)
      = Some b3 /\
    load_layer_by_name saved
      (new_Dense "W4" 128 2 act (reg_l2 l2) (reg_l2 l2) true) = Some b4 /\
    load_layer_by_name saved
      (new_Dense "W5" 512 128 act (reg_l2 l2) (reg_l2 l2) true) = Some b5 /\
    load_layer_by_name saved
      (new_Dense "W6_regr" out 512 "linear" (reg_l2 l2) None true)
      = Some b6 /\
    compiled m3 = Some (mkCompiled "mse" (py_half lr) ["r2_score"; "mse"]).
Proof.
  intros (weight & b0 & loaded & rows & ls & Hw & Hb & -> & Hload & Hrows
          & Hset & ->).
  destruct (get_weights_first _ _ _ Hw Hb) as (s1 & rest & Hlayers & -> & ->).
  rewrite pruned_architecture_layers in Hload.
  apply load_by_name_six in Hload
    as (b1 & b2 & b3 & b4 & b5 & b6 & -> & H1 & H2 & H3 & H4 & H5 & H6).
  apply load_layer_by_name_Some in H1 as [H1 _].
  rewrite H1 in Hset. simpl in Hset.
  destruct (has_shape 25 512 rows) eqn:Hk; [|discriminate].
  destruct (length (bias s1) =? 512)%nat; [|discriminate].
  simpl in Hset. injection Hset as <-.
  exists s1, rest, rows, b2, b3, b4, b5, b6. repeat split; auto.
Qed.

(** Pruning builds the layers of the 25-input architecture. *)
Lemma pruned_from_config (l2 lr : PyNum F) act out saved ind m3 :
  pruned_from l2 lr act out saved ind m3 ->
  map Dense_config (layers m3)
    = map Dense_config (layers (pruned_architecture l2 act out)).
Proof.
  intros (weight & b0 & loaded & rows & ls & _ & _ & _ & Hload & _ & Hset
          & ->).
  cbn [layers]. rewrite (set_layer_weights_config _ _ _ _ Hset).
  eapply load_by_name_config, Hload.
Qed.

End LayerFacts.

(** ** The runs of [StraightRegression.train] *)

Section StraightRegressionRuns.
Context {F : Type} {ops : FloatOps F} {keras : Keras F}.
Import StraightRegression.

Lemma SR_weights_file_set_m (self : t F) m' c i1 i2 :
  weights_file (set_m self m') c i1 i2 = weights_file self c i1 i2.
Proof. reflexivity. Qed.

Lemma SR_weights_after_pruning_file_set_m (self : t F) m' c i1 i2 :
  weights_after_pruning_file (set_m self m') c i1 i2
  = weights_after_pruning_file self c i1 i2.
Proof. reflexivity. Qed.

Lemma SR_train_plain_run (self : t F) xtr ytr xte yte epochs bs patience c i1 i2
    verbose gn (w : World F) res self' w' :
  train self xtr ytr xte yte epochs bs patience c i1 i2 verbose false gn w
    = Ok (res, self', w') ->
  let cbs := [EarlyStopping "val_mean_squared_error" "min" verbose patience;
              ModelCheckpoint (weights_file self c i1 i2)
                "val_mean_squared_error" "min" verbose true] in
  let out := keras_fit (m self) xtr ytr bs (Some (xte, yte)) epochs cbs in
  exists saved tl vl,
    (forall mb, checkpointed out = Some mb -> saved = mb) /\
    history out !! "r2_score" = Some tl /\
    history out !! "val_r2_score" = Some vl /\
    res = Plain (np_r2 ytr (predict saved xtr)) (np_r2 yte (predict saved xte))
                tl vl /\
    self' = set_m self (fitted out) /\
    log w' = [EvSave (last_weights_file c i1 i2) (fitted out);
              EvLoadModel (weights_file self c i1 i2) saved;
              EvFit (m self) xtr ytr bs (Some (xte, yte)) epochs verbose cbs]
             ++ log w.
Proof.
  intros Hrun cbs out. unfold train in Hrun.
  cbn [negb] in Hrun. cbv beta iota zeta in Hrun.
  mstep Hrun as a Hfit. fold cbs out in Hrun.
  mstep Hrun as tl Htl. mstep Hrun as vl Hvl.
  mstep Hrun as saved Hsaved. mstep Hrun as u Hsave.
  apply ret_Ok in Hrun. inversion Hrun; subst; clear Hrun.
  cbn [files log] in *. rewrite SR_weights_file_set_m in *.
  exists saved, tl, vl. repeat split; auto.
  eapply lookup_checkpoint. exact Hsaved.
Qed.

Lemma SR_train_pruned_run (self : t F) xtr ytr xte yte epochs bs patience c i1 i2
    verbose gn (w : World F) res self' w' :
  train self xtr ytr xte yte epochs bs patience c i1 i2 verbose true gn w
    = Ok (res, self', w') ->
  let es := EarlyStopping "val_mean_squared_error" "min" verbose
                          (2 * patience) in
  let cbs := [es; ModelCheckpoint (weights_file self c i1 i2)
                    "val_mean_squared_error" "min" verbose true] in
  let cbs' := [es; ModelCheckpoint (weights_after_pruning_file self c i1 i2)
                     "val_mean_squared_error" "min" verbose true] in
  let out := keras_fit (m self) xtr ytr bs (Some (xte, yte)) (2 * epochs)
                       cbs in
  exists saved tl vl ind m3 ml names x25 xt25,
    (forall mb, checkpointed out = Some mb -> saved = mb) /\
    history out !! "r2_score" = Some tl /\
    history out !! "val_r2_score" = Some vl /\
    gn = Some names /\
    pruned_from (l2 self) (lr self) (act self) (output_dim self)
                (fitted out) ind m3 /\
    select_columns xtr ind = Some x25 /\
    select_columns xte ind = Some xt25 /\
    let out' := keras_fit m3 x25 ytr bs (Some (xt25, yte)) (2 * epochs)
                          cbs' in
    exists saved2 tl' vl',
      (forall mb, checkpointed out' = Some mb -> saved2 = mb) /\
      history out' !! "r2_score" = Some tl' /\
      history out' !! "val_r2_score" = Some vl' /\
      res = Pruned (np_r2 ytr (predict saved xtr))
                   (np_r2 yte (predict saved xte))
                   (np_r2 ytr (predict saved2 x25))
                   (np_r2 yte (predict saved2 xt25))
                   (tl ++ tl') (vl ++ vl') /\
      self' = set_m self (fitted out') /\
      log w' = [EvLoadModel (weights_after_pruning_file self c i1 i2) saved2;
                EvFit m3 x25 ytr bs (Some (xt25, yte)) (2 * epochs) verbose
                      cbs';
                EvCompile m3;
                EvLoadWeights (last_weights_file c i1 i2) ml;
                EvLoadModel (last_weights_file c i1 i2) (fitted out);
                EvSave (last_weights_file c i1 i2) (fitted out);
                EvLoadModel (weights_file self c i1 i2) saved;
                EvFit (m self) xtr ytr bs (Some (xte, yte)) (2 * epochs)
                      verbose cbs]
               ++ log w.
Proof.
  intros Hrun es cbs cbs' out. unfold train in Hrun.
  cbn [negb] in Hrun. cbv beta iota zeta in Hrun.
  mstep Hrun as a Hfit. fold es cbs out in Hrun.
  mstep Hrun as tl Htl. mstep Hrun as vl Hvl.
  mstep Hrun as saved Hsaved. mstep Hrun as u Hsave.
  apply bind_Ok in Hrun as ([ind m3] & w3 & Hpr & Hrun).
  apply prune_rebuild_Ok in Hpr
    as (sv & names & ml & Hsv & -> & _ & Hpf & Hfiles & Hlog).
  cbn [files log] in *. rewrite lookup_insert_eq in Hsv.
  inversion Hsv; subst sv; clear Hsv.
  cbv beta iota zeta in Hrun. cbn [m set_m l2 lr act output_dim] in *.
  rewrite ?SR_weights_file_set_m, ?SR_weights_after_pruning_file_set_m in *.
  mstep Hrun as x25 Hx25. mstep Hrun as xt25 Hxt25.
  mstep Hrun as a' Hfit'. fold es cbs' in Hrun.
  mstep Hrun as tl' Htl'. mstep Hrun as vl' Hvl'.
  mstep Hrun as saved2 Hsaved2.
  mstep Hrun as x25' Hx25'. mstep Hrun as xt25' Hxt25'.
  apply ret_Ok in Hrun. inversion Hrun; subst; clear Hrun.
  cbn [files log] in *.
  rewrite ?SR_weights_file_set_m, ?SR_weights_after_pruning_file_set_m in *.
  assert (x25' = x25) as -> by congruence.
  assert (xt25' = xt25) as -> by congruence.
  exists saved, tl, vl, ind, m3, ml, names, x25, xt25.
  repeat (split; [solve [eauto using lookup_checkpoint]|]).
  exists saved2, tl', vl'. rewrite Hlog.
  repeat (split; [solve [eauto using lookup_checkpoint]|]).
  reflexivity.
Qed.

End StraightRegressionRuns.

Section StraightRegressionPruning.
Context {F : Type} {ops : FloatOps F} {keras : Keras F}.
Import StraightRegression.

(** The pruning stage of a run of [train] with [prune=True]. *)
Lemma SR_prune_stage (self : t F) xtr ytr xte yte epochs bs patience c i1 i2
    verbose gn (w : World F) res self' w' :
  train self xtr ytr xte yte epochs bs patience c i1 i2 verbose true gn w
    = Ok (res, self', w') ->
  exists saved ind m3 x25 xt25,
    pruned_from (l2 self) (lr self) (act self) (output_dim self) saved ind m3
    /\ select_columns xtr ind = Some x25
    /\ select_columns xte ind = Some xt25
    /\ pruning_stage (log w') (last_weights_file c i1 i2) saved m3
         (EvFit m3 x25 ytr bs (Some (xt25, yte)) (2 * epochs) verbose
            [EarlyStopping "val_mean_squared_error" "min" verbose
               (2 * patience);
             ModelCheckpoint (weights_after_pruning_file self c i1 i2)
               "val_mean_squared_error" "min" verbose true]).
Proof.
  intros Hrun. apply SR_train_pruned_run in Hrun. cbv zeta in Hrun.
  destruct Hrun as (saved & tl & vl & ind & m3 & ml & names & x25 & xt25
    & _ & _ & _ & _ & Hpf & Hx & Hxt & saved2 & tl' & vl' & _ & _ & _ & _ & _
    & Hlog).
  eexists _, ind, m3, x25, xt25. repeat (split; [eassumption|]).
  exists ml, [EvLoadModel (weights_after_pruning_file self c i1 i2) saved2],
    [], ([EvLoadModel (weights_file self c i1 i2) saved;
          EvFit (m self) xtr ytr bs (Some (xte, yte)) (2 * epochs) verbose
            [EarlyStopping "val_mean_squared_error" "min" verbose
               (2 * patience);
             ModelCheckpoint (weights_file self c i1 i2)
               "val_mean_squared_error" "min" verbose true]] ++ log w).
  split; [exact Hlog|]. split; [reflexivity|constructor].
Qed.

End StraightRegressionPruning.

(** ** The runs of [FreezeUnfreeze] *)

Section FreezeUnfreezeRuns.
Context {F : Type} {ops : FloatOps F} {keras : Keras F}.
Import FreezeUnfreeze.

(** The two checkpoint files of the first two stages differ, whatever the
    ids: the first fit's file is not overwritten by the second fit. *)
Lemma before_after_distinct (self : t F) c i1 i2 :
  after_unfreezing_file self c i1 i2 <> before_unfreezing_file self c i1 i2.
Proof.
  unfold before_unfreezing_file, after_unfreezing_file, format_ids.
  destruct (negb (pre_trained_weights self)); cbn [format]; discriminate.
Qed.

Lemma lookup_before_file (self : t F) c i1 i2 (o1 o2 : option (Model F))
    (fs : gmap string (Model F)) vb1 vb2 vb3 vb4 pat1 pat2 saved :
  foldr (write_checkpoint o2)
    (foldr (write_checkpoint o1) fs
       [EarlyStopping "val_mean_squared_error" "min" vb1 pat1;
        ModelCheckpoint (before_unfreezing_file self c i1 i2)
          "val_mean_squared_error" "min" vb2 true])
    [EarlyStopping "val_mean_squared_error" "min" vb3 pat2;
     ModelCheckpoint (after_unfreezing_file self c i1 i2)
       "val_mean_squared_error" "min" vb4 true]
    !! before_unfreezing_file self c i1 i2 = Some saved ->
  forall mb, o1 = Some mb -> saved = mb.
Proof.
  intros Hl mb ->. cbn [foldr write_checkpoint] in Hl.
  destruct o2 as [mb2|].
  - rewrite lookup_insert_ne in Hl by apply before_after_distinct.
    rewrite lookup_insert_eq in Hl. congruence.
  - rewrite lookup_insert_eq in Hl. congruence.
Qed.

Lemma FU_file_set_m (self : t F) m' c i1 i2 :
  before_unfreezing_file (set_m self m') c i1 i2
    = before_unfreezing_file self c i1 i2 /\
  after_unfreezing_file (set_m self m') c i1 i2
    = after_unfreezing_file self c i1 i2 /\
  after_unfreezing_and_pruning_file (set_m self m') c i1 i2
    = after_unfreezing_and_pruning_file self c i1 i2.
Proof. repeat split. Qed.

Ltac files_set_m :=
  repeat first
    [ rewrite (proj1 (FU_file_set_m _ _ _ _ _)) in *
    | rewrite (proj1 (proj2 (FU_file_set_m _ _ _ _ _))) in *
    | rewrite (proj2 (proj2 (FU_file_set_m _ _ _ _ _))) in * ].

Lemma FU_train_plain_run (self : t F) xtr ytr xte yte epochs bs patience c i1 i2
    verbose gn (w : World F) res self' w' :
  train self xtr ytr xte yte epochs bs patience c i1 i2 verbose false gn w
    = Ok (res, self', w') ->
  let cbs := [EarlyStopping "val_mean_squared_error" "min" verbose patience;
              ModelCheckpoint (before_unfreezing_file self c i1 i2)
                "val_mean_squared_error" "min" verbose true] in
  let out := keras_fit (m self) xtr ytr bs (Some (xte, yte)) epochs cbs in
  let m2 := mkModel (layers (unfreeze_all (fitted out)))
              (Some (mkCompiled "mean_squared_error" (py_half (lr self))
                                ["r2_score"; "mse"])) in
  let cbs2 := [EarlyStopping "val_mean_squared_error" "min" 1 patience;
               ModelCheckpoint (after_unfreezing_file self c i1 i2)
                 "val_mean_squared_error" "min" verbose true] in
  let out2 := keras_fit m2 xtr ytr bs (Some (xte, yte)) epochs cbs2 in
  exists saved saved2 tl vl tl2 vl2,
    (forall mb, checkpointed out = Some mb -> saved = mb) /\
    (forall mb, checkpointed out2 = Some mb -> saved2 = mb) /\
    history out !! "r2_score" = Some tl /\
    history out !! "val_r2_score" = Some vl /\
    history out2 !! "r2_score" = Some tl2 /\
    history out2 !! "val_r2_score" = Some vl2 /\
    res = Plain (np_r2 ytr (predict saved xtr)) (np_r2 yte (predict saved xte))
                (np_r2 ytr (predict saved2 xtr))
                (np_r2 yte (predict saved2 xte))
                (tl ++ tl2) (vl ++ vl2) /\
    self' = set_m self (fitted out2) /\
    log w' = [EvSave (last_weights_file c i1 i2) (fitted out2);
              EvLoadModel (after_unfreezing_file self c i1 i2) saved2;
              EvLoadModel (before_unfreezing_file self c i1 i2) saved;
              EvFit m2 xtr ytr bs (Some (xte, yte)) epochs verbose cbs2;
              EvCompile m2;
              EvFit (m self) xtr ytr bs (Some (xte, yte)) epochs verbose cbs]
             ++ log w.
Proof.
  intros Hrun cbs out m2 cbs2 out2. unfold train in Hrun.
  cbv beta iota zeta in Hrun.
  mstep Hrun as a Hfit. fold cbs out in Hrun.
  mstep Hrun as tl Htl. mstep Hrun as vl Hvl.
  mstep Hrun as mc Hmc. cbn [m set_m lr] in Hrun. fold m2 in Hrun.
  mstep Hrun as a2 Hfit2. files_set_m. fold cbs2 out2 in Hrun.
  mstep Hrun as tl2 Htl2. mstep Hrun as vl2 Hvl2.
  mstep Hrun as saved Hsaved. mstep Hrun as saved2 Hsaved2.
  mstep Hrun as u Hsave.
  apply ret_Ok in Hrun. inversion Hrun; subst; clear Hrun.
  cbn [files log m set_m] in *. files_set_m.
  exists saved, saved2, tl, vl, tl2, vl2.
  repeat (split;
          [solve [eauto using lookup_checkpoint, lookup_before_file]|]).
  reflexivity.
Qed.

Lemma FU_train_pruned_run (self : t F) xtr ytr xte yte epochs bs patience
    c i1 i2 verbose gn (w : World F) res self' w' :
  train self xtr ytr xte yte epochs bs patience c i1 i2 verbose true gn w
    = Ok (res, self', w') ->
  let cbs := [EarlyStopping "val_mean_squared_error" "min" verbose patience;
              ModelCheckpoint (before_unfreezing_file self c i1 i2)
                "val_mean_squared_error" "min" verbose true] in
  let out := keras_fit (m self) xtr ytr bs (Some (xte, yte)) epochs cbs in
  let m2 := mkModel (layers (unfreeze_all (fitted out)))
              (Some (mkCompiled "mean_squared_error" (py_half (lr self))
                                ["r2_score"; "mse"])) in
  let cbs2 := [EarlyStopping "val_mean_squared_error" "min" 1 patience;
               ModelCheckpoint (after_unfreezing_file self c i1 i2)
                 "val_mean_squared_error" "min" verbose true] in
  let out2 := keras_fit m2 xtr ytr bs (Some (xte, yte)) epochs cbs2 in
  let cbs3 := [EarlyStopping "val_mean_squared_error" "min" verbose
                 (2 * patience);
               ModelCheckpoint
                 (after_unfreezing_and_pruning_file self c i1 i2)
                 "val_mean_squared_error" "min" verbose true] in
  exists saved saved2 tl vl tl2 vl2 ind m3 ml names x25 xt25,
    (forall mb, checkpointed out = Some mb -> saved = mb) /\
    (forall mb, checkpointed out2 = Some mb -> saved2 = mb) /\
    history out !! "r2_score" = Some tl /\
    history out !! "val_r2_score" = Some vl /\
    history out2 !! "r2_score" = Some tl2 /\
    history out2 !! "val_r2_score" = Some vl2 /\
    gn = Some names /\
    pruned_from (l2 self) (lr self) (act self) (output_dim self)
                (fitted out2) ind m3 /\
    select_columns xtr ind = Some x25 /\
    select_columns xte ind = Some xt25 /\
    let out3 := keras_fit m3 x25 ytr bs (Some (xt25, yte)) (2 * epochs)
                          cbs3 in
    exists saved3 tl3 vl3,
      (forall mb, checkpointed out3 = Some mb -> saved3 = mb) /\
      history out3 !! "r2_score" = Some tl3 /\
      history out3 !! "val_r2_score" = Some vl3 /\
      res = Pruned (np_r2 ytr (predict saved xtr))
                   (np_r2 yte (predict saved xte))
                   (np_r2 ytr (predict saved2 xtr))
                   (np_r2 yte (predict saved2 xte))
                   (np_r2 ytr (predict saved3 x25))
                   (np_r2 yte (predict saved3 xt25))
                   ((tl ++ tl2) ++ tl3) ((vl ++ vl2) ++ vl3) /\
      self' = set_m self (fitted out3) /\
      log w' = [EvLoadModel (after_unfreezing_and_pruning_file self c i1 i2)
                            saved3;
                EvFit m3 x25 ytr bs (Some (xt25, yte)) (2 * epochs) verbose
                      cbs3;
                EvCompile m3;
                EvLoadWeights (last_weights_file c i1 i2) ml;
                EvLoadModel (last_weights_file c i1 i2) (fitted out2);
                EvSave (last_weights_file c i1 i2) (fitted out2);
                EvLoadModel (after_unfreezing_file self c i1 i2) saved2;
                EvLoadModel (before_unfreezing_file self c i1 i2) saved;
                EvFit m2 xtr ytr bs (Some (xte, yte)) epochs verbose cbs2;
                EvCompile m2;
                EvFit (m self) xtr ytr bs (Some (xte, yte)) epochs verbose
                      cbs]
               ++ log w.
Proof.
  intros Hrun cbs out m2 cbs2 out2 cbs3. unfold train in Hrun.
  cbv beta iota zeta in Hrun.
  mstep Hrun as a Hfit. fold cbs out in Hrun.
  mstep Hrun as tl Htl. mstep Hrun as vl Hvl.
  mstep Hrun as mc Hmc. cbn [m set_m lr] in Hrun. fold m2 in Hrun.
  mstep Hrun as a2 Hfit2. files_set_m. fold cbs2 out2 in Hrun.
  mstep Hrun as tl2 Htl2. mstep Hrun as vl2 Hvl2.
  mstep Hrun as saved Hsaved. mstep Hrun as saved2 Hsaved2.
  mstep Hrun as u Hsave.
  apply bind_Ok in Hrun as ([ind m3] & w3 & Hpr & Hrun).
  apply prune_rebuild_Ok in Hpr
    as (sv & names & ml & Hsv & -> & _ & Hpf & Hfiles & Hlog).
  cbn [files log m set_m] in *. rewrite lookup_insert_eq in Hsv.
  inversion Hsv; subst sv; clear Hsv.
  cbv beta iota zeta in Hrun. cbn [m set_m l2 lr act output_dim] in *.
  files_set_m.
  mstep Hrun as x25 Hx25. mstep Hrun as xt25 Hxt25.
  mstep Hrun as a3 Hfit3. fold cbs3 in Hrun.
  mstep Hrun as tl3 Htl3. mstep Hrun as vl3 Hvl3.
  mstep Hrun as saved3 Hsaved3.
  mstep Hrun as x25' Hx25'. mstep Hrun as xt25' Hxt25'.
  apply ret_Ok in Hrun. inversion Hrun; subst; clear Hrun.
  cbn [files log m set_m] in *. files_set_m.
  assert (x25' = x25) as -> by congruence.
  assert (xt25' = xt25) as -> by congruence.
  exists saved, saved2, tl, vl, tl2, vl2, ind, m3, ml, names, x25, xt25.
  repeat (split;
          [solve [eauto using lookup_checkpoint, lookup_before_file]|]).
  exists saved3, tl3, vl3. rewrite Hlog.
  repeat (split; [solve [eauto using lookup_checkpoint]|]).
  reflexivity.
Qed.

Lemma FU_full_plain_run (self : t F) xtr ytr epochs bs patience c i1 i2
    verbose gn (w : World F) res self' w' :
  train_full_dataset self xtr ytr epochs bs patience c i1 i2 verbose false
                     gn w = Ok (res, self', w') ->
  let out := keras_fit (m self) xtr ytr bs None epochs [] in
  let m2 := mkModel (layers (unfreeze_all (fitted out)))
              (Some (mkCompiled "mean_squared_error" (py_half (lr self))
                                ["r2_score"; "mse"])) in
  let out2 := keras_fit m2 xtr ytr bs None epochs [] in
  exists tl tl2,
    history out !! "r2_score" = Some tl /\
    history out2 !! "r2_score" = Some tl2 /\
    res = None /\
    self' = set_m self (fitted out2) /\
    log w' = [EvSave (after_unfreezing_full_dataset_file c i1 i2)
                     (fitted out2);
              EvFit m2 xtr ytr bs None epochs verbose [];
              EvSave (before_unfreezing_full_dataset_file c i1 i2) m2;
              EvCompile m2;
              EvFit (m self) xtr ytr bs None epochs verbose []]
             ++ log w.
Proof.
  intros Hrun out m2 out2. unfold train_full_dataset in Hrun.
  cbv beta iota zeta in Hrun.
  mstep Hrun as a Hfit. fold out in Hrun. mstep Hrun as tl Htl.
  mstep Hrun as mc Hmc. cbn [m set_m lr] in Hrun. fold m2 in Hrun.
  mstep Hrun as u Hsave.
  mstep Hrun as a2 Hfit2. fold out2 in Hrun. mstep Hrun as tl2 Htl2.
  mstep Hrun as u2 Hsave2.
  apply ret_Ok in Hrun. inversion Hrun; subst; clear Hrun.
  cbn [files log m set_m] in *.
  exists tl, tl2. repeat split; auto.
Qed.

(** Without pruning the method cannot fail once both fits have recorded
    the metric [r2_score]. *)
Lemma FU_full_plain_total (self : t F) xtr ytr epochs bs patience c i1 i2
    verbose gn (w : World F) tl tl2 :
  let out := keras_fit (m self) xtr ytr bs None epochs [] in
  let m2 := mkModel (layers (unfreeze_all (fitted out)))
              (Some (mkCompiled "mean_squared_error" (py_half (lr self))
                                ["r2_score"; "mse"])) in
  let out2 := keras_fit m2 xtr ytr bs None epochs [] in
  history out !! "r2_score" = Some tl ->
  history out2 !! "r2_score" = Some tl2 ->
  exists w',
    train_full_dataset self xtr ytr epochs bs patience c i1 i2 verbose false
                       gn w = Ok (None, set_m self (fitted out2), w').
Proof.
  intros out m2 out2 Htl Htl2.
  unfold train_full_dataset, bind, fit, compile, save.
  cbn [m set_m lr]. fold out. rewrite Htl. cbn [try_ ret].
  cbn [m set_m lr]. fold m2 out2. rewrite Htl2. cbn [try_ ret].
  eexists. reflexivity.
Qed.

Lemma FU_full_pruned_run (self : t F) xtr ytr epochs bs patience c i1 i2
    verbose gn (w : World F) res self' w' :
  train_full_dataset self xtr ytr epochs bs patience c i1 i2 verbose true
                     gn w = Ok (res, self', w') ->
  let out := keras_fit (m self) xtr ytr bs None epochs [] in
  let m2 := mkModel (layers (unfreeze_all (fitted out)))
              (Some (mkCompiled "mean_squared_error" (py_half (lr self))
                                ["r2_score"; "mse"])) in
  let out2 := keras_fit m2 xtr ytr bs None epochs [] in
  exists tl tl2 ind m3 ml names x25,
    history out !! "r2_score" = Some tl /\
    history out2 !! "r2_score" = Some tl2 /\
    gn = Some names /\
    pruned_from (l2 self) (lr self) (act self) (output_dim self)
                (fitted out2) ind m3 /\
    select_columns xtr ind = Some x25 /\
    let out3 := keras_fit m3 x25 ytr bs None (2 * epochs) [] in
    exists tl3,
      history out3 !! "r2_score" = Some tl3 /\
      res = Some ((tl ++ tl2) ++ tl3) /\
      self' = set_m self (fitted out3) /\
      log w' = [EvFit m3 x25 ytr bs None (2 * epochs) verbose [];
                EvSave (after_unfreezing_ap_full_dataset_file c i1 i2) m3;
                EvCompile m3;
                EvLoadWeights (after_unfreezing_full_dataset_file c i1 i2) ml;
                EvLoadModel (after_unfreezing_full_dataset_file c i1 i2)
                            (fitted out2);
                EvSave (after_unfreezing_full_dataset_file c i1 i2)
                       (fitted out2);
                EvFit m2 xtr ytr bs None epochs verbose [];
                EvSave (before_unfreezing_full_dataset_file c i1 i2) m2;
                EvCompile m2;
                EvFit (m self) xtr ytr bs None epochs verbose []]
               ++ log w.
Proof.
  intros Hrun out m2 out2. unfold train_full_dataset in Hrun.
  cbv beta iota zeta in Hrun.
  mstep Hrun as a Hfit. fold out in Hrun. mstep Hrun as tl Htl.
  mstep Hrun as mc Hmc. cbn [m set_m lr] in Hrun. fold m2 in Hrun.
  mstep Hrun as u Hsave.
  mstep Hrun as a2 Hfit2. fold out2 in Hrun. mstep Hrun as tl2 Htl2.
  mstep Hrun as u2 Hsave2.
  apply bind_Ok in Hrun as ([ind m3] & w3 & Hpr & Hrun).
  apply prune_rebuild_Ok in Hpr
    as (sv & names & ml & Hsv & -> & _ & Hpf & Hfiles & Hlog).
  cbn [files log m set_m] in *. rewrite lookup_insert_eq in Hsv.
  inversion Hsv; subst sv; clear Hsv.
  cbv beta iota zeta in Hrun. cbn [m set_m l2 lr act output_dim] in *.
  mstep Hrun as u3 Hsave3.
  mstep Hrun as x25 Hx25.
  mstep Hrun as a3 Hfit3. mstep Hrun as tl3 Htl3.
  apply ret_Ok in Hrun. inversion Hrun; subst; clear Hrun.
  cbn [files log m set_m] in *.
  exists tl, tl2, ind, m3, ml, names, x25.
  repeat (split; [solve [eauto]|]).
  exists tl3. rewrite Hlog. repeat split; auto.
Qed.

(** The pruning stage of a run of [train] with [prune=True]. *)
Lemma FU_prune_stage (self : t F) xtr ytr xte yte epochs bs patience c i1 i2
    verbose gn (w : World F) res self' w' :
  train self xtr ytr xte yte epochs bs patience c i1 i2 verbose true gn w
    = Ok (res, self', w') ->
  exists saved ind m3 x25 xt25,
    pruned_from (l2 self) (lr self) (act self) (output_dim self) saved ind m3
    /\ select_columns xtr ind = Some x25
    /\ select_columns xte ind = Some xt25
    /\ pruning_stage (log w') (last_weights_file c i1 i2) saved m3
         (EvFit m3 x25 ytr bs (Some (xt25, yte)) (2 * epochs) verbose
            [EarlyStopping "val_mean_squared_error" "min" verbose
               (2 * patience);
             ModelCheckpoint
               (after_unfreezing_and_pruning_file self c i1 i2)
               "val_mean_squared_error" "min" verbose true]).
Proof.
  intros Hrun. apply FU_train_pruned_run in Hrun. cbv zeta in Hrun.
  destruct Hrun as (saved & saved2 & tl & vl & tl2 & vl2 & ind & m3 & ml
    & names & x25 & xt25 & _ & _ & _ & _ & _ & _ & _ & Hpf & Hx & Hxt
    & saved3 & tl3 & vl3 & _ & _ & _ & _ & _ & Hlog).
  eexists _, ind, m3, x25, xt25. repeat (split; [eassumption|]).
  eexists ml, [_], [], _.
  split; [exact Hlog|]. split; [reflexivity|constructor].
Qed.

(** The pruning stage of a run of [train_full_dataset] with [prune=True]:
    the rebuilt model is saved once more before it is fitted. *)
Lemma FU_full_prune_stage (self : t F) xtr ytr epochs bs patience c i1 i2
    verbose gn (w : World F) res self' w' :
  train_full_dataset self xtr ytr epochs bs patience c i1 i2 verbose true
                     gn w = Ok (res, self', w') ->
  exists saved ind m3 x25,
    pruned_from (l2 self) (lr self) (act self) (output_dim self) saved ind m3
    /\ select_columns xtr ind = Some x25
    /\ pruning_stage (log w') (after_unfreezing_full_dataset_file c i1 i2)
         saved m3 (EvFit m3 x25 ytr bs None (2 * epochs) verbose []).
Proof.
  intros Hrun. apply FU_full_pruned_run in Hrun. cbv zeta in Hrun.
  destruct Hrun as (tl & tl2 & ind & m3 & ml & names & x25 & _ & _ & _ & Hpf
    & Hx & tl3 & _ & _ & _ & Hlog).
  eexists _, ind, m3, x25. repeat (split; [eassumption|]).
  eexists ml, [], [_], _.
  split; [exact Hlog|]. split; [reflexivity|]. repeat constructor.
Qed.

End FreezeUnfreezeRuns.

(** ** The constructors *)

Section Constructors.
Context {F : Type} {ops : FloatOps F} {keras : Keras F}.

Lemma load_pre_trained_Ok (arch : Model F) (ptw : bool) h5 (w : World F)
    m1 w1 :
  ((if ptw
    then let* h5 := try_ TypeError h5 in load_weights arch h5
    else ret arch) : M F (Model F)) w = Ok (m1, w1) ->
  initial_layers arch ptw h5 w (layers m1) /\
  compiled m1 = compiled arch /\
  files w1 = files w /\
  log w1 = (if ptw
            then match h5 with
                 | Some path => [EvLoadWeights path m1]
                 | None => []
                 end
            else []) ++ log w.
Proof.
  unfold initial_layers. destruct ptw.
  - intros Hrun. mstep Hrun as path Hpath. subst h5.
    apply load_weights_Ok in Hrun as (file & ls & Hfile & Hls & -> & ->).
    simpl. eauto 10.
  - intros [= <- <-]%ret_Ok. auto.
Qed.

Lemma SR_init_run l1 l2 lr act d out ptw h5 (w : World F) self w' :
  StraightRegression.__init__ l1 l2 lr act d out ptw h5 w = Ok (self, w') ->
  let arch := regression_architecture l1 l2 act d out
                                      true true true true true true in
  exists ls,
    initial_layers arch ptw h5 w ls /\
    self = StraightRegression.mk l1 l2 lr act d out ptw
             (mkModel ls (Some (mkCompiled "mean_squared_error" lr
                                           ["r2_score"; "mse"]))) /\
    files w' = files w /\
    exists m1,
      layers m1 = ls /\
      log w' = EvCompile (StraightRegression.m self)
               :: (if ptw
                   then match h5 with
                        | Some path => [EvLoadWeights path m1]
                        | None => []
                        end
                   else []) ++ log w.
Proof.
  intros Hrun arch. unfold StraightRegression.__init__ in Hrun.
  cbv zeta in Hrun. fold arch in Hrun.
  apply bind_Ok in Hrun as (m1 & w1 & Hload & Hrun).
  apply load_pre_trained_Ok in Hload as (Hls & Hc & Hf & Hl).
  mstep Hrun as mc Hmc. apply ret_Ok in Hrun.
  inversion Hrun; subst self w'; clear Hrun.
  cbn [files log StraightRegression.m].
  exists (layers m1). repeat split; auto.
  exists m1. rewrite Hl. split; reflexivity.
Qed.

Lemma FU_init_run l1 l2 lr act d out unfreeze ptw h5 (w : World F) self w' :
  FreezeUnfreeze.__init__ l1 l2 lr act d out unfreeze ptw h5 w
    = Ok (self, w') ->
  exists t0 t1 t2 t3 t4 t5 ls,
    unfreeze !! 0 = Some t0 /\ unfreeze !! 1 = Some t1 /\
    unfreeze !! 2 = Some t2 /\ unfreeze !! 3 = Some t3 /\
    unfreeze !! 4 = Some t4 /\ unfreeze !! 5 = Some t5 /\
    initial_layers
      (regression_architecture l1 l2 act d out t0 t1 t2 t3 t4 t5)
      ptw h5 w ls /\
    self = FreezeUnfreeze.mk l1 l2 lr act d out unfreeze ptw
             (mkModel ls (Some (mkCompiled "mean_squared_error" lr
                                           ["r2_score"; "mse"]))) /\
    files w' = files w /\
    exists m1,
      layers m1 = ls /\
      log w' = EvCompile (FreezeUnfreeze.m self)
               :: (if ptw
                   then match h5 with
                        | Some path => [EvLoadWeights path m1]
                        | None => []
                        end
                   else []) ++ log w.
Proof.
  intros Hrun. unfold FreezeUnfreeze.__init__ in Hrun.
  mstep Hrun as t0 H0. mstep Hrun as t1 H1. mstep Hrun as t2 H2.
  mstep Hrun as t3 H3. mstep Hrun as t4 H4. mstep Hrun as t5 H5.
  apply bind_Ok in Hrun as (m1 & w1 & Hload & Hrun).
  apply load_pre_trained_Ok in Hload as (Hls & Hc & Hf & Hl).
  mstep Hrun as mc Hmc. apply ret_Ok in Hrun.
  inversion Hrun; subst self w'; clear Hrun.
  cbn [files log FreezeUnfreeze.m].
  exists t0, t1, t2, t3, t4, t5, (layers m1). repeat split; auto.
  exists m1. rewrite Hl. split; reflexivity.
Qed.

Lemma CP_init_run l1 l2 lr act d out (w : World F) :
  ClassificationPreTrain.__init__ l1 l2 lr act d out w =
  Ok (ClassificationPreTrain.mk l1 l2 lr act d out
        (mkModel (layers (classification_architecture l1 l2 act d out))
                 (Some (mkCompiled "categorical_crossentropy" lr
                                   ["categorical_crossentropy"]))),
      mkWorld (files w)
        (EvCompile
           (mkModel (layers (classification_architecture l1 l2 act d out))
                    (Some (mkCompiled "categorical_crossentropy" lr
                                      ["categorical_crossentropy"])))
         :: log w)).
Proof. reflexivity. Qed.

End Constructors.

(** ** The run of [ClassificationPreTrain.train] *)

Section ClassificationRuns.
Context {F : Type} {ops : FloatOps F} {keras : Keras F}.
Import ClassificationPreTrain.

Lemma CP_train_run (self : t F) xtr ctr xte cte epochs bs patience c i1 i2
    verbose (w : World F) res self' w' :
  train self xtr ctr xte cte epochs bs patience c i1 i2 verbose w
    = Ok (res, self', w') ->
  let cbs := [EarlyStopping "val_loss" "min" verbose patience;
              ModelCheckpoint (weights_file c i1 i2)
                "val_categorical_crossentropy" "min" verbose true] in
  let out := keras_fit (m self) xtr (to_categorical ctr) bs
                       (Some (xte, to_categorical cte)) epochs cbs in
  exists saved CE_train CE_test h vh,
    (forall mb, checkpointed out = Some mb -> saved = mb) /\
    evaluate saved xtr (to_categorical ctr) !! 0 = Some CE_train /\
    evaluate saved xte (to_categorical cte) !! 0 = Some CE_test /\
    history out !! "categorical_crossentropy" = Some h /\
    history out !! "val_categorical_crossentropy" = Some vh /\
    res = (CE_train, CE_test, h, vh) /\
    log w' = [EvLoadModel (weights_file c i1 i2) saved;
              EvLoadModel (weights_file c i1 i2) saved;
              EvFit (m self) xtr (to_categorical ctr) bs
                    (Some (xte, to_categorical cte)) epochs verbose cbs]
             ++ log w.
Proof.
  intros Hrun cbs out. unfold train in Hrun. cbv beta iota zeta in Hrun.
  mstep Hrun as a Hfit. fold cbs out in Hrun.
  mstep Hrun as saved Hsaved. mstep Hrun as saved' Hsaved'.
  cbn [files log] in *. assert (saved' = saved) as -> by congruence.
  mstep Hrun as CE_train Htr. mstep Hrun as CE_test Hte.
  mstep Hrun as h Hh. mstep Hrun as vh Hvh.
  apply ret_Ok in Hrun. inversion Hrun; subst; clear Hrun.
  exists saved, CE_train, CE_test, h, vh.
  repeat (split; [solve [eauto using lookup_checkpoint]|]).
  reflexivity.
Qed.

End ClassificationRuns.

(** ** Which features pruning keeps *)

Section Pruning.
Context {F : Type} {ops : FloatOps F} {keras : Keras F}.

(** The chosen indices are the 25 rows of largest norm of the first kernel
    of the saved model, which has at least 25 rows. *)
Lemma pruned_from_largest {ord : FloatOrder F} (l2 lr : PyNum F) act out
    saved ind m3 :
  pruned_from l2 lr act out saved ind m3 ->
  exists s1 rest,
    layers saved = s1 :: rest /\ ind = top25_by_norm (kernel s1) /\
    25 <= length (kernel s1) /\ largest_25_rows (kernel s1) ind.
Proof.
  intros (s1 & rest & rows & b2 & b3 & b4 & b5 & b6 & Hl & Hind & Hrows
          & Hshape & _)%pruned_from_layers.
  exists s1, rest. split; [exact Hl|]. split; [exact Hind|].
  assert (Hn : 25 <= length (kernel s1)).
  { apply length_mapM in Hrows. unfold has_shape in Hshape.
    apply andb_prop in Hshape as [Hlen%Nat.eqb_eq _].
    rewrite Hlen in Hrows. subst ind.
    unfold top25_by_norm, last25 in Hrows.
    rewrite length_drop, length_argsort in Hrows.
    unfold norm_axis1 in Hrows. rewrite length_map in Hrows. lia. }
  split; [exact Hn|]. subst ind. apply top25_by_norm_largest, Hn.
Qed.

End Pruning.

Section PruningStage.
Context {F : Type} {ops : FloatOps F} {keras : Keras F}.

Lemma take_indices_picked {A} (a : list A) (idx : list nat) r :
  take_indices a idx = Some r -> picked a idx r.
Proof.
  unfold take_indices. intros Hr. split.
  - symmetry. eapply length_mapM, Hr.
  - apply mapM_Some in Hr. intros j i Hj.
    destruct (Forall2_lookup_l _ _ _ _ _ Hr Hj) as (v & Hv & Hi).
    exists v. split; assumption.
Qed.

Lemma select_columns_restricted (x : list (list F)) ind x25 :
  select_columns x ind = Some x25 -> restricted_to x ind x25.
Proof.
  unfold select_columns. intros Hx%mapM_Some. split.
  - symmetry. eapply Forall2_length, Hx.
  - intros r row Hr.
    destruct (Forall2_lookup_l _ _ _ _ _ Hx Hr) as (row25 & Hrow25 & Ht).
    exists row25. split; [exact Hrow25|]. apply take_indices_picked, Ht.
Qed.

Lemma unfreeze_all_names (m : Model F) :
  map name (layers (unfreeze_all m)) = map name (layers m).
Proof.
  unfold unfreeze_all. cbn [layers].
  induction (layers m) as [|l ls IH]; simpl; [reflexivity|].
  f_equal. exact IH.
Qed.

Lemma fit_keeps_names {laws : KerasLaws F} (m : Model F) x y bs vd ep cbs :
  map name (layers (fitted (keras_fit m x y bs vd ep cbs)))
  = map name (layers m).
Proof.
  pose proof (fit_keeps_config m x y bs vd ep cbs) as Hc.
  apply (f_equal (map (fun c : string * nat * nat * string
                                 * option (Regularizer F)
                                 * option (Regularizer F) * bool =>
                         fst (fst (fst (fst (fst (fst c)))))))) in Hc.
  rewrite !map_map in Hc. exact Hc.
Qed.

(** The pruning stage of [StraightRegression.train]: the model it saves
    and prunes is the one its fit has left, with the layers of [self.m]. *)
Lemma SR_pruned_after_fit (self : StraightRegression.t F) xtr ytr xte yte
    epochs bs patience c i1 i2 verbose gn (w : World F) res self' w' :
  StraightRegression.train self xtr ytr xte yte epochs bs patience
    c i1 i2 verbose true gn w = Ok (res, self', w') ->
  exists new saved ind m3 x25 xt25 cbs',
    log w' = new ++ log w /\
    pruned_from (StraightRegression.l2 self) (StraightRegression.lr self)
      (StraightRegression.act self) (StraightRegression.output_dim self)
      saved ind m3 /\
    select_columns xtr ind = Some x25 /\
    select_columns xte ind = Some xt25 /\
    pruned_after_fit new saved m3
      (EvFit m3 x25 ytr bs (Some (xt25, yte)) (2 * epochs) verbose cbs') /\
    self' = StraightRegression.set_m self
              (fitted (keras_fit m3 x25 ytr bs (Some (xt25, yte))
                         (2 * epochs) cbs')) /\
    (KerasLaws F ->
     map name (layers saved) = map name (layers (StraightRegression.m self))).
Proof.
  intros Hrun. apply SR_train_pruned_run in Hrun. cbv zeta in Hrun.
  destruct Hrun as (saved & tl & vl & ind & m3 & ml & names & x25 & xt25
    & _ & _ & _ & _ & Hpf & Hx & Hxt & saved2 & tl' & vl' & _ & _ & _ & _
    & Hself & Hlog).
  eexists _, _, ind, m3, x25, xt25, _.
  split; [exact Hlog|]. split; [exact Hpf|].
  split; [exact Hx|]. split; [exact Hxt|]. split; [|split].
  - eexists _, ml, [_], [], [_], [], _, _, _, _, _, _, _, _.
    split; [reflexivity|]. split; [reflexivity|].
    split; [constructor|]. split; [repeat constructor|reflexivity].
  - exact Hself.
  - intros laws. apply fit_keeps_names.
Qed.

(** The pruning stage of [FreezeUnfreeze.train]. *)
Lemma FU_pruned_after_fit (self : FreezeUnfreeze.t F) xtr ytr xte yte
    epochs bs patience c i1 i2 verbose gn (w : World F) res self' w' :
  FreezeUnfreeze.train self xtr ytr xte yte epochs bs patience
    c i1 i2 verbose true gn w = Ok (res, self', w') ->
  exists new saved ind m3 x25 xt25 cbs',
    log w' = new ++ log w /\
    pruned_from (FreezeUnfreeze.l2 self) (FreezeUnfreeze.lr self)
      (FreezeUnfreeze.act self) (FreezeUnfreeze.output_dim self)
      saved ind m3 /\
    select_columns xtr ind = Some x25 /\
    select_columns xte ind = Some xt25 /\
    pruned_after_fit new saved m3
      (EvFit m3 x25 ytr bs (Some (xt25, yte)) (2 * epochs) verbose cbs') /\
    self' = FreezeUnfreeze.set_m self
              (fitted (keras_fit m3 x25 ytr bs (Some (xt25, yte))
                         (2 * epochs) cbs')) /\
    (KerasLaws F ->
     map name (layers saved) = map name (layers (FreezeUnfreeze.m self))).
Proof.
  intros Hrun. apply FU_train_pruned_run in Hrun. cbv zeta in Hrun.
  destruct Hrun as (saved & saved2 & tl & vl & tl2 & vl2 & ind & m3 & ml
    & names & x25 & xt25 & _ & _ & _ & _ & _ & _ & _ & Hpf & Hx & Hxt
    & saved3 & tl3 & vl3 & _ & _ & _ & _ & Hself & Hlog).
  eexists _, _, ind, m3, x25, xt25, _.
  split; [exact Hlog|]. split; [exact Hpf|].
  split; [exact Hx|]. split; [exact Hxt|]. split; [|split].
  - eexists _, ml, [_], [], [_; _], [_; _], _, _, _, _, _, _, _, _.
    split; [reflexivity|]. split; [reflexivity|].
    split; [constructor|]. split; [repeat constructor|reflexivity].
  - exact Hself.
  - intros laws. rewrite fit_keeps_names. cbn [layers].
    rewrite unfreeze_all_names. apply fit_keeps_names.
Qed.

(** The pruning stage of [FreezeUnfreeze.train_full_dataset]. *)
Lemma FU_full_pruned_after_fit (self : FreezeUnfreeze.t F) xtr ytr
    epochs bs patience c i1 i2 verbose gn (w : World F) res self' w' :
  FreezeUnfreeze.train_full_dataset self xtr ytr epochs bs patience
    c i1 i2 verbose true gn w = Ok (res, self', w') ->
  exists new saved ind m3 x25,
    log w' = new ++ log w /\
    pruned_from (FreezeUnfreeze.l2 self) (FreezeUnfreeze.lr self)
      (FreezeUnfreeze.act self) (FreezeUnfreeze.output_dim self)
      saved ind m3 /\
    select_columns xtr ind = Some x25 /\
    pruned_after_fit new saved m3
      (EvFit m3 x25 ytr bs None (2 * epochs) verbose []) /\
    self' = FreezeUnfreeze.set_m self
              (fitted (keras_fit m3 x25 ytr bs None (2 * epochs) [])) /\
    (KerasLaws F ->
     map name (layers saved) = map name (layers (FreezeUnfreeze.m self))).
Proof.
  intros Hrun. apply FU_full_pruned_run in Hrun. cbv zeta in Hrun.
  destruct Hrun as (tl & tl2 & ind & m3 & ml & names & x25 & _ & _ & _ & Hpf
    & Hx & tl3 & _ & _ & Hself & Hlog).
  eexists _, _, ind, m3, x25.
  split; [exact Hlog|]. split; [exact Hpf|]. split; [exact Hx|].
  split; [|split].
  - eexists _, ml, [], [_], [], [_; _; _], _, _, _, _, _, _, _, _.
    split; [reflexivity|]. split; [reflexivity|].
    split; [repeat constructor|]. split; [constructor|reflexivity].
  - exact Hself.
  - intros laws. rewrite fit_keeps_names. cbn [layers].
    rewrite unfreeze_all_names. apply fit_keeps_names.
Qed.

(** The rows pruning keeps, with the norm written out. *)
Lemma pruned_from_rows_of_largest_norm {ord : FloatOrder F}
    (l2 lr : PyNum F) act out saved ind m3 :
  pruned_from l2 lr act out saved ind m3 ->
  exists s1 rest,
    layers saved = s1 :: rest /\ 25 <= length (kernel s1) /\
    rows_of_largest_norm (kernel s1) ind.
Proof.
  intros (s1 & rest & Hl & _ & Hn & Htop)%pruned_from_largest.
  exists s1, rest. split; [exact Hl|]. split; [exact Hn|]. exact Htop.
Qed.

End PruningStage.

(** C1.  In every run that prunes ([StraightRegression.train],
    [FreezeUnfreeze.train] and [FreezeUnfreeze.train_full_dataset] with
    [prune=True]) the model that is saved and pruned is the one the last
    fit before has left; the first kernel of that model has at least 25
    rows, the retained features are 25 distinct rows of it of largest L2
    norm (the square root of the sum of the squares of the row), and the
    rebuilt model is fitted on [x_train] and [x_test] restricted to exactly
    those columns: row by row, entry [j] of the restricted matrix is the
    entry of the column [ind_genes[j]]. *)
Theorem prune_retains_top25 {F : Type} {ops : FloatOps F} {keras : Keras F}
    {ord : FloatOrder F} :
  (forall (self : StraightRegression.t F) xtr ytr xte yte epochs bs patience
          c i1 i2 verbose gn (w : World F) res self' w',
     StraightRegression.train self xtr ytr xte yte epochs bs patience
       c i1 i2 verbose true gn w = Ok (res, self', w') ->
     exists new,
       log w' = new ++ log w /\
       retrained_on_largest new xtr ytr (Some (xte, yte)) epochs) /\
  (forall (self : FreezeUnfreeze.t F) xtr ytr xte yte epochs bs patience
          c i1 i2 verbose gn (w : World F) res self' w',
     FreezeUnfreeze.train self xtr ytr xte yte epochs bs patience
       c i1 i2 verbose true gn w = Ok (res, self', w') ->
     exists new,
       log w' = new ++ log w /\
       retrained_on_largest new xtr ytr (Some (xte, yte)) epochs) /\
  (forall (self : FreezeUnfreeze.t F) xtr ytr epochs bs patience
          c i1 i2 verbose gn (w : World F) res self' w',
     FreezeUnfreeze.train_full_dataset self xtr ytr epochs bs patience
       c i1 i2 verbose true gn w = Ok (res, self', w') ->
     exists new,
       log w' = new ++ log w /\
       retrained_on_largest new xtr ytr None epochs).
Proof.
  split; [|split]; intros until w'; intros Hrun.
  - apply SR_pruned_after_fit in Hrun
      as (new & saved & ind & m3 & x25 & xt25 & cbs' & Hlog & Hpf & Hx & Hxt
          & Hstage & _).
    destruct (pruned_from_rows_of_largest_norm _ _ _ _ _ _ _ Hpf)
      as (s1 & rest & Hl & Hn & Htop).
    exists new. split; [exact Hlog|].
    exists saved, s1, rest, ind, m3, x25. do 4 eexists.
    split; [exact Hstage|]. split; [exact Hl|]. split; [exact Hn|].
    split; [exact Htop|].
    split; [apply select_columns_restricted, Hx|].
    exists xt25. split; [apply select_columns_restricted, Hxt|reflexivity].
  - apply FU_pruned_after_fit in Hrun
      as (new & saved & ind & m3 & x25 & xt25 & cbs' & Hlog & Hpf & Hx & Hxt
          & Hstage & _).
    destruct (pruned_from_rows_of_largest_norm _ _ _ _ _ _ _ Hpf)
      as (s1 & rest & Hl & Hn & Htop).
    exists new. split; [exact Hlog|].
    exists saved, s1, rest, ind, m3, x25. do 4 eexists.
    split; [exact Hstage|]. split; [exact Hl|]. split; [exact Hn|].
    split; [exact Htop|].
    split; [apply select_columns_restricted, Hx|].
    exists xt25. split; [apply select_columns_restricted, Hxt|reflexivity].
  - apply FU_full_pruned_after_fit in Hrun
      as (new & saved & ind & m3 & x25 & Hlog & Hpf & Hx & Hstage & _).
    destruct (pruned_from_rows_of_largest_norm _ _ _ _ _ _ _ Hpf)
      as (s1 & rest & Hl & Hn & Htop).
    exists new. split; [exact Hlog|].
    exists saved, s1, rest, ind, m3, x25. do 4 eexists.
    split; [exact Hstage|]. split; [exact Hl|]. split; [exact Hn|].
    split; [exact Htop|].
    split; [apply select_columns_restricted, Hx|reflexivity].
Qed.

Import Demo.

Lemma force_Ok {A B C} (d : A * B * C) (r : Result (A * B * C)) :
  is_Ok r = true ->
  r = Ok (fst (fst (force d r)), snd (fst (force d r)), snd (force d r)).
Proof. destruct r as [[[a b] c]|e]; [reflexivity|discriminate]. Qed.

Lemma force_Ok2 {A B} (d : A * B) (r : Result (A * B)) :
  is_Ok r = true -> r = Ok (fst (force d r), snd (force d r)).
Proof. destruct r as [[a b]|e]; [reflexivity|discriminate]. Qed.

Lemma prune_retains_top25_witness :
  (exists new,
     log (snd (sr_trained true)) = new ++ log (snd sr_new) /\
     retrained_on_largest new demo_x demo_y (Some (demo_x, demo_y)) 3) /\
  (exists new,
     log (snd (fu_trained true)) = new ++ log (snd fu_new) /\
     retrained_on_largest new demo_x demo_y (Some (demo_x, demo_y)) 3) /\
  (exists new,
     log (snd (fu_trained_full true)) = new ++ log (snd fu_new) /\
     retrained_on_largest new demo_x demo_y None 3).
Proof.
  split; [|split].
  - refine (proj1 prune_retains_top25 _ _ _ _ _ _ _ _ _ _ _ _ _ _ _ _ _
              (force_Ok _ (sr_train true) _)).
    vm_compute. reflexivity.
  - refine (proj1 (proj2 prune_retains_top25) _ _ _ _ _ _ _ _ _ _ _ _ _ _ _
              _ _ (force_Ok _ (fu_train true) _)).
    vm_compute. reflexivity.
  - refine (proj2 (proj2 prune_retains_top25) _ _ _ _ _ _ _ _ _ _ _ _ _ _ _
              (force_Ok _ (fu_train_full true) _)).
    vm_compute. reflexivity.
Defined.

(** ** What the rebuilt model holds *)

Section Transplant.
Context {F : Type} {ops : FloatOps F} {keras : Keras F}.

Lemma loaded_weights_by_name (saved : Model F) fresh b :
  load_layer_by_name saved fresh = Some b ->
  name b = name fresh /\
  forall s, get_layer saved (name b) = Some s ->
            kernel b = kernel s /\ bias b = bias s.
Proof.
  intros [Hb Hs]%load_layer_by_name_Some.
  assert (Hn : name b = name fresh) by (rewrite Hb; reflexivity).
  split; [exact Hn|]. intros s Hget. rewrite Hn in Hget.
  rewrite Hget in Hs. exact Hs.
Qed.

(** In a model with the six layer names of a regression model, each of
    the five names after the first is the name of the layer at its
    place. *)
Lemma get_layer_of_six (saved : Model F) s1 s2 s3 s4 s5 s6 n1 :
  layers saved = [s1; s2; s3; s4; s5; s6] ->
  map name (layers saved)
    = [n1; "W2"; "bottleneck"; "W4"; "W5"; "W6_regr"] ->
  n1 = "W1" \/ n1 = "W1_25" ->
  get_layer saved "W2" = Some s2 /\
  get_layer saved "bottleneck" = Some s3 /\
  get_layer saved "W4" = Some s4 /\
  get_layer saved "W5" = Some s5 /\
  get_layer saved "W6_regr" = Some s6.
Proof.
  intros Hl Hn H1. rewrite Hl in Hn. cbn [map] in Hn.
  injection Hn as N1 N2 N3 N4 N5 N6.
  unfold get_layer. rewrite Hl. cbn [List.find].
  rewrite N1, N2, N3, N4, N5, N6.
  destruct H1 as [-> | ->]; repeat split; reflexivity.
Qed.

(** What a successful pruning block has built from a saved model with the
    layer names of a regression model. *)
Lemma pruned_from_holds_weights (l2 lr : PyNum F) act out saved ind m3 :
  pruned_from l2 lr act out saved ind m3 ->
  regression_layer_names saved ->
  length ind = 25 /\ holds_weights_of saved m3 ind.
Proof.
  intros (s1 & rest & rows & b2 & b3 & b4 & b5 & b6 & Hl & Hind & Hrows
          & Hshape & Hm3 & H2 & H3 & H4 & H5 & H6 & _)%pruned_from_layers
         (n1 & Hn1 & Hnames).
  assert (Hrest : exists s2 s3 s4 s5 s6, rest = [s2; s3; s4; s5; s6]).
  { rewrite Hl in Hnames.
    destruct rest as [|s2 [|s3 [|s4 [|s5 [|s6 [|? ?]]]]]]; try discriminate.
    eauto 10. }
  destruct Hrest as (s2 & s3 & s4 & s5 & s6 & ->).
  destruct (get_layer_of_six _ _ _ _ _ _ _ _ Hl Hnames Hn1)
    as (G2 & G3 & G4 & G5 & G6).
  apply loaded_weights_by_name in H2 as [N2 H2], H3 as [N3 H3],
    H4 as [N4 H4], H5 as [N5 H5], H6 as [N6 H6].
  cbn [name new_Dense] in N2, N3, N4, N5, N6.
  rewrite N2 in H2. rewrite N3 in H3. rewrite N4 in H4.
  rewrite N5 in H5. rewrite N6 in H6.
  apply take_indices_picked in Hrows.
  split.
  { destruct Hrows as [Hlen _]. unfold has_shape in Hshape.
    apply andb_prop in Hshape as [H25%Nat.eqb_eq _]. congruence. }
  eexists s1, s2, s3, s4, s5, s6, _, b2, b3, b4, b5, b6.
  split; [exact Hl|]. split; [exact Hm3|].
  split. { cbn [map name with_weights new_Dense]. congruence. }
  split.
  { rewrite Hl in Hnames. cbn [map] in Hnames.
    injection Hnames as _ M2 M3 M4 M5 M6. cbn [map]. congruence. }
  split; [reflexivity|]. split; [exact Hrows|]. split; [reflexivity|].
  repeat constructor; eauto; apply H2 || apply H3 || apply H4 || apply H5
    || apply H6; assumption.
Qed.

End Transplant.

Section LayerNames.
Context {F : Type} {ops : FloatOps F} {keras : Keras F} {laws : KerasLaws F}.

Lemma regression_layer_names_eq (m m' : Model F) :
  map name (layers m') = map name (layers m) ->
  regression_layer_names m -> regression_layer_names m'.
Proof. intros Heq (n1 & H1 & Hn). exists n1. rewrite Heq. auto. Qed.

Lemma initial_layers_names (arch : Model F) ptw h5 (w : World F) ls :
  initial_layers arch ptw h5 w ls ->
  map name ls = map name (layers arch).
Proof.
  unfold initial_layers. destruct ptw.
  - intros (path & file & _ & _ & Hls). apply load_by_name_config in Hls.
    apply (f_equal (map (fun c : string * nat * nat * string
                                   * option (Regularizer F)
                                   * option (Regularizer F) * bool =>
                           fst (fst (fst (fst (fst (fst c)))))))) in Hls.
    rewrite !map_map in Hls. exact Hls.
  - intros ->. reflexivity.
Qed.

(** A model that pruning has rebuilt, once fitted, has the layer names of
    a regression model again. *)
Lemma pruned_fit_names l2 lr act out (saved : Model F) ind m3 x y bs vd ep cbs :
  pruned_from l2 lr act out saved ind m3 ->
  regression_layer_names (fitted (keras_fit m3 x y bs vd ep cbs)).
Proof.
  intros Hc%pruned_from_config. exists "W1_25". split; [right; reflexivity|].
  rewrite fit_keeps_names.
  apply (f_equal (map (fun c : string * nat * nat * string
                                 * option (Regularizer F)
                                 * option (Regularizer F) * bool =>
                         fst (fst (fst (fst (fst (fst c)))))))) in Hc.
  rewrite !map_map in Hc. exact Hc.
Qed.

End LayerNames.

(** C2.  Under the one assumption that [fit] changes nothing of a layer
    but its weights: every regression object has the six layers [W1] (or
    [W1_25], after pruning), [W2], [bottleneck], [W4], [W5], [W6_regr]; the
    constructors build them and the training methods keep them.  On such an
    object the model that pruning rebuilds and hands to the next fit has the
    six layers [W1_25], [W2], [bottleneck], [W4], [W5], [W6_regr]; [W1_25]
    (25 inputs) holds the selected rows [weight[ind_genes, :]] of the first
    kernel of the trained model together with its first bias as it is, and
    each of the other five layers holds the kernel and the bias of the
    layer of that name of the trained model; the rebuilt model has no other
    weights. *)
Theorem prune_transplants_weights {F : Type} {ops : FloatOps F}
    {keras : Keras F} {laws : KerasLaws F} :
  (forall l1 l2 lr act d out ptw h5 (w : World F) self w',
     StraightRegression.__init__ l1 l2 lr act d out ptw h5 w = Ok (self, w') ->
     regression_layer_names (StraightRegression.m self)) /\
  (forall l1 l2 lr act d out unfreeze ptw h5 (w : World F) self w',
     FreezeUnfreeze.__init__ l1 l2 lr act d out unfreeze ptw h5 w
       = Ok (self, w') ->
     regression_layer_names (FreezeUnfreeze.m self)) /\
  (forall (self : StraightRegression.t F) xtr ytr xte yte epochs bs patience
          c i1 i2 verbose prune gn (w : World F) res self' w',
     StraightRegression.train self xtr ytr xte yte epochs bs patience
       c i1 i2 verbose prune gn w = Ok (res, self', w') ->
     regression_layer_names (StraightRegression.m self) ->
     regression_layer_names (StraightRegression.m self')) /\
  (forall (self : FreezeUnfreeze.t F) xtr ytr xte yte epochs bs patience
          c i1 i2 verbose prune gn (w : World F) res self' w',
     FreezeUnfreeze.train self xtr ytr xte yte epochs bs patience
       c i1 i2 verbose prune gn w = Ok (res, self', w') ->
     regression_layer_names (FreezeUnfreeze.m self) ->
     regression_layer_names (FreezeUnfreeze.m self')) /\
  (forall (self : FreezeUnfreeze.t F) xtr ytr epochs bs patience
          c i1 i2 verbose prune gn (w : World F) res self' w',
     FreezeUnfreeze.train_full_dataset self xtr ytr epochs bs patience
       c i1 i2 verbose prune gn w = Ok (res, self', w') ->
     regression_layer_names (FreezeUnfreeze.m self) ->
     regression_layer_names (FreezeUnfreeze.m self')) /\
  (forall (self : StraightRegression.t F) xtr ytr xte yte epochs bs patience
          c i1 i2 verbose gn (w : World F) res self' w',
     StraightRegression.train self xtr ytr xte yte epochs bs patience
       c i1 i2 verbose true gn w = Ok (res, self', w') ->
     regression_layer_names (StraightRegression.m self) ->
     exists new, log w' = new ++ log w /\ rebuilt_with_weights new xtr) /\
  (forall (self : FreezeUnfreeze.t F) xtr ytr xte yte epochs bs patience
          c i1 i2 verbose gn (w : World F) res self' w',
     FreezeUnfreeze.train self xtr ytr xte yte epochs bs patience
       c i1 i2 verbose true gn w = Ok (res, self', w') ->
     regression_layer_names (FreezeUnfreeze.m self) ->
     exists new, log w' = new ++ log w /\ rebuilt_with_weights new xtr) /\
  (forall (self : FreezeUnfreeze.t F) xtr ytr epochs bs patience
          c i1 i2 verbose gn (w : World F) res self' w',
     FreezeUnfreeze.train_full_dataset self xtr ytr epochs bs patience
       c i1 i2 verbose true gn w = Ok (res, self', w') ->
     regression_layer_names (FreezeUnfreeze.m self) ->
     exists new, log w' = new ++ log w /\ rebuilt_with_weights new xtr).
Proof.
  repeat apply conj.
  - intros until w'. intros Hrun. apply SR_init_run in Hrun. cbv zeta in Hrun.
    destruct Hrun as (ls & Hls%initial_layers_names & -> & _).
    exists "W1". split; [left; reflexivity|].
    cbn [StraightRegression.m layers]. rewrite Hls. reflexivity.
  - intros until w'. intros Hrun. apply FU_init_run in Hrun.
    destruct Hrun as (t0 & t1 & t2 & t3 & t4 & t5 & ls & _ & _ & _ & _ & _ & _
                      & Hls%initial_layers_names & -> & _).
    exists "W1". split; [left; reflexivity|].
    cbn [FreezeUnfreeze.m layers]. rewrite Hls. reflexivity.
  - intros until w'. intros Hrun Hnames. destruct prune.
    + apply SR_pruned_after_fit in Hrun
        as (new & saved & ind & m3 & x25 & xt25 & cbs' & _ & Hpf & _ & _ & _
            & -> & _).
      cbn [StraightRegression.m StraightRegression.set_m].
      eapply pruned_fit_names, Hpf.
    + apply SR_train_plain_run in Hrun. cbv zeta in Hrun.
      destruct Hrun as (saved & tl & vl & _ & _ & _ & _ & -> & _).
      cbn [StraightRegression.m StraightRegression.set_m].
      eapply regression_layer_names_eq; [|exact Hnames].
      apply fit_keeps_names.
  - intros until w'. intros Hrun Hnames. destruct prune.
    + apply FU_pruned_after_fit in Hrun
        as (new & saved & ind & m3 & x25 & xt25 & cbs' & _ & Hpf & _ & _ & _
            & -> & _).
      cbn [FreezeUnfreeze.m FreezeUnfreeze.set_m].
      eapply pruned_fit_names, Hpf.
    + apply FU_train_plain_run in Hrun. cbv zeta in Hrun.
      destruct Hrun as (saved & saved2 & tl & vl & tl2 & vl2 & _ & _ & _ & _
        & _ & _ & _ & -> & _).
      cbn [FreezeUnfreeze.m FreezeUnfreeze.set_m].
      eapply regression_layer_names_eq; [|exact Hnames].
      rewrite fit_keeps_names. cbn [layers].
      rewrite unfreeze_all_names. apply fit_keeps_names.
  - intros until w'. intros Hrun Hnames. destruct prune.
    + apply FU_full_pruned_after_fit in Hrun
        as (new & saved & ind & m3 & x25 & _ & Hpf & _ & _ & -> & _).
      cbn [FreezeUnfreeze.m FreezeUnfreeze.set_m].
      eapply pruned_fit_names, Hpf.
    + apply FU_full_plain_run in Hrun. cbv zeta in Hrun.
      destruct Hrun as (tl & tl2 & _ & _ & _ & -> & _).
      cbn [FreezeUnfreeze.m FreezeUnfreeze.set_m].
      eapply regression_layer_names_eq; [|exact Hnames].
      rewrite fit_keeps_names. cbn [layers].
      rewrite unfreeze_all_names. apply fit_keeps_names.
  - intros until w'. intros Hrun Hnames.
    apply SR_pruned_after_fit in Hrun
      as (new & saved & ind & m3 & x25 & xt25 & cbs' & Hlog & Hpf & Hx & _
          & Hstage & _ & Hsaved).
    destruct (pruned_from_holds_weights _ _ _ _ _ _ _ Hpf) as [H25 Hw].
    { eapply regression_layer_names_eq; [apply Hsaved, laws|exact Hnames]. }
    exists new. split; [exact Hlog|].
    exists saved, ind, m3, x25. do 6 eexists.
    split; [exact Hstage|]. split; [exact H25|].
    split; [apply select_columns_restricted, Hx|exact Hw].
  - intros until w'. intros Hrun Hnames.
    apply FU_pruned_after_fit in Hrun
      as (new & saved & ind & m3 & x25 & xt25 & cbs' & Hlog & Hpf & Hx & _
          & Hstage & _ & Hsaved).
    destruct (pruned_from_holds_weights _ _ _ _ _ _ _ Hpf) as [H25 Hw].
    { eapply regression_layer_names_eq; [apply Hsaved, laws|exact Hnames]. }
    exists new. split; [exact Hlog|].
    exists saved, ind, m3, x25. do 6 eexists.
    split; [exact Hstage|]. split; [exact H25|].
    split; [apply select_columns_restricted, Hx|exact Hw].
  - intros until w'. intros Hrun Hnames.
    apply FU_full_pruned_after_fit in Hrun
      as (new & saved & ind & m3 & x25 & Hlog & Hpf & Hx & Hstage & _
          & Hsaved).
    destruct (pruned_from_holds_weights _ _ _ _ _ _ _ Hpf) as [H25 Hw].
    { eapply regression_layer_names_eq; [apply Hsaved, laws|exact Hnames]. }
    exists new. split; [exact Hlog|].
    exists saved, ind, m3, x25. do 6 eexists.
    split; [exact Hstage|]. split; [exact H25|].
    split; [apply select_columns_restricted, Hx|exact Hw].
Qed.

(** The demonstration Keras changes nothing of a layer but its bias. *)
#[export] Instance demo_KerasLaws : KerasLaws Z.
Proof.
  split. intros m x y bs vd epochs cbs. cbn [keras_fit demo_keras fitted].
  unfold bump. cbn [layers].
  induction (layers m) as [|l ls IH]; [reflexivity|].
  cbn [map]. f_equal. exact IH.
Qed.

Lemma prune_transplants_weights_witness :
  (exists new,
     log (snd (sr_trained true)) = new ++ log (snd sr_new) /\
     rebuilt_with_weights new demo_x) /\
  (exists new,
     log (snd (fu_trained true)) = new ++ log (snd fu_new) /\
     rebuilt_with_weights new demo_x) /\
  (exists new,
     log (snd (fu_trained_full true)) = new ++ log (snd fu_new) /\
     rebuilt_with_weights new demo_x).
Proof.
  destruct (@prune_transplants_weights Z _ _ _)
    as (I1 & I2 & _ & _ & _ & H1 & H2 & H3).
  split; [|split].
  - refine (H1 _ _ _ _ _ _ _ _ _ _ _ _ _ _ _ _ _
              (force_Ok _ (sr_train true) _)
              (I1 _ _ _ _ _ _ _ _ _ _ _ (force_Ok2 _ sr_init _)));
      vm_compute; reflexivity.
  - refine (H2 _ _ _ _ _ _ _ _ _ _ _ _ _ _ _ _ _
              (force_Ok _ (fu_train true) _)
              (I2 _ _ _ _ _ _ _ _ _ _ _ _ (force_Ok2 _ fu_init _)));
      vm_compute; reflexivity.
  - refine (H3 _ _ _ _ _ _ _ _ _ _ _ _ _ _ _
              (force_Ok _ (fu_train_full true) _)
              (I2 _ _ _ _ _ _ _ _ _ _ _ _ (force_Ok2 _ fu_init _)));
      vm_compute; reflexivity.
Defined.

(** ** Pre-trained weights *)

Section PreTrained.
Context {F : Type} {ops : FloatOps F} {keras : Keras F}.

Lemma initial_layers_loaded (l1 l2 : PyNum F) act d out t0 t1 t2 t3 t4 t5
    h5 (w : World F) ls c :
  initial_layers (regression_architecture l1 l2 act d out t0 t1 t2 t3 t4 t5)
                 true h5 w ls ->
  exists path file,
    h5 = Some path /\ files w !! path = Some file /\
    loaded_from_pretraining file (mkModel ls c)
      (new_Dense "W6_regr" out 512 "linear" (reg_l2 l2) None t5).
Proof.
  intros (path & file & -> & Hfile & Hls). exists path, file.
  split; [reflexivity|]. split; [exact Hfile|].
  rewrite regression_architecture_layers in Hls.
  apply load_by_name_six in Hls
    as (b1 & b2 & b3 & b4 & b5 & b6 & -> & H1 & H2 & H3 & H4 & H5 & H6).
  apply load_layer_by_name_Some in H6 as [N6 H6].
  apply loaded_weights_by_name in H1 as [N1 H1], H2 as [N2 H2],
    H3 as [N3 H3], H4 as [N4 H4], H5 as [N5 H5].
  exists b1, b2, b3, b4, b5, b6. split; [reflexivity|].
  split.
  { simpl. rewrite N1, N2, N3, N4, N5, N6. reflexivity. }
  split.
  { do 5 (constructor; [assumption|]). constructor. }
  intros Hnone. cbn [name new_Dense] in H6. rewrite Hnone in H6. exact H6.
Qed.

(** A file whose layers have the names of the classification architecture
    has the five layers the regression architecture shares with it, and no
    layer named [W6_regr]. *)
Lemma classification_names_match (l1 l2 : PyNum F) act d out (file : Model F) :
  map name (layers file)
    = map name (layers (classification_architecture l1 l2 act d out)) ->
  get_layer file "W6_regr" = None /\
  Forall (fun n => is_Some (get_layer file n))
         ["W1"; "W2"; "bottleneck"; "W4"; "W5"].
Proof.
  rewrite classification_architecture_layers. cbn [map name new_Dense].
  unfold get_layer.
  destruct (layers file) as [|s1 [|s2 [|s3 [|s4 [|s5 [|s6 [|? ?]]]]]]];
    try discriminate.
  intros [= N1 N2 N3 N4 N5 N6]. cbn [find].
  rewrite N1, N2, N3, N4, N5, N6. cbn.
  split; [reflexivity|]. repeat constructor; eexists; reflexivity.
Qed.

End PreTrained.

(** C3.  With [pre_trained_weights=True] the constructors of
    [StraightRegression] and [FreezeUnfreeze] load the weights of the given
    file by layer name and compile afterwards: every layer among [W1],
    [W2], [bottleneck], [W4], [W5] holds the kernel and the bias of the
    layer of the file that has its name, and [W6_regr] is still the freshly
    initialised layer when the file has no layer of that name.  A file with
    the layer names of the classification architecture has those five
    layers and, its output layer being [W6_class], none named [W6_regr]. *)
Theorem pretrained_weights_by_name {F : Type} {ops : FloatOps F}
    {keras : Keras F} :
  (forall l1 l2 lr act d out h5 (w : World F) self w',
     StraightRegression.__init__ l1 l2 lr act d out true h5 w
       = Ok (self, w') ->
     exists path file ml,
       h5 = Some path /\ files w !! path = Some file /\
       loaded_from_pretraining file (StraightRegression.m self)
         (new_Dense "W6_regr" out 512 "linear" (reg_l2 l2) None true) /\
       log w' = [EvCompile (StraightRegression.m self);
                 EvLoadWeights path ml] ++ log w) /\
  (forall l1 l2 lr act d out unfreeze h5 (w : World F) self w',
     FreezeUnfreeze.__init__ l1 l2 lr act d out unfreeze true h5 w
       = Ok (self, w') ->
     exists path file ml t5,
       h5 = Some path /\ files w !! path = Some file /\
       unfreeze !! 5 = Some t5 /\
       loaded_from_pretraining file (FreezeUnfreeze.m self)
         (new_Dense "W6_regr" out 512 "linear" (reg_l2 l2) None t5) /\
       log w' = [EvCompile (FreezeUnfreeze.m self);
                 EvLoadWeights path ml] ++ log w) /\
  (forall (l1 l2 : PyNum F) act d out (file : Model F),
     map name (layers file)
       = map name (layers (classification_architecture l1 l2 act d out)) ->
     get_layer file "W6_regr" = None /\
     Forall (fun n => is_Some (get_layer file n))
            ["W1"; "W2"; "bottleneck"; "W4"; "W5"]).
Proof.
  split; [|split].
  - intros l1 l2 lr act d out h5 w self w' Hrun.
    apply SR_init_run in Hrun as (ls & Hls & -> & _ & m1 & _ & Hlog).
    eapply initial_layers_loaded in Hls as (path & file & -> & Hfile & Hl).
    exists path, file, m1. repeat split; eauto.
  - intros l1 l2 lr act d out unfreeze h5 w self w' Hrun.
    apply FU_init_run in Hrun
      as (t0 & t1 & t2 & t3 & t4 & t5 & ls & _ & _ & _ & _ & _ & H5 & Hls
          & -> & _ & m1 & _ & Hlog).
    eapply initial_layers_loaded in Hls as (path & file & -> & Hfile & Hl).
    exists path, file, m1, t5. repeat split; eauto.
  - intros. eapply classification_names_match; eassumption.
Qed.

Lemma pretrained_weights_by_name_witness :
  (exists path file ml,
     Some (ClassificationPreTrain.weights_file 0 0 0) = Some path /\
     files pretrained_world !! path = Some file /\
     loaded_from_pretraining file (StraightRegression.m (fst sr_pretrained))
       (new_Dense "W6_regr" 1 512 "linear" (reg_l2 (PyFloat 2%Z)) None true)
     /\ log (snd sr_pretrained)
        = [EvCompile (StraightRegression.m (fst sr_pretrained));
           EvLoadWeights path ml] ++ log pretrained_world) /\
  (exists path file ml t5,
     Some (ClassificationPreTrain.weights_file 0 0 0) = Some path /\
     files pretrained_world !! path = Some file /\
     [false; false; false; true; true; true] !! 5 = Some t5 /\
     loaded_from_pretraining file (FreezeUnfreeze.m (fst fu_pretrained))
       (new_Dense "W6_regr" 1 512 "linear" (reg_l2 (PyFloat 2%Z)) None t5)
     /\ log (snd fu_pretrained)
        = [EvCompile (FreezeUnfreeze.m (fst fu_pretrained));
           EvLoadWeights path ml] ++ log pretrained_world).
Proof.
  split.
  - refine (proj1 pretrained_weights_by_name _ _ _ _ _ _ _ _ _ _
              (force_Ok2 _ sr_pretrained_init _)).
    vm_compute. reflexivity.
  - refine (proj1 (proj2 pretrained_weights_by_name) _ _ _ _ _ _ _ _ _ _ _
              (force_Ok2 _ fu_pretrained_init _)).
    vm_compute. reflexivity.
Defined.

(** ** Checkpoints and the reported metrics *)

Section Checkpoints.
Context {F : Type} {ops : FloatOps F} {keras : Keras F}.

Lemma reloaded_checkpoint_intro monitor (after between before : list (Event F))
    m x y bs vd epochs verbose es path vb saved :
  (forall mb,
     checkpointed (keras_fit m x y bs vd epochs
                     [es; ModelCheckpoint path monitor "min" vb true])
       = Some mb -> saved = mb) ->
  reloaded_checkpoint monitor
    (after ++ [EvLoadModel path saved] ++ between
       ++ [EvFit m x y bs vd epochs verbose
             [es; ModelCheckpoint path monitor "min" vb true]] ++ before)
    saved.
Proof.
  intros Hs. exists after, between, before, m, x, y, bs, vd, epochs, verbose,
    es, path, vb. split; [reflexivity|exact Hs].
Qed.

End Checkpoints.

Ltac reloaded after between before :=
  refine (reloaded_checkpoint_intro _ after between before
            _ _ _ _ _ _ _ _ _ _ _ _);
  assumption.

Ltac fits_checkpointed :=
  repeat (constructor; [first [exact I | do 3 eexists; reflexivity]|]);
  constructor.



(** In the run on the small Keras the model in memory after the fit is not
    the model the checkpoint saved, and the R^2 that [train] returns is the
    one of the saved model, which is another number than the R^2 of the
    model in memory. *)
Example demo_metric_is_not_of_final_model :
  let saved := StraightRegression.m (fst sr_new) in
  let final := StraightRegression.m (snd (fst (sr_trained false))) in
  StraightRegression.r2_values (fst (fst (sr_trained false)))
    = [np_r2 demo_y (predict saved demo_x);
       np_r2 demo_y (predict saved demo_x)] /\
  np_r2 demo_y (predict final demo_x) <> np_r2 demo_y (predict saved demo_x).
Proof. vm_compute. split; [reflexivity|discriminate]. Qed.

(** ** Freezing and unfreezing *)

Section Freezing.
Context {F : Type} {ops : FloatOps F} {keras : Keras F}.

Lemma initial_layers_config (arch : Model F) ptw h5 (w : World F) ls :
  initial_layers arch ptw h5 w ls ->
  map Dense_config ls = map Dense_config (layers arch).
Proof.
  unfold initial_layers. destruct ptw.
  - intros (path & file & _ & _ & Hls). eapply load_by_name_config, Hls.
  - intros ->. reflexivity.
Qed.

Lemma unfreeze_all_trainable (m : Model F) :
  Forall (fun l => trainable l = true) (layers (unfreeze_all m)).
Proof.
  unfold unfreeze_all. cbn [layers]. apply Forall_map, Forall_true.
  intros l. reflexivity.
Qed.

(** The model a constructed [FreezeUnfreeze] object holds: the six layers,
    layer [i] trainable exactly when [unfreeze[i]]. *)
Lemma FU_init_trainable l1 l2 lr act d out unfreeze ptw h5 (w : World F)
    self w' :
  FreezeUnfreeze.__init__ l1 l2 lr act d out unfreeze ptw h5 w
    = Ok (self, w') ->
  FreezeUnfreeze.lr self = lr /\
  map name (layers (FreezeUnfreeze.m self))
    = ["W1"; "W2"; "bottleneck"; "W4"; "W5"; "W6_regr"] /\
  (forall i, i < 6 ->
     trainable <$> (layers (FreezeUnfreeze.m self) !! i) = unfreeze !! i).
Proof.
  intros Hrun. apply FU_init_run in Hrun
    as (t0 & t1 & t2 & t3 & t4 & t5 & ls & H0 & H1 & H2 & H3 & H4 & H5 & Hls
        & -> & _).
  apply initial_layers_config in Hls.
  rewrite regression_architecture_layers in Hls.
  cbn [FreezeUnfreeze.lr FreezeUnfreeze.m layers].
  destruct ls as [|b1 [|b2 [|b3 [|b4 [|b5 [|b6 [|? ?]]]]]]];
    try discriminate.
  cbn [map] in Hls. unfold Dense_config, new_Dense in Hls.
  cbn [name units input_dim activation kernel_regularizer bias_regularizer
       trainable] in Hls.
  injection Hls as N1 _ _ _ _ _ T1 N2 _ _ _ _ _ T2 N3 _ _ _ _ _ T3
    N4 _ _ _ _ _ T4 N5 _ _ _ _ _ T5 N6 _ _ _ _ _ T6.
  split; [reflexivity|]. split.
  - cbn. congruence.
  - intros i Hi.
    destruct i as [|[|[|[|[|[|i]]]]]]; cbn; try congruence. lia.
Qed.

Lemma unfreeze_all_but_trainable (m : Model F) :
  map but_trainable (layers (unfreeze_all m)) = map but_trainable (layers m).
Proof.
  unfold unfreeze_all. cbn [layers].
  induction (layers m) as [|l ls IH]; simpl; [reflexivity|].
  f_equal. exact IH.
Qed.

Lemma two_phases_intro (first : Model F -> Prop) lr
    (after between : list (Event F)) m1 x y bs vd epochs verbose cbs1 cbs2 :
  Forall (fun e => is_fit e = false) between ->
  first m1 ->
  let m2 := mkModel
              (layers (unfreeze_all
                         (fitted (keras_fit m1 x y bs vd epochs cbs1))))
              (Some (mkCompiled "mean_squared_error" (py_half lr)
                                ["r2_score"; "mse"])) in
  two_phases first lr
    (after ++ [EvFit m2 x y bs vd epochs verbose cbs2] ++ between
       ++ [EvCompile m2; EvFit m1 x y bs vd epochs verbose cbs1]).
Proof.
  intros Hb Hfirst m2.
  exists after, between, m1, x, y, bs, vd, epochs, verbose, cbs1, m2, cbs2.
  split; [reflexivity|]. split; [exact Hb|]. split; [exact Hfirst|].
  split; [apply unfreeze_all_but_trainable|].
  split; [apply unfreeze_all_trainable|reflexivity].
Qed.

(** Every call of [train] runs the two phases, starting from the model the
    object holds. *)
Lemma FU_train_two_phases (first : Model F -> Prop)
    (self : FreezeUnfreeze.t F) xtr ytr xte yte epochs bs patience
    c i1 i2 verbose prune gn (w : World F) res self' w' :
  FreezeUnfreeze.train self xtr ytr xte yte epochs bs patience
    c i1 i2 verbose prune gn w = Ok (res, self', w') ->
  first (FreezeUnfreeze.m self) ->
  exists new, log w' = new ++ log w /\
              two_phases first (FreezeUnfreeze.lr self) new.
Proof.
  intros Hrun Hfirst. destruct prune.
  - apply FU_train_pruned_run in Hrun. cbv zeta in Hrun.
    destruct Hrun as (saved & saved2 & tl & vl & tl2 & vl2 & ind & m3 & ml
      & names & x25 & xt25 & _ & _ & _ & _ & _ & _ & _ & _ & _ & _
      & saved3 & tl3 & vl3 & _ & _ & _ & _ & _ & Hlog).
    eexists. split; [exact Hlog|].
    refine (two_phases_intro _ _ [_; _; _; _; _; _; _; _] []
              _ _ _ _ _ _ _ _ _ _ Hfirst). constructor.
  - apply FU_train_plain_run in Hrun. cbv zeta in Hrun.
    destruct Hrun as (saved & saved2 & tl & vl & tl2 & vl2 & _ & _ & _ & _
      & _ & _ & _ & _ & Hlog).
    eexists. split; [exact Hlog|].
    refine (two_phases_intro _ _ [_; _; _] []
              _ _ _ _ _ _ _ _ _ _ Hfirst). constructor.
Qed.

Lemma FU_full_two_phases (first : Model F -> Prop)
    (self : FreezeUnfreeze.t F) xtr ytr epochs bs patience
    c i1 i2 verbose prune gn (w : World F) res self' w' :
  FreezeUnfreeze.train_full_dataset self xtr ytr epochs bs patience
    c i1 i2 verbose prune gn w = Ok (res, self', w') ->
  first (FreezeUnfreeze.m self) ->
  exists new, log w' = new ++ log w /\
              two_phases first (FreezeUnfreeze.lr self) new.
Proof.
  intros Hrun Hfirst. destruct prune.
  - apply FU_full_pruned_run in Hrun. cbv zeta in Hrun.
    destruct Hrun as (tl & tl2 & ind & m3 & ml & names & x25 & _ & _ & _ & _
      & _ & tl3 & _ & _ & _ & Hlog).
    eexists. split; [exact Hlog|].
    refine (two_phases_intro _ _ [_; _; _; _; _; _] [_]
              _ _ _ _ _ _ _ _ _ _ Hfirst). repeat constructor.
  - apply FU_full_plain_run in Hrun. cbv zeta in Hrun.
    destruct Hrun as (tl & tl2 & _ & _ & _ & _ & Hlog).
    eexists. split; [exact Hlog|].
    refine (two_phases_intro _ _ [_] [_]
              _ _ _ _ _ _ _ _ _ _ Hfirst). repeat constructor.
Qed.

(** The first fit of a call of [train] without pruning is on the model the
    object holds: whatever holds of the model of the first phase holds of
    that model. *)
Lemma FU_train_first_model (first : Model F -> Prop)
    (self : FreezeUnfreeze.t F) xtr ytr xte yte epochs bs patience
    c i1 i2 verbose gn (w : World F) res self' w' lr new :
  FreezeUnfreeze.train self xtr ytr xte yte epochs bs patience
    c i1 i2 verbose false gn w = Ok (res, self', w') ->
  log w' = new ++ log w ->
  two_phases first lr new ->
  first (FreezeUnfreeze.m self).
Proof.
  intros Hrun Hnew HP.
  apply FU_train_plain_run in Hrun. cbv zeta in Hrun.
  destruct Hrun as (saved & saved2 & tl & vl & tl2 & vl2 & _ & _ & _ & _
    & _ & _ & _ & _ & Hlog).
  rewrite Hlog in Hnew. apply app_inv_tail in Hnew. subst new.
  destruct HP as (after & between & m1 & x & y & bs' & vd & epochs' & verbose'
    & cbs1 & m2 & cbs2 & Hdec & _ & Hfirst & _).
  apply (f_equal last) in Hdec.
  rewrite !last_app in Hdec. cbn [last] in Hdec.
  injection Hdec as Hm1 _. rewrite Hm1. exact Hfirst.
Qed.

End Freezing.




(** C6.  The epochs and the early-stopping patience of the fits of one
    call, in order.  [StraightRegression.train]: one fit of [epochs] with
    [patience] without pruning; with pruning a fit of [2*epochs] and the
    fit of the pruned model, again of [2*epochs], both with [2*patience].
    [FreezeUnfreeze.train]: two fits of [epochs] with [patience], and with
    pruning a third fit, of the pruned model, of [2*epochs] with
    [2*patience]. *)
Theorem training_schedule {F : Type} {ops : FloatOps F} {keras : Keras F} :
  (forall (self : StraightRegression.t F) xtr ytr xte yte epochs bs patience
          c i1 i2 verbose (prune : bool) gn (w : World F) res self' w',
     StraightRegression.train self xtr ytr xte yte epochs bs patience
       c i1 i2 verbose prune gn w = Ok (res, self', w') ->
     exists new,
       log w' = new ++ log w /\
       fit_schedule new =
         if prune
         then [(2 * epochs, [2 * patience]); (2 * epochs, [2 * patience])]%Z
         else [(epochs, [patience])]) /\
  (forall (self : FreezeUnfreeze.t F) xtr ytr xte yte epochs bs patience
          c i1 i2 verbose (prune : bool) gn (w : World F) res self' w',
     FreezeUnfreeze.train self xtr ytr xte yte epochs bs patience
       c i1 i2 verbose prune gn w = Ok (res, self', w') ->
     exists new,
       log w' = new ++ log w /\
       fit_schedule new =
         [(epochs, [patience]); (epochs, [patience])]
         ++ if prune then [(2 * epochs, [2 * patience])%Z] else []).
Proof.
  split; intros until w'; intros Hrun; destruct prune.
  - apply SR_train_pruned_run in Hrun. cbv zeta in Hrun.
    destruct Hrun as (saved & tl & vl & ind & m3 & ml & names & x25 & xt25
      & _ & _ & _ & _ & _ & _ & _ & saved2 & tl' & vl' & _ & _ & _ & _ & _
      & Hlog).
    eexists. split; [exact Hlog|]. reflexivity.
  - apply SR_train_plain_run in Hrun. cbv zeta in Hrun.
    destruct Hrun as (saved & tl & vl & _ & _ & _ & _ & _ & Hlog).
    eexists. split; [exact Hlog|]. reflexivity.
  - apply FU_train_pruned_run in Hrun. cbv zeta in Hrun.
    destruct Hrun as (saved & saved2 & tl & vl & tl2 & vl2 & ind & m3 & ml
      & names & x25 & xt25 & _ & _ & _ & _ & _ & _ & _ & _ & _ & _
      & saved3 & tl3 & vl3 & _ & _ & _ & _ & _ & Hlog).
    eexists. split; [exact Hlog|]. reflexivity.
  - apply FU_train_plain_run in Hrun. cbv zeta in Hrun.
    destruct Hrun as (saved & saved2 & tl & vl & tl2 & vl2 & _ & _ & _ & _
      & _ & _ & _ & _ & Hlog).
    eexists. split; [exact Hlog|]. reflexivity.
Qed.

Lemma training_schedule_witness :
  (exists new,
     log (snd (sr_trained true)) = new ++ log (snd sr_new) /\
     fit_schedule new = [(2 * 3, [2 * 5]); (2 * 3, [2 * 5])]%Z) /\
  (exists new,
     log (snd (sr_trained false)) = new ++ log (snd sr_new) /\
     fit_schedule new = [(3, [5])]%Z) /\
  (exists new,
     log (snd (fu_trained true)) = new ++ log (snd fu_new) /\
     fit_schedule new
       = [(3, [5]); (3, [5])]%Z ++ [(2 * 3, [2 * 5])%Z]) /\
  (exists new,
     log (snd (fu_trained false)) = new ++ log (snd fu_new) /\
     fit_schedule new = [(3, [5]); (3, [5])]%Z ++ []).
Proof.
  repeat split.
  - refine (proj1 training_schedule _ _ _ _ _ _ _ _ _ _ _ _ true _ _ _ _ _
              (force_Ok _ (sr_train true) _)).
    vm_compute. reflexivity.
  - refine (proj1 training_schedule _ _ _ _ _ _ _ _ _ _ _ _ false _ _ _ _ _
              (force_Ok _ (sr_train false) _)).
    vm_compute. reflexivity.
  - refine (proj2 training_schedule _ _ _ _ _ _ _ _ _ _ _ _ true _ _ _ _ _
              (force_Ok _ (fu_train true) _)).
    vm_compute. reflexivity.
  - refine (proj2 training_schedule _ _ _ _ _ _ _ _ _ _ _ _ false _ _ _ _ _
              (force_Ok _ (fu_train false) _)).
    vm_compute. reflexivity.
Defined.

(** ** The bottleneck *)

Section Bottleneck.
Context {F : Type} {ops : FloatOps F} {keras : Keras F}.

Lemma skeleton_of_config (ls ls' : list (Dense F)) :
  map Dense_config ls = map Dense_config ls' ->
  map skeleton ls = map skeleton ls'.
Proof.
  revert ls'. induction ls as [|l ls IH]; intros [|l' ls']; try discriminate.
  - reflexivity.
  - cbn [map]. intros [= Hn Hu Hd Ha _ _ _ Hrest].
    unfold skeleton at 1 3. rewrite Hn, Hu, Hd, Ha. f_equal. apply IH, Hrest.
Qed.

Lemma pruned_from_bottleneck (l2 lr : PyNum F) act out saved ind m3 :
  pruned_from l2 lr act out saved ind m3 -> has_bottleneck m3.
Proof.
  intros Hc%pruned_from_config%skeleton_of_config.
  rewrite pruned_architecture_layers in Hc.
  exists "W1_25", 25, act, "W6_regr", out, "linear". exact Hc.
Qed.

Lemma initial_layers_bottleneck (l1 l2 : PyNum F) act d out t0 t1 t2 t3 t4 t5
    ptw h5 (w : World F) ls c :
  initial_layers (regression_architecture l1 l2 act d out t0 t1 t2 t3 t4 t5)
                 ptw h5 w ls ->
  has_bottleneck (mkModel ls c).
Proof.
  intros Hc%initial_layers_config%skeleton_of_config.
  rewrite regression_architecture_layers in Hc.
  exists "W1", d, act, "W6_regr", out, "linear". exact Hc.
Qed.

End Bottleneck.

(** C7.  Every model the program constructs has the [Dense] layer named
    [bottleneck], with 2 units and linear activation, between the encoder
    layers of 512 and 128 units and the decoder layers of 128 and 512
    units (so the decoder reads a 2-dimensional input): the models of the
    constructors of [ClassificationPreTrain], [StraightRegression] and
    [FreezeUnfreeze], and the model every pruning stage rebuilds. *)
Theorem bottleneck_everywhere {F : Type} {ops : FloatOps F}
    {keras : Keras F} :
  (forall l1 l2 lr act d out (w : World F) self w',
     ClassificationPreTrain.__init__ l1 l2 lr act d out w = Ok (self, w') ->
     has_bottleneck (ClassificationPreTrain.m self)) /\
  (forall l1 l2 lr act d out ptw h5 (w : World F) self w',
     StraightRegression.__init__ l1 l2 lr act d out ptw h5 w
       = Ok (self, w') ->
     has_bottleneck (StraightRegression.m self)) /\
  (forall l1 l2 lr act d out unfreeze ptw h5 (w : World F) self w',
     FreezeUnfreeze.__init__ l1 l2 lr act d out unfreeze ptw h5 w
       = Ok (self, w') ->
     has_bottleneck (FreezeUnfreeze.m self)) /\
  (forall (self : StraightRegression.t F) xtr ytr xte yte epochs bs patience
          c i1 i2 verbose gn (w : World F) res self' w',
     StraightRegression.train self xtr ytr xte yte epochs bs patience
       c i1 i2 verbose true gn w = Ok (res, self', w') ->
     rebuilt_with_bottleneck (log w')
       (StraightRegression.last_weights_file c i1 i2)) /\
  (forall (self : FreezeUnfreeze.t F) xtr ytr xte yte epochs bs patience
          c i1 i2 verbose gn (w : World F) res self' w',
     FreezeUnfreeze.train self xtr ytr xte yte epochs bs patience
       c i1 i2 verbose true gn w = Ok (res, self', w') ->
     rebuilt_with_bottleneck (log w')
       (FreezeUnfreeze.last_weights_file c i1 i2)) /\
  (forall (self : FreezeUnfreeze.t F) xtr ytr epochs bs patience
          c i1 i2 verbose gn (w : World F) res self' w',
     FreezeUnfreeze.train_full_dataset self xtr ytr epochs bs patience
       c i1 i2 verbose true gn w = Ok (res, self', w') ->
     rebuilt_with_bottleneck (log w')
       (FreezeUnfreeze.after_unfreezing_full_dataset_file c i1 i2)).
Proof.
  repeat split.
  - intros l1 l2 lr act d out w self w' Hrun.
    rewrite CP_init_run in Hrun. injection Hrun as <- _.
    exists "W1", d, act, "W6_class", out, "softmax". reflexivity.
  - intros l1 l2 lr act d out ptw h5 w self w' Hrun.
    apply SR_init_run in Hrun as (ls & Hls & -> & _).
    eapply initial_layers_bottleneck, Hls.
  - intros l1 l2 lr act d out unfreeze ptw h5 w self w' Hrun.
    apply FU_init_run in Hrun
      as (t0 & t1 & t2 & t3 & t4 & t5 & ls & _ & _ & _ & _ & _ & _ & Hls
          & -> & _).
    eapply initial_layers_bottleneck, Hls.
  - intros. destruct (SR_prune_stage _ _ _ _ _ _ _ _ _ _ _ _ _ _ _ _ _ H)
      as (saved & ind & m3 & x25 & xt25 & Hpf & _ & _ & Hstage).
    eexists saved, m3, _. split; [exact Hstage|].
    eapply pruned_from_bottleneck, Hpf.
  - intros. destruct (FU_prune_stage _ _ _ _ _ _ _ _ _ _ _ _ _ _ _ _ _ H)
      as (saved & ind & m3 & x25 & xt25 & Hpf & _ & _ & Hstage).
    eexists saved, m3, _. split; [exact Hstage|].
    eapply pruned_from_bottleneck, Hpf.
  - intros. destruct (FU_full_prune_stage _ _ _ _ _ _ _ _ _ _ _ _ _ _ _ H)
      as (saved & ind & m3 & x25 & Hpf & _ & Hstage).
    eexists saved, m3, _. split; [exact Hstage|].
    eapply pruned_from_bottleneck, Hpf.
Qed.

Lemma bottleneck_everywhere_witness :
  has_bottleneck (ClassificationPreTrain.m (fst cp_new)) /\
  has_bottleneck (StraightRegression.m (fst sr_pretrained)) /\
  has_bottleneck (FreezeUnfreeze.m (fst fu_new)) /\
  rebuilt_with_bottleneck (log (snd (sr_trained true)))
    (StraightRegression.last_weights_file 0 0 0) /\
  rebuilt_with_bottleneck (log (snd (fu_trained true)))
    (FreezeUnfreeze.last_weights_file 0 0 0) /\
  rebuilt_with_bottleneck (log (snd (fu_trained_full true)))
    (FreezeUnfreeze.after_unfreezing_full_dataset_file 0 0 0).
Proof.
  destruct (@bottleneck_everywhere Z _ _) as (H1 & H2 & H3 & H4 & H5 & H6).
  repeat split.
  - refine (H1 _ _ _ _ _ _ _ _ _ (force_Ok2 _ cp_init _)).
    vm_compute. reflexivity.
  - refine (H2 _ _ _ _ _ _ _ _ _ _ _ (force_Ok2 _ sr_pretrained_init _)).
    vm_compute. reflexivity.
  - refine (H3 _ _ _ _ _ _ _ _ _ _ _ _ (force_Ok2 _ fu_init _)).
    vm_compute. reflexivity.
  - refine (H4 _ _ _ _ _ _ _ _ _ _ _ _ _ _ _ _ _
              (force_Ok _ (sr_train true) _)).
    vm_compute. reflexivity.
  - refine (H5 _ _ _ _ _ _ _ _ _ _ _ _ _ _ _ _ _
              (force_Ok _ (fu_train true) _)).
    vm_compute. reflexivity.
  - refine (H6 _ _ _ _ _ _ _ _ _ _ _ _ _ _ _
              (force_Ok _ (fu_train_full true) _)).
    vm_compute. reflexivity.
Defined.

(** C8.  [FreezeUnfreeze.train_full_dataset] with [prune=False] returns
    [None], and does return once both fits have recorded the metric
    [r2_score]; both fits of [epochs] run in either case, and only with
    [prune=True] is the training history returned. *)
Theorem full_dataset_returns_None {F : Type} {ops : FloatOps F}
    {keras : Keras F} :
  (forall (self : FreezeUnfreeze.t F) xtr ytr epochs bs patience c i1 i2
          verbose gn (w : World F) res self' w',
     FreezeUnfreeze.train_full_dataset self xtr ytr epochs bs patience
       c i1 i2 verbose false gn w = Ok (res, self', w') ->
     res = None /\
     exists new, log w' = new ++ log w /\
                 fit_schedule new = [(epochs, []); (epochs, [])]) /\
  (forall (self : FreezeUnfreeze.t F) xtr ytr epochs bs patience c i1 i2
          verbose gn (w : World F) tl tl2,
     let out := keras_fit (FreezeUnfreeze.m self) xtr ytr bs None epochs [] in
     let m2 := mkModel (layers (unfreeze_all (fitted out)))
                 (Some (mkCompiled "mean_squared_error"
                          (py_half (FreezeUnfreeze.lr self))
                          ["r2_score"; "mse"])) in
     let out2 := keras_fit m2 xtr ytr bs None epochs [] in
     history out !! "r2_score" = Some tl ->
     history out2 !! "r2_score" = Some tl2 ->
     exists w',
       FreezeUnfreeze.train_full_dataset self xtr ytr epochs bs patience
         c i1 i2 verbose false gn w
       = Ok (None, FreezeUnfreeze.set_m self (fitted out2), w')) /\
  (forall (self : FreezeUnfreeze.t F) xtr ytr epochs bs patience c i1 i2
          verbose gn (w : World F) res self' w',
     FreezeUnfreeze.train_full_dataset self xtr ytr epochs bs patience
       c i1 i2 verbose true gn w = Ok (res, self', w') ->
     (exists train_loss, res = Some train_loss) /\
     exists new, log w' = new ++ log w /\
                 fit_schedule new
                   = [(epochs, []); (epochs, []); (2 * epochs, [])]%Z).
Proof.
  split; [|split].
  - intros until w'. intros Hrun.
    apply FU_full_plain_run in Hrun. cbv zeta in Hrun.
    destruct Hrun as (tl & tl2 & _ & _ & -> & _ & Hlog).
    split; [reflexivity|]. eexists. split; [exact Hlog|]. reflexivity.
  - intros. eapply FU_full_plain_total; eassumption.
  - intros until w'. intros Hrun.
    apply FU_full_pruned_run in Hrun. cbv zeta in Hrun.
    destruct Hrun as (tl & tl2 & ind & m3 & ml & names & x25 & _ & _ & _ & _
      & _ & tl3 & _ & -> & _ & Hlog).
    split; [eauto|]. eexists. split; [exact Hlog|]. reflexivity.
Qed.

Lemma full_dataset_returns_None_witness :
  (fst (fst (fu_trained_full false)) = None /\
   exists new,
     log (snd (fu_trained_full false)) = new ++ log (snd fu_new) /\
     fit_schedule new = [(3, []); (3, [])]%Z) /\
  (exists w',
     fu_train_full false
     = Ok (None,
           FreezeUnfreeze.set_m (fst fu_new)
             (fitted
                (keras_fit
                   (mkModel
                      (layers
                         (unfreeze_all
                            (fitted
                               (keras_fit (FreezeUnfreeze.m (fst fu_new))
                                  demo_x demo_y 2%Z None 3%Z []))))
                      (Some (mkCompiled "mean_squared_error"
                               (py_half (FreezeUnfreeze.lr (fst fu_new)))
                               ["r2_score"; "mse"])))
                   demo_x demo_y 2%Z None 3%Z [])),
           w')).
Proof.
  split.
  - refine (proj1 full_dataset_returns_None _ _ _ _ _ _ _ _ _ _ _ _ _ _ _
              (force_Ok _ (fu_train_full false) _)).
    vm_compute. reflexivity.
  - refine (proj1 (proj2 full_dataset_returns_None) (fst fu_new) demo_x
              demo_y 3%Z 2%Z 5%Z 0%Z 0%Z 0%Z 1%Z demo_genes (snd fu_new)
              [0%Z] [0%Z] _ _); reflexivity.
Defined.

Section ReportedR2.
Context {F : Type} {ops : FloatOps F} {keras : Keras F} {laws : FloatLaws F}.

Lemma reported_r2_train (ytr yte : list (list F)) saved x :
  reported_r2 ytr yte (np_r2 ytr (predict saved x)).
Proof. exists saved, x. left. apply np_r2_one_minus_ratio. Qed.

Lemma reported_r2_test (ytr yte : list (list F)) saved x :
  reported_r2 ytr yte (np_r2 yte (predict saved x)).
Proof. exists saved, x. right. apply np_r2_one_minus_ratio. Qed.

Lemma SR_reported_r2 (self : StraightRegression.t F) xtr ytr xte yte epochs
    bs patience c i1 i2 verbose prune gn (w : World F) res self' w' :
  StraightRegression.train self xtr ytr xte yte epochs bs patience
    c i1 i2 verbose prune gn w = Ok (res, self', w') ->
  Forall (reported_r2 ytr yte) (StraightRegression.r2_values res).
Proof.
  intros Hrun. destruct prune.
  - apply SR_train_pruned_run in Hrun. cbv zeta in Hrun.
    destruct Hrun as (saved & tl & vl & ind & m3 & ml & names & x25 & xt25
      & _ & _ & _ & _ & _ & _ & _ & saved2 & tl' & vl' & _ & _ & _ & -> & _).
    repeat constructor; auto using reported_r2_train, reported_r2_test.
  - apply SR_train_plain_run in Hrun. cbv zeta in Hrun.
    destruct Hrun as (saved & tl & vl & _ & _ & _ & -> & _).
    repeat constructor; auto using reported_r2_train, reported_r2_test.
Qed.

Lemma FU_reported_r2 (self : FreezeUnfreeze.t F) xtr ytr xte yte epochs
    bs patience c i1 i2 verbose prune gn (w : World F) res self' w' :
  FreezeUnfreeze.train self xtr ytr xte yte epochs bs patience
    c i1 i2 verbose prune gn w = Ok (res, self', w') ->
  Forall (reported_r2 ytr yte) (FreezeUnfreeze.r2_values res).
Proof.
  intros Hrun. destruct prune.
  - apply FU_train_pruned_run in Hrun. cbv zeta in Hrun.
    destruct Hrun as (saved & saved2 & tl & vl & tl2 & vl2 & ind & m3 & ml
      & names & x25 & xt25 & _ & _ & _ & _ & _ & _ & _ & _ & _ & _
      & saved3 & tl3 & vl3 & _ & _ & _ & -> & _).
    repeat constructor; auto using reported_r2_train, reported_r2_test.
  - apply FU_train_plain_run in Hrun. cbv zeta in Hrun.
    destruct Hrun as (saved & saved2 & tl & vl & tl2 & vl2 & _ & _ & _ & _
      & _ & _ & -> & _).
    repeat constructor; auto using reported_r2_train, reported_r2_test.
Qed.

(** Nothing in [train] depends on the value of the division: once the fit
    has recorded its two metrics and saved a checkpoint, [train] (without
    pruning) returns, with the two R^2 of the checkpoint. *)
Lemma SR_train_plain_returns (self : StraightRegression.t F) xtr ytr xte yte
    epochs bs patience c i1 i2 verbose gn (w : World F) tl vl mb :
  let cbs := [EarlyStopping "val_mean_squared_error" "min" verbose patience;
              ModelCheckpoint (StraightRegression.weights_file self c i1 i2)
                "val_mean_squared_error" "min" verbose true] in
  let out := keras_fit (StraightRegression.m self) xtr ytr bs
               (Some (xte, yte)) epochs cbs in
  history out !! "r2_score" = Some tl ->
  history out !! "val_r2_score" = Some vl ->
  checkpointed out = Some mb ->
  exists w',
    StraightRegression.train self xtr ytr xte yte epochs bs patience
      c i1 i2 verbose false gn w
    = Ok (StraightRegression.Plain
            (one_minus_ratio ytr (predict mb xtr))
            (one_minus_ratio yte (predict mb xte)) tl vl,
          StraightRegression.set_m self (fitted out), w').
Proof.
  intros cbs out Htl Hvl Hc.
  unfold StraightRegression.train, bind. cbn [negb]. unfold fit.
  fold cbs out. rewrite Htl, Hvl. cbn [try_ ret]. rewrite Hc.
  unfold load_model, cbs. cbn [files log foldr write_checkpoint].
  rewrite SR_weights_file_set_m, lookup_insert_eq. unfold save, ret.
  rewrite <- !np_r2_one_minus_ratio. eexists. reflexivity.
Qed.

End ReportedR2.

(** C9, as amended.  [r2_score(y_truth, y_pred)] is
    [1 - sum((y_truth - y_pred)^2) / sum(y_truth^2)], and every R^2 that
    [StraightRegression.train] and [FreezeUnfreeze.train] return is that
    expression for the targets and a prediction.  Nothing guards the
    division: for a target array of zeros the divisor [sum(y_truth^2)] is
    [0].  The division is a division of floats, which raises nothing: the
    expression has a value for every input, and [train] returns it as for
    any other targets. *)
Theorem r2_score_unguarded {F : Type} {ops : FloatOps F} {keras : Keras F}
    {laws : FloatLaws F} :
  (forall y p : list (list F), r2_score y p = one_minus_ratio y p) /\
  (forall (self : StraightRegression.t F) xtr ytr xte yte epochs bs patience
          c i1 i2 verbose prune gn (w : World F) res self' w',
     StraightRegression.train self xtr ytr xte yte epochs bs patience
       c i1 i2 verbose prune gn w = Ok (res, self', w') ->
     Forall (reported_r2 ytr yte) (StraightRegression.r2_values res)) /\
  (forall (self : FreezeUnfreeze.t F) xtr ytr xte yte epochs bs patience
          c i1 i2 verbose prune gn (w : World F) res self' w',
     FreezeUnfreeze.train self xtr ytr xte yte epochs bs patience
       c i1 i2 verbose prune gn w = Ok (res, self', w') ->
     Forall (reported_r2 ytr yte) (FreezeUnfreeze.r2_values res)) /\
  (forall y p : list (list F),
     all_zero y ->
     sum_of_squares y = of_Z 0 /\
     r2_score y p
     = fsub (of_Z 1)
         (fdiv (sum_of (concat (zip_with (zip_with (fun a b =>
                                            fmul (fsub a b) (fsub a b)))
                                         y p)))
               (of_Z 0))) /\
  (forall (self : StraightRegression.t F) xtr ytr xte yte epochs bs patience
          c i1 i2 verbose gn (w : World F) tl vl mb,
     let cbs := [EarlyStopping "val_mean_squared_error" "min" verbose
                   patience;
                 ModelCheckpoint (StraightRegression.weights_file self c i1 i2)
                   "val_mean_squared_error" "min" verbose true] in
     let out := keras_fit (StraightRegression.m self) xtr ytr bs
                  (Some (xte, yte)) epochs cbs in
     history out !! "r2_score" = Some tl ->
     history out !! "val_r2_score" = Some vl ->
     checkpointed out = Some mb ->
     exists w',
       StraightRegression.train self xtr ytr xte yte epochs bs patience
         c i1 i2 verbose false gn w
       = Ok (StraightRegression.Plain
               (one_minus_ratio ytr (predict mb xtr))
               (one_minus_ratio yte (predict mb xte)) tl vl,
             StraightRegression.set_m self (fitted out), w')).
Proof.
  repeat apply conj.
  - apply r2_score_one_minus_ratio.
  - intros until w'. apply SR_reported_r2.
  - intros until w'. apply FU_reported_r2.
  - intros y p Hy. split; [apply sum_of_squares_zeros, Hy|].
    rewrite r2_score_one_minus_ratio. unfold one_minus_ratio.
    rewrite (sum_of_squares_zeros y Hy). reflexivity.
  - intros until mb. apply SR_train_plain_returns.
Qed.

Lemma r2_score_unguarded_witness :
  Forall (reported_r2 demo_y demo_y)
         (StraightRegression.r2_values (fst (fst (sr_trained true)))) /\
  Forall (reported_r2 demo_y demo_y)
         (FreezeUnfreeze.r2_values (fst (fst (fu_trained true)))) /\
  (sum_of_squares zero_y = of_Z 0 /\
   r2_score zero_y [[3%Z]; [4%Z]]
   = fsub (of_Z 1)
       (fdiv (sum_of (concat (zip_with (zip_with (fun a b =>
                                          fmul (fsub a b) (fsub a b)))
                                       zero_y [[3%Z]; [4%Z]])))
             (of_Z 0))) /\
  (exists w', sr_train_zero
     = Ok (StraightRegression.Plain
             (one_minus_ratio zero_y
                (predict (StraightRegression.m (fst sr_new)) demo_x))
             (one_minus_ratio zero_y
                (predict (StraightRegression.m (fst sr_new)) demo_x))
             [0%Z] [0%Z],
           StraightRegression.set_m (fst sr_new)
             (fitted (keras_fit (StraightRegression.m (fst sr_new)) demo_x
                        zero_y 2 (Some (demo_x, zero_y)) 3
                        [EarlyStopping "val_mean_squared_error" "min" 1 5;
                         ModelCheckpoint
                           (StraightRegression.weights_file (fst sr_new) 0 0 0)
                           "val_mean_squared_error" "min" 1 true])),
           w')).
Proof.
  destruct (@r2_score_unguarded Z _ _ _) as (_ & H2 & H3 & H4 & H5).
  split; [|split; [|split]].
  - refine (H2 _ _ _ _ _ _ _ _ _ _ _ _ true _ _ _ _ _
              (force_Ok _ (sr_train true) _)).
    vm_compute. reflexivity.
  - refine (H3 _ _ _ _ _ _ _ _ _ _ _ _ true _ _ _ _ _
              (force_Ok _ (fu_train true) _)).
    vm_compute. reflexivity.
  - apply H4. repeat constructor.
  - apply (H5 (fst sr_new) demo_x zero_y demo_x zero_y 3%Z 2%Z 5%Z 0%Z 0%Z 0%Z
              1%Z demo_genes (snd sr_new) [0%Z] [0%Z]
              (StraightRegression.m (fst sr_new))); reflexivity.
Defined.

(** The computation is total: on targets that are all zero, [train]
    returns, and the two R^2 it returns are the expression with the
    divisor [0]. *)
Lemma zero_targets_do_not_raise :
  all_zero zero_y /\
  is_Ok sr_train_zero = true /\
  Forall (reported_r2 zero_y zero_y)
         (StraightRegression.r2_values (fst (fst sr_trained_zero))).
Proof.
  assert (Hok : is_Ok sr_train_zero = true) by (vm_compute; reflexivity).
  split; [repeat constructor|]. split; [exact Hok|].
  refine (SR_reported_r2 _ _ _ _ _ _ _ _ _ _ _ _ false _ _ _ _ _
            (force_Ok _ sr_train_zero Hok)).
Qed.

(** ** The regulariser *)

Section Regulariser.
Context {F : Type} {ops : FloatOps F} {keras : Keras F}.

Lemma get_config_lookup (e : ElasticNet F) :
  ElasticNet_get_config e !! "l1" = Some (float_ (l1 e)) /\
  ElasticNet_get_config e !! "l2" = Some (float_ (l2 e)).
Proof.
  unfold ElasticNet_get_config. split.
  - apply lookup_insert_eq.
  - rewrite lookup_insert_ne by discriminate. apply lookup_insert_eq.
Qed.

Lemma pruned_from_regulariser (l2 lr : PyNum F) act out saved ind m3 :
  pruned_from l2 lr act out saved ind m3 ->
  exists b1 rest,
    layers m3 = b1 :: rest /\
    kernel_regularizer b1 = Some (RegElasticNet (mkElasticNet (PyInt 0) l2)).
Proof.
  intros Hc%pruned_from_config. rewrite pruned_architecture_layers in Hc.
  destruct (layers m3) as [|b1 rest]; [discriminate|].
  cbn [map] in Hc.
  apply (f_equal (fun cs => match cs with
                            | c :: _ => snd (fst (fst c))
                            | [] => None
                            end)) in Hc.
  exists b1, rest. split; [reflexivity|exact Hc].
Qed.

End Regulariser.

(** C10.  The penalty of [ElasticNet(l1, l2)] on a kernel [x] is [l2] times
    the sum of the squares of all entries plus [l1] times the sum over the
    rows of the L2 norm of the row (the square root of the sum of the
    squares of its entries); [get_config] returns the dict with [float(l1)]
    under ['l1'] and [float(l2)] under ['l2'] and nothing else; the
    regulariser rebuilt from that config holds these two floats and has the
    same penalty on every [x].  The model every pruning stage rebuilds has
    [ElasticNet(l1=0, l2=self.l2)] on its first kernel, whose penalty
    multiplies the sum of the row norms by [0]. *)
Theorem ElasticNet_penalty_and_config {F : Type} {ops : FloatOps F}
    {keras : Keras F} :
  (forall (e : ElasticNet F) (x : list (list F)),
     ElasticNet_call e x
     = ridge_plus_group_lasso (float_of (l1 e)) (float_of (l2 e)) x) /\
  (forall (e : ElasticNet F),
     ElasticNet_get_config e
     = <["l1" := float_of (l1 e)]> (<["l2" := float_of (l2 e)]> ∅)) /\
  (forall (e : ElasticNet F) d1 d2,
     ElasticNet_from_config d1 d2 (ElasticNet_get_config e)
     = mkElasticNet (PyFloat (float_of (l1 e))) (PyFloat (float_of (l2 e)))) /\
  (forall (e : ElasticNet F) d1 d2 (x : list (list F)),
     ElasticNet_call (ElasticNet_from_config d1 d2 (ElasticNet_get_config e)) x
     = ElasticNet_call e x) /\
  (forall (l2 : PyNum F) (x : list (list F)),
     ElasticNet_call (mkElasticNet (PyInt 0) l2) x
     = fadd (fmul (float_of l2) (sum_of_squares x))
            (fmul (of_Z 0) (sum_of (map l2_norm x)))) /\
  (forall (self : StraightRegression.t F) xtr ytr xte yte epochs bs patience
          c i1 i2 verbose gn (w : World F) res self' w',
     StraightRegression.train self xtr ytr xte yte epochs bs patience
       c i1 i2 verbose true gn w = Ok (res, self', w') ->
     rebuilt_without_lasso (log w')
       (StraightRegression.last_weights_file c i1 i2)
       (StraightRegression.l2 self)) /\
  (forall (self : FreezeUnfreeze.t F) xtr ytr xte yte epochs bs patience
          c i1 i2 verbose gn (w : World F) res self' w',
     FreezeUnfreeze.train self xtr ytr xte yte epochs bs patience
       c i1 i2 verbose true gn w = Ok (res, self', w') ->
     rebuilt_without_lasso (log w')
       (FreezeUnfreeze.last_weights_file c i1 i2)
       (FreezeUnfreeze.l2 self)) /\
  (forall (self : FreezeUnfreeze.t F) xtr ytr epochs bs patience
          c i1 i2 verbose gn (w : World F) res self' w',
     FreezeUnfreeze.train_full_dataset self xtr ytr epochs bs patience
       c i1 i2 verbose true gn w = Ok (res, self', w') ->
     rebuilt_without_lasso (log w')
       (FreezeUnfreeze.after_unfreezing_full_dataset_file c i1 i2)
       (FreezeUnfreeze.l2 self)).
Proof.
  split; [|split; [|split; [|split; [|split; [|split; [|split]]]]]].
  - reflexivity.
  - reflexivity.
  - intros e d1 d2. unfold ElasticNet_from_config.
    destruct (get_config_lookup e) as [-> ->]. reflexivity.
  - intros e d1 d2 x. unfold ElasticNet_from_config.
    destruct (get_config_lookup e) as [-> ->]. reflexivity.
  - reflexivity.
  - intros. destruct (SR_prune_stage _ _ _ _ _ _ _ _ _ _ _ _ _ _ _ _ _ H)
      as (saved & ind & m3 & x25 & xt25 & Hpf & _ & _ & Hstage).
    destruct (pruned_from_regulariser _ _ _ _ _ _ _ Hpf)
      as (b1 & rest & Hl & Hk).
    eexists saved, m3, _, b1, rest. split; [exact Hstage|]. auto.
  - intros. destruct (FU_prune_stage _ _ _ _ _ _ _ _ _ _ _ _ _ _ _ _ _ H)
      as (saved & ind & m3 & x25 & xt25 & Hpf & _ & _ & Hstage).
    destruct (pruned_from_regulariser _ _ _ _ _ _ _ Hpf)
      as (b1 & rest & Hl & Hk).
    eexists saved, m3, _, b1, rest. split; [exact Hstage|]. auto.
  - intros. destruct (FU_full_prune_stage _ _ _ _ _ _ _ _ _ _ _ _ _ _ _ H)
      as (saved & ind & m3 & x25 & Hpf & _ & Hstage).
    destruct (pruned_from_regulariser _ _ _ _ _ _ _ Hpf)
      as (b1 & rest & Hl & Hk).
    eexists saved, m3, _, b1, rest. split; [exact Hstage|]. auto.
Qed.

Lemma ElasticNet_penalty_and_config_witness :
  rebuilt_without_lasso (log (snd (sr_trained true)))
    (StraightRegression.last_weights_file 0 0 0)
    (StraightRegression.l2 (fst sr_new)) /\
  rebuilt_without_lasso (log (snd (fu_trained true)))
    (FreezeUnfreeze.last_weights_file 0 0 0)
    (FreezeUnfreeze.l2 (fst fu_new)) /\
  rebuilt_without_lasso (log (snd (fu_trained_full true)))
    (FreezeUnfreeze.after_unfreezing_full_dataset_file 0 0 0)
    (FreezeUnfreeze.l2 (fst fu_new)).
Proof.
  destruct (@ElasticNet_penalty_and_config Z _ _)
    as (_ & _ & _ & _ & _ & H5 & H6 & H7).
  repeat split.
  - refine (H5 _ _ _ _ _ _ _ _ _ _ _ _ _ _ _ _ _
              (force_Ok _ (sr_train true) _)).
    vm_compute. reflexivity.
  - refine (H6 _ _ _ _ _ _ _ _ _ _ _ _ _ _ _ _ _
              (force_Ok _ (fu_train true) _)).
    vm_compute. reflexivity.
  - refine (H7 _ _ _ _ _ _ _ _ _ _ _ _ _ _ _
              (force_Ok _ (fu_train_full true) _)).
    vm_compute. reflexivity.
Defined.

(** * Further properties of the training methods *)

(** ** Errors *)

Section Errors.
Context {F : Type} {ops : FloatOps F} {keras : Keras F}.


End Errors.


Section MoreErrors.
Context {F : Type} {ops : FloatOps F} {keras : Keras F}.


(** X3.  [train] reads the checkpoint file back with [load_model]: when the
    fit's checkpoint has saved nothing and no file of that name is there,
    [ClassificationPreTrain.train] and [StraightRegression.train] raise
    [OSError] (the latter once its fit has recorded both metrics). *)
Theorem no_checkpoint_OSError :
  (forall (self : ClassificationPreTrain.t F) xtr ctr xte cte epochs bs
          patience c i1 i2 verbose (w : World F),
     let cbs := [EarlyStopping "val_loss" "min" verbose patience;
                 ModelCheckpoint (ClassificationPreTrain.weights_file c i1 i2)
                   "val_categorical_crossentropy" "min" verbose true] in
     checkpointed (keras_fit (ClassificationPreTrain.m self) xtr
                     (to_categorical ctr) bs
                     (Some (xte, to_categorical cte)) epochs cbs) = None ->
     files w !! ClassificationPreTrain.weights_file c i1 i2 = None ->
     ClassificationPreTrain.train self xtr ctr xte cte epochs bs patience
       c i1 i2 verbose w = Raise OSError) /\
  (forall (self : StraightRegression.t F) xtr ytr xte yte epochs bs patience
          c i1 i2 verbose (prune : bool) gn (w : World F) tl vl,
     let cbs := [EarlyStopping "val_mean_squared_error" "min" verbose
                   (if prune then 2 * patience else patience)%Z;
                 ModelCheckpoint (StraightRegression.weights_file self c i1 i2)
                   "val_mean_squared_error" "min" verbose true] in
     let out := keras_fit (StraightRegression.m self) xtr ytr bs
                  (Some (xte, yte))
                  (if prune then 2 * epochs else epochs)%Z cbs in
     history out !! "r2_score" = Some tl ->
     history out !! "val_r2_score" = Some vl ->
     checkpointed out = None ->
     files w !! StraightRegression.weights_file self c i1 i2 = None ->
     StraightRegression.train self xtr ytr xte yte epochs bs patience
       c i1 i2 verbose prune gn w = Raise OSError).
Proof.
  split.
  - intros until w. intros cbs Hc Hf.
    unfold ClassificationPreTrain.train, bind, fit. fold cbs.
    rewrite Hc. unfold load_model, cbs.
    cbn [files log foldr write_checkpoint]. rewrite Hf. reflexivity.
  - intros until vl. intros cbs out Htl Hvl Hc Hf.
    unfold StraightRegression.train, bind.
    destruct prune; cbn [negb]; unfold fit; fold cbs out;
      rewrite Htl, Hvl; cbn [try_ ret]; rewrite Hc; unfold load_model, cbs;
      cbn [files log foldr write_checkpoint];
      rewrite SR_weights_file_set_m, Hf; reflexivity.
Qed.


End MoreErrors.


Lemma no_checkpoint_OSError_witness :
  ClassificationPreTrain.train (keras := no_checkpoint_keras) (fst cp_new) demo_x
    [0%Z; 2%Z] demo_x [0%Z; 2%Z] 3 2 5 0 0 0 1 demo_world
  = Raise OSError /\
  StraightRegression.train (keras := no_checkpoint_keras) (fst sr_new) demo_x
    demo_y demo_x demo_y 3 2 5 0 0 0 1 true demo_genes demo_world
  = Raise OSError.
Proof.
  destruct (@no_checkpoint_OSError Z _ no_checkpoint_keras) as (H1 & H2).
  split.
  - apply H1; reflexivity.
  - apply (H2 (fst sr_new) demo_x demo_y demo_x demo_y 3%Z 2%Z 5%Z
              0%Z 0%Z 0%Z 1%Z true demo_genes demo_world [0%Z] [0%Z]);
      reflexivity.
Defined.


(** ** The constructors' failures *)

Section ConstructorErrors.
Context {F : Type} {ops : FloatOps F} {keras : Keras F}.

(** X5.  [FreezeUnfreeze.__init__] reads [unfreeze[0]] to [unfreeze[5]]: a list
    of fewer than six flags raises [IndexError], whatever the other
    arguments; with six or more flags and no pre-trained weights the
    constructor succeeds, and the flags after the sixth play no part in the
    model it builds. *)
Theorem unfreeze_needs_six_flags :
  (forall l1 l2 lr act d out (unfreeze : list bool) ptw h5 (w : World F),
     length unfreeze < 6 ->
     FreezeUnfreeze.__init__ l1 l2 lr act d out unfreeze ptw h5 w
       = Raise IndexError) /\
  (forall l1 l2 lr act d out (unfreeze : list bool) h5 (w : World F),
     6 <= length unfreeze ->
     exists self w',
       FreezeUnfreeze.__init__ l1 l2 lr act d out unfreeze false h5 w
         = Ok (self, w') /\
       FreezeUnfreeze.__init__ l1 l2 lr act d out (take 6 unfreeze) false
         h5 w
         = Ok (FreezeUnfreeze.mk l1 l2 lr act d out (take 6 unfreeze) false
                 (FreezeUnfreeze.m self), w')).
Proof.
  split.
  - intros until w. intros Hlen.
    destruct unfreeze as [|t0 [|t1 [|t2 [|t3 [|t4 [|t5 rest]]]]]];
      cbn [length] in Hlen; try lia; reflexivity.
  - intros until w. intros Hlen.
    destruct unfreeze as [|t0 [|t1 [|t2 [|t3 [|t4 [|t5 rest]]]]]];
      cbn [length] in Hlen; try lia.
    unfold FreezeUnfreeze.__init__, bind, try_, ret, compile.
    cbn [lookup list_lookup take]. eexists _, _. split; reflexivity.
Qed.

(** X6.  With [pre_trained_weights=True] the constructors read the given file:
    they raise [OSError] when it does not exist, and [ValueError] when its
    layer [W1] has a kernel of another shape than [(input_dim, 512)] (as
    after pre-training on another number of input features). *)
Theorem pretrained_file_errors :
  (forall l1 l2 lr act d out path (w : World F),
     files w !! path = None ->
     StraightRegression.__init__ l1 l2 lr act d out true (Some path) w
       = Raise OSError) /\
  (forall l1 l2 lr act d out (unfreeze : list bool) path (w : World F),
     6 <= length unfreeze ->
     files w !! path = None ->
     FreezeUnfreeze.__init__ l1 l2 lr act d out unfreeze true (Some path) w
       = Raise OSError) /\
  (forall l1 l2 lr act d out path (w : World F) file s,
     files w !! path = Some file ->
     get_layer file "W1" = Some s ->
     has_shape d 512 (kernel s) = false ->
     StraightRegression.__init__ l1 l2 lr act d out true (Some path) w
       = Raise ValueError).
Proof.
  split; [|split].
  - intros until w. intros Hf.
    unfold StraightRegression.__init__, bind, try_, ret, load_weights.
    rewrite Hf. reflexivity.
  - intros until w. intros Hlen Hf.
    destruct unfreeze as [|t0 [|t1 [|t2 [|t3 [|t4 [|t5 rest]]]]]];
      cbn [length] in Hlen; try lia.
    unfold FreezeUnfreeze.__init__, bind, try_, ret, load_weights.
    cbn [lookup list_lookup]. rewrite Hf. reflexivity.
  - intros a1 a2 lr act d out path w file s Hf Hs Hshape.
    unfold StraightRegression.__init__, bind, try_, ret, load_weights.
    rewrite Hf, regression_architecture_layers.
    assert (Hnone : load_layer_by_name file
              (new_Dense "W1" 512 d act (reg_ElasticNet a1 a2) (reg_l2 a2)
                         true) = None).
    { unfold load_layer_by_name. cbn [name new_Dense]. rewrite Hs.
      unfold Dense_set_weights. cbn [input_dim units new_Dense].
      rewrite Hshape. reflexivity. }
    cbn [mapM]. rewrite Hnone. reflexivity.
Qed.

End ConstructorErrors.

Lemma unfreeze_needs_six_flags_witness :
  FreezeUnfreeze.__init__ (PyFloat 1%Z) (PyFloat 2%Z) (PyFloat 4%Z) "relu"
    26 1 [true; true; false] false None demo_world = Raise IndexError /\
  exists self w',
    FreezeUnfreeze.__init__ (PyFloat 1%Z) (PyFloat 2%Z) (PyFloat 4%Z) "relu"
      26 1 [true; true; false; false; true; true; false; true] false None
      demo_world = Ok (self, w') /\
    FreezeUnfreeze.__init__ (PyFloat 1%Z) (PyFloat 2%Z) (PyFloat 4%Z) "relu"
      26 1 (take 6 [true; true; false; false; true; true; false; true])
      false None demo_world
    = Ok (FreezeUnfreeze.mk (PyFloat 1%Z) (PyFloat 2%Z) (PyFloat 4%Z) "relu"
            26 1 (take 6 [true; true; false; false; true; true; false; true])
            false (FreezeUnfreeze.m self), w').
Proof.
  split.
  - apply (proj1 unfreeze_needs_six_flags). simpl. lia.
  - apply (proj2 unfreeze_needs_six_flags). simpl. lia.
Defined.

Lemma pretrained_file_errors_witness :
  StraightRegression.__init__ (PyFloat 1%Z) (PyFloat 2%Z) (PyFloat 4%Z)
    "relu" 26 1 true (Some "pretrained.h5") demo_world = Raise OSError /\
  FreezeUnfreeze.__init__ (PyFloat 1%Z) (PyFloat 2%Z) (PyFloat 4%Z) "relu"
    26 1 [true; true; false; false; true; true] true (Some "pretrained.h5")
    demo_world = Raise OSError /\
  StraightRegression.__init__ (PyFloat 1%Z) (PyFloat 2%Z) (PyFloat 4%Z)
    "relu" 26 1 true (Some "pretrained.h5")
    (mkWorld {[ "pretrained.h5" :=
                mkModel [mkDense "W1" 512 3 "relu" None None true
                           [[1%Z]; [2%Z]; [3%Z]] [0%Z]] None ]} [])
  = Raise ValueError.
Proof.
  destruct (@pretrained_file_errors Z _ _) as (H1 & H2 & H3).
  split; [|split].
  - apply H1. reflexivity.
  - apply H2; [simpl; lia|reflexivity].
  - eapply H3; reflexivity.
Defined.

(** ** The slice [[-25:]] and the restriction to the chosen columns *)

Section Restriction.
Context {F : Type} {ops : FloatOps F}.

Lemma take_indices_is_Some {A} (a : list A) (idx : list nat) :
  is_Some (take_indices a idx) <-> Forall (fun i => i < length a) idx.
Proof.
  unfold take_indices. rewrite mapM_is_Some. apply Forall_iff. intros i. cbn.
  apply lookup_lt_is_Some.
Qed.

Lemma take_indices_length {A} (a : list A) (idx : list nat) r :
  take_indices a idx = Some r -> length r = length idx.
Proof. unfold take_indices. intros Hr. symmetry. eapply length_mapM, Hr. Qed.

Lemma argsort_norms (weight : list (list F)) :
  argsort (norm_axis1 weight) ≡ₚ seq 0 (length weight).
Proof.
  rewrite argsort_Permutation. unfold norm_axis1. rewrite length_map.
  reflexivity.
Qed.

Lemma top25_by_norm_length (weight : list (list F)) :
  length (top25_by_norm weight) = Nat.min 25 (length weight).
Proof.
  unfold top25_by_norm, last25. rewrite length_drop.
  rewrite (Permutation_length (argsort_norms weight)), length_seq. lia.
Qed.

Lemma top25_by_norm_lt (weight : list (list F)) i :
  i ∈ top25_by_norm weight -> i < length weight.
Proof.
  unfold top25_by_norm, last25. intros Hi.
  assert (Hin : i ∈ argsort (norm_axis1 weight)).
  { rewrite <- (take_drop (length (argsort (norm_axis1 weight)) - 25)
                  (argsort (norm_axis1 weight))).
    apply elem_of_app. right. exact Hi. }
  rewrite argsort_norms in Hin. apply elem_of_seq in Hin. lia.
Qed.


(** X8.  The slice keeps [min 25 n] distinct row indices of a kernel of [n]
    rows; a kernel of at most 25 rows keeps all its rows. *)
Theorem top25_by_norm_slice (weight : list (list F)) :
  length (top25_by_norm weight) = Nat.min 25 (length weight) /\
  NoDup (top25_by_norm weight) /\
  (forall i, i ∈ top25_by_norm weight -> i < length weight) /\
  (length weight <= 25 ->
   top25_by_norm weight ≡ₚ seq 0 (length weight)).
Proof.
  split; [apply top25_by_norm_length|].
  split; [|split; [apply top25_by_norm_lt|]].
  - pose proof (argsort_norms weight) as Hp.
    assert (Hnd : NoDup (argsort (norm_axis1 weight)))
      by (rewrite Hp; apply NoDup_seq).
    unfold top25_by_norm, last25.
    rewrite <- (take_drop (length (argsort (norm_axis1 weight)) - 25)
                  (argsort (norm_axis1 weight))) in Hnd.
    apply NoDup_app in Hnd. tauto.
  - intros Hle. pose proof (argsort_norms weight) as Hp.
    unfold top25_by_norm, last25.
    replace (length (argsort (norm_axis1 weight)) - 25) with 0.
    + rewrite drop_0. exact Hp.
    + rewrite (Permutation_length Hp), length_seq. lia.
Qed.

(** X9.  Restricting a data matrix that has one column per row of the kernel
    to the chosen columns never raises: it keeps every sample and leaves
    [min 25 n] columns. *)
Theorem select_top25_columns (weight x : list (list F)) :
  Forall (fun row => length row = length weight) x ->
  exists x25,
    select_columns x (top25_by_norm weight) = Some x25 /\
    length x25 = length x /\
    Forall (fun row => length row = Nat.min 25 (length weight)) x25.
Proof.
  intros Hx.
  assert (Hsome : is_Some (select_columns x (top25_by_norm weight))).
  { unfold select_columns. apply mapM_is_Some.
    eapply Forall_impl; [exact Hx|]. intros row Hrow. cbn.
    apply take_indices_is_Some.
    apply Forall_forall. intros i Hi. rewrite Hrow.
    apply top25_by_norm_lt, Hi. }
  destruct Hsome as [x25 Hx25]. exists x25. split; [exact Hx25|].
  unfold select_columns in Hx25. split.
  - symmetry. eapply length_mapM, Hx25.
  - apply mapM_Some in Hx25.
    induction Hx25 as [|row r x x25 Hr _ IH]; constructor.
    + apply take_indices_length in Hr as ->. apply top25_by_norm_length.
    + apply IH. inversion Hx; assumption.
Qed.

End Restriction.

Lemma select_top25_columns_witness :
  exists x25,
    select_columns demo_x
      (top25_by_norm (kernel_initializer "W1" 26 512)) = Some x25 /\
    length x25 = length demo_x /\
    Forall (fun row => length row
                       = Nat.min 25 (length (kernel_initializer "W1" 26 512)))
           x25.
Proof.
  apply select_top25_columns. repeat constructor.
Defined.

Lemma top25_by_norm_slice_witness :
  top25_by_norm [[3%Z]; [1%Z]; [2%Z]] ≡ₚ seq 0 3.
Proof.
  apply (proj2 (proj2 (proj2 (top25_by_norm_slice [[3%Z]; [1%Z]; [2%Z]])))).
  simpl. lia.
Defined.


(** ** The files a training run writes *)

(** Looking a file up that none of the writes of a run has touched. *)
Ltac untouched :=
  repeat first
    [ rewrite lookup_insert_ne by congruence
    | progress cbn [files foldr write_checkpoint]
    | match goal with
      | H : files _ = _ |- _ => rewrite H
      | |- context [match ?o with Some _ => _ | None => _ end] => destruct o
      end ];
  try reflexivity.

Section FilesWritten.
Context {F : Type} {ops : FloatOps F} {keras : Keras F}.

(** X10.  [StraightRegression.train] writes no other file than its checkpoint
    file, its file of last weights and (when it prunes) the checkpoint file
    of the pruned model; without pruning the file of last weights holds the
    model that is in [self.m] when [train] returns. *)
Theorem StraightRegression_files :
  forall (self : StraightRegression.t F) xtr ytr xte yte epochs bs patience
         c i1 i2 verbose prune gn (w : World F) res self' w',
    StraightRegression.train self xtr ytr xte yte epochs bs patience
      c i1 i2 verbose prune gn w = Ok (res, self', w') ->
    (forall p,
       p <> StraightRegression.weights_file self c i1 i2 ->
       p <> StraightRegression.last_weights_file c i1 i2 ->
       p <> StraightRegression.weights_after_pruning_file self c i1 i2 ->
       files w' !! p = files w !! p) /\
    (prune = false ->
     files w' !! StraightRegression.last_weights_file c i1 i2
       = Some (StraightRegression.m self')).
Proof.
  intros until w'. intros Hrun. unfold StraightRegression.train in Hrun.
  destruct prune; cbn [negb] in Hrun; cbv beta iota zeta in Hrun.
  - mstep Hrun as a Hfit. mstep Hrun as tl Htl. mstep Hrun as vl Hvl.
    mstep Hrun as saved Hsaved. mstep Hrun as u Hsave.
    apply bind_Ok in Hrun as ([ind m3] & w3 & Hpr & Hrun).
    apply prune_rebuild_Ok in Hpr
      as (sv & names & ml & _ & _ & _ & _ & Hfiles & _).
    cbn [files log] in Hfiles. cbv beta iota zeta in Hrun.
    mstep Hrun as x25 Hx25. mstep Hrun as xt25 Hxt25.
    mstep Hrun as a' Hfit'. mstep Hrun as tl' Htl'. mstep Hrun as vl' Hvl'.
    mstep Hrun as saved2 Hsaved2.
    mstep Hrun as x25' Hx25'. mstep Hrun as xt25' Hxt25'.
    apply ret_Ok in Hrun. inversion Hrun; subst res self' w'; clear Hrun.
    clear Hsaved Hsaved2.
    rewrite ?SR_weights_file_set_m, ?SR_weights_after_pruning_file_set_m in *.
    split; [|discriminate]. intros p H1 H2 H3. untouched.
  - mstep Hrun as a Hfit. mstep Hrun as tl Htl. mstep Hrun as vl Hvl.
    mstep Hrun as saved Hsaved. mstep Hrun as u Hsave.
    apply ret_Ok in Hrun. inversion Hrun; subst res self' w'; clear Hrun.
    clear Hsaved.
    cbn [StraightRegression.m StraightRegression.set_m] in *.
    rewrite ?SR_weights_file_set_m in *.
    split.
    + intros p H1 H2 H3. untouched.
    + intros _. cbn [files]. apply lookup_insert_eq.
Qed.

End FilesWritten.

Section FreezeUnfreezeFiles.
Context {F : Type} {ops : FloatOps F} {keras : Keras F}.
Import FreezeUnfreeze.

Ltac same_files :=
  repeat first
    [ rewrite (proj1 (FU_file_set_m _ _ _ _ _)) in *
    | rewrite (proj1 (proj2 (FU_file_set_m _ _ _ _ _))) in *
    | rewrite (proj2 (proj2 (FU_file_set_m _ _ _ _ _))) in * ].

(** X11.  [FreezeUnfreeze.train] writes no other file than the checkpoint files
    of its stages and its file of last weights; without pruning the file of
    last weights holds the model that is in [self.m] when [train]
    returns. *)
Theorem FreezeUnfreeze_files :
  forall (self : FreezeUnfreeze.t F) xtr ytr xte yte epochs bs patience
         c i1 i2 verbose prune gn (w : World F) res self' w',
    FreezeUnfreeze.train self xtr ytr xte yte epochs bs patience
      c i1 i2 verbose prune gn w = Ok (res, self', w') ->
    (forall p,
       p <> FreezeUnfreeze.before_unfreezing_file self c i1 i2 ->
       p <> FreezeUnfreeze.after_unfreezing_file self c i1 i2 ->
       p <> FreezeUnfreeze.last_weights_file c i1 i2 ->
       p <> FreezeUnfreeze.after_unfreezing_and_pruning_file self c i1 i2 ->
       files w' !! p = files w !! p) /\
    (prune = false ->
     files w' !! FreezeUnfreeze.last_weights_file c i1 i2
       = Some (FreezeUnfreeze.m self')).
Proof.
  intros until w'. intros Hrun.
  pose (cbs := [EarlyStopping "val_mean_squared_error" "min" verbose patience;
                ModelCheckpoint (before_unfreezing_file self c i1 i2)
                  "val_mean_squared_error" "min" verbose true]).
  pose (out := keras_fit (m self) xtr ytr bs (Some (xte, yte)) epochs cbs).
  pose (m2 := mkModel (layers (unfreeze_all (fitted out)))
                (Some (mkCompiled "mean_squared_error" (py_half (lr self))
                         ["r2_score"; "mse"]))).
  pose (cbs2 := [EarlyStopping "val_mean_squared_error" "min" 1 patience;
                 ModelCheckpoint (after_unfreezing_file self c i1 i2)
                   "val_mean_squared_error" "min" verbose true]).
  pose (out2 := keras_fit m2 xtr ytr bs (Some (xte, yte)) epochs cbs2).
  unfold train in Hrun. cbv beta iota zeta in Hrun.
  mstep Hrun as a Hfit. fold cbs out in Hrun.
  mstep Hrun as tl Htl. mstep Hrun as vl Hvl.
  mstep Hrun as mc Hmc. cbn [m set_m lr] in Hrun. fold m2 in Hrun.
  mstep Hrun as a2 Hfit2. same_files. fold cbs2 out2 in Hrun.
  mstep Hrun as tl2 Htl2. mstep Hrun as vl2 Hvl2.
  mstep Hrun as saved Hsaved. mstep Hrun as saved2 Hsaved2.
  mstep Hrun as u Hsave. clear Hsaved Hsaved2.
  destruct prune.
  - apply bind_Ok in Hrun as ([ind m3] & w3 & Hpr & Hrun).
    apply prune_rebuild_Ok in Hpr
      as (sv & names & ml & _ & _ & _ & _ & Hfiles & _).
    cbn [files log m set_m] in *.
    cbv beta iota zeta in Hrun. cbn [m set_m l2 lr act output_dim] in *.
    same_files.
    mstep Hrun as x25 Hx25. mstep Hrun as xt25 Hxt25.
    mstep Hrun as a3 Hfit3.
    mstep Hrun as tl3 Htl3. mstep Hrun as vl3 Hvl3.
    mstep Hrun as saved3 Hsaved3.
    mstep Hrun as x25' Hx25'. mstep Hrun as xt25' Hxt25'.
    apply ret_Ok in Hrun. inversion Hrun; subst res self' w'; clear Hrun.
    clear Hsaved3.
    cbn [files log m set_m] in *. same_files. unfold cbs, cbs2 in Hfiles.
    split; [|discriminate]. intros p H1 H2 H3 H4. untouched.
  - apply ret_Ok in Hrun. inversion Hrun; subst res self' w'; clear Hrun.
    cbn [files log m set_m] in *. same_files. unfold cbs, cbs2.
    split.
    + intros p H1 H2 H3 H4. untouched.
    + intros _. apply lookup_insert_eq.
Qed.

(** The three files of [train_full_dataset] have different names. *)
Lemma full_dataset_files_distinct c i1 i2 :
  FreezeUnfreeze.before_unfreezing_full_dataset_file c i1 i2
    <> FreezeUnfreeze.after_unfreezing_full_dataset_file c i1 i2 /\
  FreezeUnfreeze.after_unfreezing_ap_full_dataset_file c i1 i2
    <> FreezeUnfreeze.after_unfreezing_full_dataset_file c i1 i2 /\
  FreezeUnfreeze.after_unfreezing_ap_full_dataset_file c i1 i2
    <> FreezeUnfreeze.before_unfreezing_full_dataset_file c i1 i2.
Proof.
  unfold FreezeUnfreeze.before_unfreezing_full_dataset_file,
    FreezeUnfreeze.after_unfreezing_full_dataset_file,
    FreezeUnfreeze.after_unfreezing_ap_full_dataset_file, format_ids.
  cbn [format]. repeat split; discriminate.
Qed.


End FreezeUnfreezeFiles.

Lemma StraightRegression_files_witness :
  (forall p,
     p <> StraightRegression.weights_file (fst sr_new) 0 0 0 ->
     p <> StraightRegression.last_weights_file 0 0 0 ->
     p <> StraightRegression.weights_after_pruning_file (fst sr_new) 0 0 0 ->
     files (snd (sr_trained false)) !! p = files (snd sr_new) !! p) /\
  (false = false ->
   files (snd (sr_trained false)) !! StraightRegression.last_weights_file 0 0 0
     = Some (StraightRegression.m (snd (fst (sr_trained false))))).
Proof.
  refine (StraightRegression_files _ _ _ _ _ _ _ _ _ _ _ _ false _ _ _ _ _
            (force_Ok _ (sr_train false) _)).
  vm_compute. reflexivity.
Defined.

Lemma FreezeUnfreeze_files_witness :
  (forall p,
     p <> FreezeUnfreeze.before_unfreezing_file (fst fu_new) 0 0 0 ->
     p <> FreezeUnfreeze.after_unfreezing_file (fst fu_new) 0 0 0 ->
     p <> FreezeUnfreeze.last_weights_file 0 0 0 ->
     p <> FreezeUnfreeze.after_unfreezing_and_pruning_file (fst fu_new) 0 0 0
     -> files (snd (fu_trained false)) !! p = files (snd fu_new) !! p) /\
  (false = false ->
   files (snd (fu_trained false)) !! FreezeUnfreeze.last_weights_file 0 0 0
     = Some (FreezeUnfreeze.m (snd (fst (fu_trained false))))).
Proof.
  refine (FreezeUnfreeze_files _ _ _ _ _ _ _ _ _ _ _ _ false _ _ _ _ _
            (force_Ok _ (fu_train false) _)).
  vm_compute. reflexivity.
Defined.

